(** * ForensicX integrity checker: baseline snapshots and verification reports

    A shallow embedding of [src/forensicx/integrity_checker.py]
    ([calculate_file_hashes], [generate_baseline], [verify_integrity]) and of
    the baseline step of [src/forensicx/cli.py] ([main]), followed by the
    properties of the change report.

    Conventions of the embedding.
    - A Python [dict] with string keys is an insertion-ordered association
      list ([PyDict]): [list(d.keys())] and [len(d)] observe that order.
    - A Python [set] of strings is a [gset string]; the order in which a
      [for] loop visits it is not fixed by the language (string hashing is
      seeded per process), so every loop over a set takes its order from a
      [SetOrder], an arbitrary enumeration of the set.
    - Exceptions are explicit: a call either returns or raises ([outcome]),
      and a [try] block is a computation over the object it mutates, whose
      mutations persist when the block is left by an exception ([py]).
    - What [json.load] returns is a [json] value of any shape.  The documents
      that [generate_baseline] builds are typed ([Baseline.t]) and are
      written to a file as the JSON value [Baseline.to_json] gives.
    - An instant is kept as a number; the ISO-8601 text that the code stores
      is an injective rendering of it ([isoformat]).
    - Logging is not modelled. *)

From Stdlib Require Import ZArith.
From stdpp Require Import base strings list gmap sets pretty.

#[local] Set Warnings "-clear-no-such-hyp".

Local Open Scope string_scope.
Local Open Scope list_scope.

(** ** Python dictionaries keyed by strings *)

Module PyDict.
Section ops.
Context {V : Type}.

(** [d.get(k)] *)
Fixpoint get (d : list (string * V)) (k : string) : option V :=
  match d with
  | [] => None
  | (k', v) :: d' => if decide (k' = k) then Some v else get d' k
  end.

(** [d[k] = v]: an existing key keeps its position, a new one goes last. *)
Fixpoint setitem (d : list (string * V)) (k : string) (v : V)
  : list (string * V) :=
  match d with
  | [] => [(k, v)]
  | (k', v') :: d' =>
      if decide (k' = k) then (k, v) :: d' else (k', v') :: setitem d' k v
  end.

(** [list(d.keys())] *)
Definition keys (d : list (string * V)) : list string := d.*1.

(** [set(d.keys())] *)
Definition key_set (d : list (string * V)) : gset string :=
  list_to_set (keys d).

(** [k in d] *)
Definition contains (d : list (string * V)) (k : string) : bool :=
  match get d k with Some _ => true | None => false end.

(** [len(d)] *)
Definition len (d : list (string * V)) : nat := length d.
End ops.
End PyDict.

Abbreviation dict V := (list (string * V)) (only parsing).

(** ** Outcomes and computations over a mutated object *)

Inductive outcome (A : Type) : Type :=
| Return (a : A)
| Raise (e : string).
Arguments Return {A} a.
Arguments Raise {A} e.

(** A computation that mutates an object of type [S] and returns or raises;
    the object is handed back in both cases. *)
Definition py (S A : Type) : Type := S → outcome A * S.

Definition py_ret {S A} (a : A) : py S A := λ s, (Return a, s).

Definition py_bind {S A B} (m : py S A) (k : A → py S B) : py S B :=
  λ s, match m s with
       | (Return a, s') => k a s'
       | (Raise e, s') => (Raise e, s')
       end.

Definition py_lift {S A} (o : outcome A) : py S A := λ s, (o, s).

Definition py_modify {S} (f : S → S) : py S unit := λ s, (Return tt, f s).

(** [try: body except Exception as e: handler(e)] *)
Definition py_try {S A} (body : py S A) (handler : string → py S A) : py S A :=
  λ s, match body s with
       | (Return a, s') => (Return a, s')
       | (Raise e, s') => handler e s'
       end.

(** [for x in xs: body(x)] *)
Fixpoint py_for {S X} (xs : list X) (body : X → py S unit) : py S unit :=
  match xs with
  | [] => py_ret tt
  | x :: xs' => py_bind (body x) (λ _, py_for xs' body)
  end.

Global Instance py_mret {S} : MRet (py S) := λ A, py_ret.
Global Instance py_mbind {S} : MBind (py S) := λ A B k m, py_bind m k.

(** [d[k]] raises [KeyError] on an absent key. *)
Definition getitem {V} (d : dict V) (k : string) : outcome V :=
  match PyDict.get d k with
  | Some v => Return v
  | None => Raise ("KeyError: " +:+ k)
  end.

(** ** Iteration order of a set *)

Record SetOrder : Type := {
  iter :> gset string → list string;
  iter_perm : ∀ X, iter X ≡ₚ elements X
}.

Definition canonical_order : SetOrder :=
  {| iter := elements; iter_perm := λ X, reflexivity (elements X) |}.

Definition reversed_order : SetOrder :=
  {| iter := λ X, reverse (elements X);
     iter_perm := λ X, reverse_Permutation (elements X) |}.

(** ** JSON values *)

(** A value as [json.load] returns it: [None], a truth value, an integer, a
    string, a list or a dictionary.  Numbers with a fraction or an exponent
    are not modelled. *)
#[local] Set Warnings "-register-all".
Inductive json : Type :=
| JNull
| JBool (b : bool)
| JInt (n : Z)
| JString (s : string)
| JArray (items : list json)
| JObject (members : list (string * json)).
#[local] Set Warnings "register-all".

(** [type(v).__name__] *)
Definition type_name (v : json) : string :=
  match v with
  | JNull => "NoneType"
  | JBool _ => "bool"
  | JInt _ => "int"
  | JString _ => "str"
  | JArray _ => "list"
  | JObject _ => "dict"
  end.

(** The dictionary behind a value on which the dictionary method [method]
    is called; any other value has no such method ([AttributeError]). *)
Definition as_dict (v : json) (method : string) : outcome (dict json) :=
  match v with
  | JObject members => Return members
  | _ => Raise ("'" +:+ type_name v +:+ "' object has no attribute '"
                +:+ method +:+ "'")
  end.

(** [d.get(key)]: [None] for an absent key. *)
Definition get_or_none (d : dict json) (key : string) : json :=
  default JNull (PyDict.get d key).

(** [a == b].  A truth value equals the integer 1 or 0; lists are compared
    item by item, dictionaries key by key whatever the order of the keys. *)
Fixpoint py_eq (a b : json) {struct a} : bool :=
  match a, b with
  | JNull, JNull => true
  | JBool x, JBool y => bool_decide (x = y)
  | JBool x, JInt n | JInt n, JBool x =>
      bool_decide (n = if x then 1 else 0)%Z
  | JInt n, JInt m => bool_decide (n = m)
  | JString s, JString t => bool_decide (s = t)
  | JArray items, JArray items' =>
      (fix all2 (l l' : list json) : bool :=
         match l, l' with
         | [], [] => true
         | x :: l, y :: l' => py_eq x y && all2 l l'
         | _, _ => false
         end) items items'
  | JObject members, JObject members' =>
      bool_decide (length members = length members')
      && (fix all (l : list (string * json)) : bool :=
            match l with
            | [] => true
            | (k, v) :: l =>
                match PyDict.get members' k with
                | Some v' => py_eq v v'
                | None => false
                end && all l
            end) members
  | _, _ => false
  end.

(** The ISO-8601 text of an instant ([isoformat()]), standing as the decimal
    text of its number. *)
Definition isoformat (t : Z) : string := pretty t.

(** ** Data model *)

(** One entry of [baseline['files']]: a JSON object whose three keys are all
    written by [generate_baseline] and read back with [.get], so a record
    loaded from disk may lack any of them. *)
Record FileInfo : Type := {
  hashes : option (dict string);
  size : option Z;
  mtime : option Z
}.

Global Instance FileInfo_eq_dec : EqDecision FileInfo.
Proof. solve_decision. Defined.

(** The record as the JSON object that [json.dump] writes for it. *)
Definition info_to_json (info : FileInfo) : json :=
  JObject
    (option_list ((λ h, ("hashes", JObject (prod_map id JString <$> h)))
                    <$> hashes info)
     ++ option_list ((λ n, ("size", JInt n)) <$> size info)
     ++ option_list ((λ t, ("mtime", JString (isoformat t))) <$> mtime info)).

Module Baseline.
Record t : Type := {
  timestamp : nat;
  mount_point : string;
  files : dict FileInfo;
  errors : list string
}.

Definition set_file (rel_path : string) (info : FileInfo) (b : t) : t :=
  {| timestamp := timestamp b; mount_point := mount_point b;
     files := PyDict.setitem (files b) rel_path info; errors := errors b |}.

Definition append_error (msg : string) (b : t) : t :=
  {| timestamp := timestamp b; mount_point := mount_point b;
     files := files b; errors := errors b ++ [msg] |}.

(** The document as the JSON object that [json.dump] writes for it. *)
Definition to_json (b : t) : json :=
  JObject [("timestamp", JString (isoformat (Z.of_nat (timestamp b))));
           ("mount_point", JString (mount_point b));
           ("files", JObject (prod_map id info_to_json <$> files b));
           ("errors", JArray (JString <$> errors b))].
End Baseline.

(** The entries of a report carry records of the previous baseline as they
    were loaded.  The type [P] of these records is [json] in
    [verify_integrity] and [FileInfo] in the comparison of two typed
    documents. *)
Module Modification.
Record t (P : Type) : Type := {
  path : string;
  previous : P;
  current : FileInfo;
  changes : list string
}.
Arguments path {P} _.
Arguments previous {P} _.
Arguments current {P} _.
Arguments changes {P} _.

Definition map {P Q} (f : P → Q) (m : t P) : t Q :=
  {| path := path m; previous := f (previous m);
     current := current m; changes := changes m |}.
End Modification.

Module Entry.
Record t (R : Type) : Type := { path : string; info : R }.
Arguments path {R} _.
Arguments info {R} _.

Definition map {P Q} (f : P → Q) (e : t P) : t Q :=
  {| path := path e; info := f (info e) |}.
End Entry.

(** An element of [verification_results['files']['new']]: the list holds bare
    path strings on one code path and [{'path', 'info'}] objects on the
    other. *)
Inductive NewItem : Type :=
| BarePath (path : string)
| WithInfo (e : Entry.t FileInfo).

Definition new_item_path (n : NewItem) : string :=
  match n with
  | BarePath p => p
  | WithInfo e => Entry.path e
  end.

Module Report.
Record Files (P : Type) : Type := {
  unchanged : list string;
  modified : list (Modification.t P);
  new : list NewItem;
  missing : list (Entry.t P)
}.
Arguments unchanged {P} _.
Arguments modified {P} _.
Arguments new {P} _.
Arguments missing {P} _.

Record Summary : Type := {
  total_files : nat;
  unchanged_files : nat;
  modified_files : nat;
  new_files : nat;
  missing_files : nat
}.

Record t (P : Type) : Type := {
  timestamp : nat;
  mount_point : string;
  baseline_file : string;
  files : Files P;
  summary : Summary;
  errors : list string
}.
Arguments timestamp {P} _.
Arguments mount_point {P} _.
Arguments baseline_file {P} _.
Arguments files {P} _.
Arguments summary {P} _.
Arguments errors {P} _.

Section updates.
Context {P : Type}.

Definition with_files (f : Files P → Files P) (r : t P) : t P :=
  {| timestamp := timestamp r; mount_point := mount_point r;
     baseline_file := baseline_file r; files := f (files r);
     summary := summary r; errors := errors r |}.

Definition with_summary (f : Summary → Summary) (r : t P) : t P :=
  {| timestamp := timestamp r; mount_point := mount_point r;
     baseline_file := baseline_file r; files := files r;
     summary := f (summary r); errors := errors r |}.

Definition append_error (msg : string) (r : t P) : t P :=
  {| timestamp := timestamp r; mount_point := mount_point r;
     baseline_file := baseline_file r; files := files r;
     summary := summary r; errors := errors r ++ [msg] |}.

(** [files['unchanged'].append(path)] and its siblings *)
Definition append_unchanged (p : string) (f : Files P) : Files P :=
  {| unchanged := unchanged f ++ [p]; modified := modified f;
     new := new f; missing := missing f |}.
Definition append_modified (m : Modification.t P) (f : Files P) : Files P :=
  {| unchanged := unchanged f; modified := modified f ++ [m];
     new := new f; missing := missing f |}.
Definition append_new (n : NewItem) (f : Files P) : Files P :=
  {| unchanged := unchanged f; modified := modified f;
     new := new f ++ [n]; missing := missing f |}.
Definition append_missing (e : Entry.t P) (f : Files P) : Files P :=
  {| unchanged := unchanged f; modified := modified f;
     new := new f; missing := missing f ++ [e] |}.
Definition set_new (ns : list NewItem) (f : Files P) : Files P :=
  {| unchanged := unchanged f; modified := modified f;
     new := ns; missing := missing f |}.
End updates.

(** [summary['unchanged_files'] += 1] and its siblings *)
Definition incr_unchanged (s : Summary) : Summary :=
  {| total_files := total_files s; unchanged_files := unchanged_files s + 1;
     modified_files := modified_files s; new_files := new_files s;
     missing_files := missing_files s |}.
Definition incr_modified (s : Summary) : Summary :=
  {| total_files := total_files s; unchanged_files := unchanged_files s;
     modified_files := modified_files s + 1; new_files := new_files s;
     missing_files := missing_files s |}.
Definition incr_new (s : Summary) : Summary :=
  {| total_files := total_files s; unchanged_files := unchanged_files s;
     modified_files := modified_files s; new_files := new_files s + 1;
     missing_files := missing_files s |}.
Definition incr_missing (s : Summary) : Summary :=
  {| total_files := total_files s; unchanged_files := unchanged_files s;
     modified_files := modified_files s; new_files := new_files s;
     missing_files := missing_files s + 1 |}.
Definition set_new_files (n : nat) (s : Summary) : Summary :=
  {| total_files := total_files s; unchanged_files := unchanged_files s;
     modified_files := modified_files s; new_files := n;
     missing_files := missing_files s |}.
Definition set_total_files (n : nat) (s : Summary) : Summary :=
  {| total_files := n; unchanged_files := unchanged_files s;
     modified_files := modified_files s; new_files := new_files s;
     missing_files := missing_files s |}.

(** The same report with [f] applied to the records of the previous
    baseline that its entries carry. *)
Definition map {P Q} (f : P → Q) (r : t P) : t Q :=
  {| timestamp := timestamp r; mount_point := mount_point r;
     baseline_file := baseline_file r;
     files := {| unchanged := unchanged (files r);
                 modified := Modification.map f <$> modified (files r);
                 new := new (files r);
                 missing := Entry.map f <$> missing (files r) |};
     summary := summary r; errors := errors r |}.
End Report.

(** ** The environment: scanned trees, stored baselines, the clock *)

(** What [os.stat] reports for a file: its size, and the time of its last
    modification in seconds since the epoch. *)
Record stat_result : Type := { st_size : Z; st_mtime : Z }.

(** A node below a mount point.  A non-directory carries what opening and
    reading it yields and what [os.stat] yields on it; either may raise
    (permission revoked, vanished, broken link).  Opening and reading is
    taken to end, by a content or by an exception: a file on which [open]
    waits without end (a FIFO that nobody writes to) has no node here, and a
    scan of a tree that holds one is outside the model. *)
#[local] Set Warnings "-register-all".
Inductive node : Type :=
| File (content : outcome string) (st : outcome stat_result)
| Dir (entries : list (string * node)).
#[local] Set Warnings "register-all".

Definition is_file (n : node) : bool :=
  match n with File _ _ => true | Dir _ => false end.

(** What lives at a path used as a baseline locator.  A [JsonFile] is a
    regular file that parses, with the value that [json.load] gives for it:
    the file may have been written by [json.dump] or by anything else, so the
    value has any shape.  [OtherFile] is a regular file that cannot be read
    or parsed.  The locators are taken to lie outside the scanned trees, in
    a directory that exists and can be written to, as [main] arranges before
    it calls: writing a file never changes a tree, and it fails only when a
    directory sits at the locator. *)
Inductive stored : Type :=
| JsonFile (doc : json)
| OtherFile
| Directory.

Record World : Type := {
  mounts : dict node;
  store : dict stored;
  clock : nat
}.

(** The calls into the environment are computations over the [World]. *)

(** [datetime.now()]: the instant of the call; time moves on. *)
Definition datetime_now : py World nat :=
  λ w, (Return (clock w),
        {| mounts := mounts w; store := store w; clock := S (clock w) |}).

Definition os_path_exists (p : string) : py World bool :=
  λ w, (Return (PyDict.contains (store w) p), w).

Definition os_path_isfile (p : string) : py World bool :=
  λ w, (Return match PyDict.get (store w) p with
               | Some (JsonFile _) | Some OtherFile => true
               | Some Directory | None => false
               end, w).

(** [with open(p, 'r') as f: json.load(f)] *)
Definition json_load (p : string) : py World json :=
  λ w, (match PyDict.get (store w) p with
        | Some (JsonFile doc) => Return doc
        | Some OtherFile => Raise ("cannot load " +:+ p)
        | Some Directory => Raise ("Is a directory: " +:+ p)
        | None => Raise ("No such file or directory: " +:+ p)
        end, w).

(** [with open(p, 'w') as f: json.dump(doc, f, indent=2)] *)
Definition json_dump (p : string) (doc : Baseline.t) : py World unit :=
  λ w, match PyDict.get (store w) p with
       | Some Directory => (Raise ("Is a directory: " +:+ p), w)
       | _ => (Return tt,
               {| mounts := mounts w;
                  store := PyDict.setitem (store w) p
                             (JsonFile (Baseline.to_json doc));
                  clock := clock w |})
       end.

(** Running a call and keeping its outcome as a value. *)
Definition py_attempt {S A} (m : py S A) : py S (outcome A) :=
  λ s, let '(o, s') := m s in (Return o, s').

(** [open(file_path, 'rb')] followed by [f.read()]: the content, or the
    exception of the call that failed.  The walk hands over non-directories
    only, so the [Dir] cases of [open_read] and [os_stat] are never reached
    from [generate_baseline]. *)
Definition open_read (f : node) : outcome string :=
  match f with
  | File content _ => content
  | Dir _ => Raise "Is a directory"
  end.

Definition os_stat (f : node) : outcome stat_result :=
  match f with
  | File _ st => st
  | Dir _ => Return {| st_size := 4096; st_mtime := 0 |}
  end.

(** [datetime.fromtimestamp(t)]: the instant [t], for a time within the
    years 1 to 9999 that a [datetime] can hold, and an exception for a time
    outside them.  The bounds are those of the time zone UTC. *)
Definition datetime_fromtimestamp (t : Z) : outcome Z :=
  if bool_decide (-62135596800 ≤ t ≤ 253402300799)%Z then Return t
  else Raise "year is out of range".

(** [os.path.join(a, b)] for a relative [b] *)
Definition os_path_join (a b : string) : string :=
  if decide (a = "") then b
  else if String.eqb (String.substring (String.length a - 1) 1 a) "/"
       then a +:+ b
       else a +:+ "/" +:+ b.

(** The files below a directory in the order the two nested loops of
    [generate_baseline] visit them, each with its path relative to the top:
    the files of a directory first, then its subdirectories in turn. *)
Fixpoint walk_node (rel : string) (n : node) : list (string * node) :=
  match n with
  | File _ _ => []
  | Dir entries =>
      let here :=
        filter (λ e, is_file e.2)
               (prod_map (os_path_join rel) id <$> entries) in
      let below :=
        (fix go (es : list (string * node)) : list (string * node) :=
           match es with
           | [] => []
           | (name, child) :: es' => walk_node (os_path_join rel name) child ++ go es'
           end) entries in
      here ++ below
  end.

(** [os.walk(top)].  [os.walk] ignores the errors of listing a directory, so
    a [top] that is missing or is not a directory yields nothing and raises
    nothing. *)
Definition os_walk (top : string) : py World (list (string * node)) :=
  λ w, (Return match PyDict.get (mounts w) top with
               | Some n => walk_node "" n
               | None => []
               end, w).

(** ** [calculate_file_hashes] *)

Definition DEFAULT_HASH_ALGORITHMS : list string := ["md5"; "sha256"].

(** The algorithms for which a [hashlib] object is created; the object is
    modelled by the bytes fed to it. *)
Definition new_hash_objects (algorithms : list string) : dict string :=
  foldl (λ hash_objects algorithm,
           if bool_decide (algorithm ∈ ["md5"; "sha1"; "sha256"; "sha512"])
           then PyDict.setitem hash_objects algorithm ""
           else hash_objects)
        [] algorithms.

Definition update_all (hash_objects : dict string) (data : string) : dict string :=
  prod_map id (λ fed, fed +:+ data) <$> hash_objects.

(** The mutated object is [hashes].  The body builds and feeds the hash
    objects and never stores a digest into [hashes]; only the handler
    writes to it. *)
Definition calculate_file_hashes (f : node) (algorithms : option (list string))
  : dict string :=
  let algorithms := default DEFAULT_HASH_ALGORITHMS algorithms in
  let body : py (dict string) unit :=
    let hash_objects := new_hash_objects algorithms in
    data ← py_lift (open_read f);
    let hash_objects :=
      if decide (data = "") then hash_objects else update_all hash_objects data in
    mret tt in
  (py_try body (λ e, py_modify (λ hashes, PyDict.setitem hashes "error" e)) []).2.

(** ** [generate_baseline] *)

(** The body of the inner loop, with its own [try].  The record is built
    before it is stored, so a failure of [os.stat] or of the conversion of
    the modification time leaves [baseline['files']] as it was. *)
Definition process_file (rel_path : string) (f : node) : py Baseline.t unit :=
  py_try
    (let hashes := calculate_file_hashes f None in
     file_stat ← py_lift (os_stat f);
     modified ← py_lift (datetime_fromtimestamp (st_mtime file_stat));
     py_modify (Baseline.set_file rel_path
                  {| hashes := Some hashes;
                     size := Some (st_size file_stat);
                     mtime := Some modified |}))
    (λ e, py_modify (Baseline.append_error
                       ("Error processing " +:+ rel_path +:+ ": " +:+ e))).

(** The walk with its enclosing [try], run on the fresh document. *)
Definition scan (mount_point : string) (entries : list (string * node))
  : py Baseline.t unit :=
  py_try
    (py_for entries (λ '(rel_path, f), process_file rel_path f))
    (λ e, py_modify (Baseline.append_error
                       ("Error walking filesystem " +:+ mount_point +:+ ": " +:+ e))).

Definition generate_baseline (mount_point : string) (output_file : option string)
  : py World Baseline.t :=
  now ← datetime_now;
  let baseline :=
    {| Baseline.timestamp := now; Baseline.mount_point := mount_point;
       Baseline.files := []; Baseline.errors := [] |} in
  entries ← os_walk mount_point;
  let baseline := (scan mount_point entries baseline).2 in
  match output_file with
  | None => mret baseline
  | Some output_file =>
      if decide (output_file = "") then mret baseline
      else py_try
             (json_dump output_file baseline;; mret baseline)
             (λ e, mret (Baseline.append_error
                           ("Error saving baseline to " +:+ output_file +:+ ": " +:+ e)
                           baseline))
  end.

(** ** [verify_integrity] *)

(** The result object as created at the top of [verify_integrity]. *)
Definition initial_results {P} (now : nat) (mount_point baseline_file : string)
  : Report.t P :=
  {| Report.timestamp := now;
     Report.mount_point := mount_point;
     Report.baseline_file := baseline_file;
     Report.files := {| Report.unchanged := []; Report.modified := [];
                        Report.new := []; Report.missing := [] |};
     Report.summary := {| Report.total_files := 0; Report.unchanged_files := 0;
                          Report.modified_files := 0; Report.new_files := 0;
                          Report.missing_files := 0 |};
     Report.errors := [] |}.

(** The comparison is embedded twice.  The definitions that follow are
    lines 162-221 on two documents of the documented shape ([Baseline.t]),
    where no step can fail; this is the differencer [diff] on two baseline
    documents.  The module [Loaded] further down is the same lines on what
    [verify_integrity] really holds: the snapshot it has just built, and the
    value that [json.load] returned, of any shape. *)

(** [info.get('hashes', {})] *)
Definition get_hashes (info : FileInfo) : dict string := default [] (hashes info).

(** The test that sends a common path to [unchanged]. *)
Definition same_hashes (previous_info current_info : FileInfo) : bool :=
  let current_hashes := get_hashes current_info in
  let previous_hashes := get_hashes previous_info in
  bool_decide (PyDict.get current_hashes "md5" = PyDict.get previous_hashes "md5")
  && bool_decide (PyDict.get current_hashes "sha256"
                  = PyDict.get previous_hashes "sha256").

(** The [changes] list built for a modified path. *)
Definition list_changes (previous_info current_info : FileInfo) : list string :=
  let current_hashes := get_hashes current_info in
  let previous_hashes := get_hashes previous_info in
  let changes := [] in
  let changes :=
    if bool_decide (size current_info ≠ size previous_info)
    then changes ++ ["size"] else changes in
  foldl (λ changes algo,
           match PyDict.get previous_hashes algo, PyDict.get current_hashes algo with
           | Some p, Some c => if decide (p ≠ c) then changes ++ [algo] else changes
           | _, _ => changes
           end)
        changes ["md5"; "sha256"].

(** Body of the loop over the paths common to both documents. *)
Definition compare_common (previous_files current_files : dict FileInfo)
    (path : string) : py (Report.t FileInfo) unit :=
  current_info ← py_lift (getitem current_files path);
  previous_info ← py_lift (getitem previous_files path);
  if same_hashes previous_info current_info then
    py_modify (Report.with_files (Report.append_unchanged path));;
    py_modify (Report.with_summary Report.incr_unchanged)
  else
    let modification :=
      {| Modification.path := path;
         Modification.previous := previous_info;
         Modification.current := current_info;
         Modification.changes := list_changes previous_info current_info |} in
    py_modify (Report.with_files (Report.append_modified modification));;
    py_modify (Report.with_summary Report.incr_modified).

Definition record_new {P} (current_files : dict FileInfo) (path : string)
  : py (Report.t P) unit :=
  info ← py_lift (getitem current_files path);
  py_modify (Report.with_files
               (Report.append_new (WithInfo {| Entry.path := path; Entry.info := info |})));;
  py_modify (Report.with_summary Report.incr_new).

Definition record_missing {P} (previous_files : dict P) (path : string)
  : py (Report.t P) unit :=
  info ← py_lift (getitem previous_files path);
  py_modify (Report.with_files
               (Report.append_missing {| Entry.path := path; Entry.info := info |}));;
  py_modify (Report.with_summary Report.incr_missing).

Definition tally (s : Report.Summary) : Report.Summary :=
  Report.set_total_files
    (Report.unchanged_files s + Report.modified_files s
     + Report.new_files s + Report.missing_files s) s.

(** The comparison of two [files] dictionaries: the part of the [try] block
    that follows the loading of the previous baseline. *)
Definition compare_files (order : SetOrder)
    (previous_files current_files : dict FileInfo) : py (Report.t FileInfo) unit :=
  let current_paths := PyDict.key_set current_files in
  let previous_paths := PyDict.key_set previous_files in
  py_for (order (current_paths ∩ previous_paths))
         (compare_common previous_files current_files);;
  py_for (order (current_paths ∖ previous_paths)) (record_new current_files);;
  py_for (order (previous_paths ∖ current_paths)) (record_missing previous_files);;
  py_modify (Report.with_summary tally).

Definition DEFAULT_BASELINE_FILE : string :=
  os_path_join "forensicx_output" "baseline.json".

(** The lines 159-221 on a loaded value. *)
Module Loaded.

(** [current_info.get('hashes', {})] and [current_info.get('size')] as the
    Python values they are. *)
Definition hashes_of (current_info : FileInfo) : dict json :=
  prod_map id JString <$> get_hashes current_info.

Definition size_of (current_info : FileInfo) : json :=
  from_option JInt JNull (size current_info).

(** The [changes] list built for a modified path; [previous_record] and
    [previous_hashes] are dictionaries by then. *)
Definition list_changes (previous_record previous_hashes : dict json)
    (current_info : FileInfo) : list string :=
  let current_hashes := hashes_of current_info in
  let changes := [] in
  let changes :=
    if negb (py_eq (size_of current_info) (get_or_none previous_record "size"))
    then changes ++ ["size"] else changes in
  foldl (λ changes algo,
           match PyDict.get previous_hashes algo, PyDict.get current_hashes algo with
           | Some p, Some c => if negb (py_eq p c) then changes ++ [algo] else changes
           | _, _ => changes
           end)
        changes ["md5"; "sha256"].

(** Body of the loop over the common paths.  The two [.get] calls on the
    previous record and on its [hashes] fail on a value that is not a
    dictionary. *)
Definition compare_common (previous_files : dict json)
    (current_files : dict FileInfo) (path : string) : py (Report.t json) unit :=
  current_info ← py_lift (getitem current_files path);
  previous_info ← py_lift (getitem previous_files path);
  let current_hashes := hashes_of current_info in
  previous_record ← py_lift (as_dict previous_info "get");
  let previous_hashes := default (JObject []) (PyDict.get previous_record "hashes") in
  previous_hashes ← py_lift (as_dict previous_hashes "get");
  if py_eq (get_or_none current_hashes "md5") (get_or_none previous_hashes "md5")
     && py_eq (get_or_none current_hashes "sha256")
              (get_or_none previous_hashes "sha256")
  then
    py_modify (Report.with_files (Report.append_unchanged path));;
    py_modify (Report.with_summary Report.incr_unchanged)
  else
    let modification :=
      {| Modification.path := path;
         Modification.previous := previous_info;
         Modification.current := current_info;
         Modification.changes :=
           list_changes previous_record previous_hashes current_info |} in
    py_modify (Report.with_files (Report.append_modified modification));;
    py_modify (Report.with_summary Report.incr_modified).

(** The part of the [try] block that follows the loading of the previous
    baseline. *)
Definition compare_files (order : SetOrder) (previous_baseline : json)
    (current_files : dict FileInfo) : py (Report.t json) unit :=
  previous_baseline ← py_lift (as_dict previous_baseline "get");
  let previous_files := default (JObject []) (PyDict.get previous_baseline "files") in
  let current_paths := PyDict.key_set current_files in
  previous_files ← py_lift (as_dict previous_files "keys");
  let previous_paths := PyDict.key_set previous_files in
  py_for (order (current_paths ∩ previous_paths))
         (compare_common previous_files current_files);;
  py_for (order (current_paths ∖ previous_paths)) (record_new current_files);;
  py_for (order (previous_paths ∖ current_paths)) (record_missing previous_files);;
  py_modify (Report.with_summary tally).
End Loaded.

(** The outcome of loading the previous baseline is passed in, so that the
    [try] block is a computation over [verification_results] alone. *)
Definition verification_block (order : SetOrder) (loaded : outcome json)
    (current_files : dict FileInfo) : py (Report.t json) unit :=
  py_try
    (previous_baseline ← py_lift loaded;
     Loaded.compare_files order previous_baseline current_files)
    (λ e, py_modify (Report.append_error ("Error during verification: " +:+ e))).

Definition verify_integrity (order : SetOrder) (mount_point : string)
    (baseline_file : option string) : py World (Report.t json) :=
  let baseline_file := default DEFAULT_BASELINE_FILE baseline_file in
  now ← datetime_now;
  let verification_results := initial_results now mount_point baseline_file in
  current_baseline ← generate_baseline mount_point None;
  let current_files := Baseline.files current_baseline in
  found ← os_path_exists baseline_file;
  if negb found then
    let verification_results :=
      Report.append_error ("Previous baseline file not found: " +:+ baseline_file)
                          verification_results in
    let verification_results :=
      Report.with_summary (Report.set_new_files (PyDict.len current_files))
                          verification_results in
    let verification_results :=
      Report.with_summary (Report.set_total_files (PyDict.len current_files))
                          verification_results in
    let verification_results :=
      Report.with_files (Report.set_new (BarePath <$> PyDict.keys current_files))
                        verification_results in
    mret verification_results
  else
    loaded ← py_attempt (json_load baseline_file);
    mret (verification_block order loaded current_files verification_results).2.

(** The differencer on two documents: [compare_files] run on a fresh result
    object. *)
Definition diff (order : SetOrder) (now : nat) (mount_point baseline_file : string)
    (previous current : Baseline.t) : Report.t FileInfo :=
  (compare_files order (Baseline.files previous) (Baseline.files current)
     (initial_results now mount_point baseline_file)).2.

(** ** The baseline step of [main] *)

Module Integrity.
(** [results['integrity']]: under [baseline], the dictionary that
    [generate_baseline] returned or the value that [json.load] returned. *)
Record t : Type := {
  baseline : json;
  verification : option (Report.t json)
}.
End Integrity.

(** An absent baseline is created and saved and no verification is run; a
    present one is loaded (outside any [try]) and verified against. *)
Definition main_integrity (order : SetOrder) (mount output_dir : string)
  : py World Integrity.t :=
  let baseline_file := os_path_join output_dir "baseline.json" in
  is_file ← os_path_isfile baseline_file;
  if negb is_file then
    b ← generate_baseline mount (Some baseline_file);
    mret {| Integrity.baseline := Baseline.to_json b;
            Integrity.verification := None |}
  else
    baseline_data ← json_load baseline_file;
    v ← verify_integrity order mount (Some baseline_file);
    mret {| Integrity.baseline := baseline_data;
            Integrity.verification := Some v |}.

(** * The metadata module *)

(** ** [get_file_type] *)

(** The file type bits of a mode, as [stat.S_IFMT] and the [stat.S_IS*]
    tests of the Python library compute them.  The mask is octal 170000 and
    the seven formats are octal 010000, 020000, 040000, 060000, 100000,
    120000 and 140000, written here in hexadecimal. *)
Definition S_IFMT (mode : Z) : Z := Z.land mode 0xF000.

Definition S_IFIFO : Z := 0x1000.
Definition S_IFCHR : Z := 0x2000.
Definition S_IFDIR : Z := 0x4000.
Definition S_IFBLK : Z := 0x6000.
Definition S_IFREG : Z := 0x8000.
Definition S_IFLNK : Z := 0xA000.
Definition S_IFSOCK : Z := 0xC000.

Definition S_ISREG (mode : Z) : bool := bool_decide (S_IFMT mode = S_IFREG).
Definition S_ISDIR (mode : Z) : bool := bool_decide (S_IFMT mode = S_IFDIR).
Definition S_ISCHR (mode : Z) : bool := bool_decide (S_IFMT mode = S_IFCHR).
Definition S_ISBLK (mode : Z) : bool := bool_decide (S_IFMT mode = S_IFBLK).
Definition S_ISFIFO (mode : Z) : bool := bool_decide (S_IFMT mode = S_IFIFO).
Definition S_ISLNK (mode : Z) : bool := bool_decide (S_IFMT mode = S_IFLNK).
Definition S_ISSOCK (mode : Z) : bool := bool_decide (S_IFMT mode = S_IFSOCK).

Definition get_file_type (mode : Z) : string :=
  if S_ISREG mode then "regular file"
  else if S_ISDIR mode then "directory"
  else if S_ISCHR mode then "character device"
  else if S_ISBLK mode then "block device"
  else if S_ISFIFO mode then "FIFO (named pipe)"
  else if S_ISLNK mode then "symbolic link"
  else if S_ISSOCK mode then "socket"
  else "unknown".

(** ** [extract_file_metadata] *)

(** What [os.stat(path, follow_symlinks=False)] reports. *)
Module Lstat.
Record t : Type := {
  st_size : Z;
  st_ino : Z;
  st_mode : Z;
  st_uid : Z;
  st_gid : Z;
  st_atime : Z;
  st_mtime : Z;
  st_ctime : Z
}.
End Lstat.

(** What the environment answers about one path: the [os.stat] call and the
    three [os.access] tests. *)
Record Probe : Type := {
  lstat : outcome Lstat.t;
  access_r : bool;
  access_w : bool;
  access_x : bool
}.

(** A lookup in the user or group database: a name, a [KeyError] for an
    unknown id, or another exception. *)
Inductive name_lookup : Type :=
| Found (name : string)
| KeyError
| LookupFailure (e : string).

(** The calls that do not depend on the path. *)
Record System : Type := {
  getpwuid : Z → name_lookup;
  getgrgid : Z → name_lookup;
  fromtimestamp : Z → outcome nat
}.

Module Metadata.
Record Permissions : Type := {
  mode : Z;
  readable : bool;
  writable : bool;
  executable : bool
}.

Record Ownership : Type := {
  uid : Z;
  gid : Z;
  user : option string;
  group : option string
}.

Record Timestamps : Type := {
  access_time : nat;
  modification_time : nat;
  creation_time : nat
}.

(** The dictionary built for one path; a key that was never assigned is
    [None]. *)
Record t : Type := {
  size : option Z;
  inode : option Z;
  permissions : option Permissions;
  type : option string;
  ownership : option Ownership;
  timestamps : option Timestamps;
  error : option string
}.

Definition empty : t :=
  {| size := None; inode := None; permissions := None; type := None;
     ownership := None; timestamps := None; error := None |}.

Definition set_size (v : Z) (m : t) : t :=
  {| size := Some v; inode := inode m; permissions := permissions m;
     type := type m; ownership := ownership m; timestamps := timestamps m;
     error := error m |}.
Definition set_inode (v : Z) (m : t) : t :=
  {| size := size m; inode := Some v; permissions := permissions m;
     type := type m; ownership := ownership m; timestamps := timestamps m;
     error := error m |}.
Definition set_permissions (v : Permissions) (m : t) : t :=
  {| size := size m; inode := inode m; permissions := Some v;
     type := type m; ownership := ownership m; timestamps := timestamps m;
     error := error m |}.
Definition set_type (v : string) (m : t) : t :=
  {| size := size m; inode := inode m; permissions := permissions m;
     type := Some v; ownership := ownership m; timestamps := timestamps m;
     error := error m |}.
Definition set_ownership (v : Ownership) (m : t) : t :=
  {| size := size m; inode := inode m; permissions := permissions m;
     type := type m; ownership := Some v; timestamps := timestamps m;
     error := error m |}.
Definition set_timestamps (v : Timestamps) (m : t) : t :=
  {| size := size m; inode := inode m; permissions := permissions m;
     type := type m; ownership := ownership m; timestamps := Some v;
     error := error m |}.
Definition set_error (v : string) (m : t) : t :=
  {| size := size m; inode := inode m; permissions := permissions m;
     type := type m; ownership := ownership m; timestamps := timestamps m;
     error := Some v |}.

(** [metadata['ownership']['user'] = name]: the nested dictionary is
    updated in place. *)
Definition set_user (name : string) (m : t) : t :=
  {| size := size m; inode := inode m; permissions := permissions m;
     type := type m;
     ownership := (λ o, {| uid := uid o; gid := gid o; user := Some name;
                           group := group o |}) <$> ownership m;
     timestamps := timestamps m; error := error m |}.
Definition set_group (name : string) (m : t) : t :=
  {| size := size m; inode := inode m; permissions := permissions m;
     type := type m;
     ownership := (λ o, {| uid := uid o; gid := gid o; user := user o;
                           group := Some name |}) <$> ownership m;
     timestamps := timestamps m; error := error m |}.
End Metadata.

(** [try: assign(lookup.name) except (ImportError, KeyError): pass]: an
    unknown id is skipped, any other failure is passed on. *)
Definition assign_name (found : name_lookup) (assign : string → Metadata.t → Metadata.t)
  : py Metadata.t unit :=
  match found with
  | Found name => py_modify (assign name)
  | KeyError => mret tt
  | LookupFailure e => py_lift (Raise e)
  end.

Definition extract_file_metadata (sys : System) (file : Probe) : Metadata.t :=
  (py_try
     (file_stat ← py_lift (lstat file);
      py_modify (Metadata.set_size (Lstat.st_size file_stat));;
      py_modify (Metadata.set_inode (Lstat.st_ino file_stat));;
      py_modify (Metadata.set_permissions
                   {| Metadata.mode := Lstat.st_mode file_stat;
                      Metadata.readable := access_r file;
                      Metadata.writable := access_w file;
                      Metadata.executable := access_x file |});;
      py_modify (Metadata.set_type (get_file_type (Lstat.st_mode file_stat)));;
      py_modify (Metadata.set_ownership
                   {| Metadata.uid := Lstat.st_uid file_stat;
                      Metadata.gid := Lstat.st_gid file_stat;
                      Metadata.user := None; Metadata.group := None |});;
      assign_name (getpwuid sys (Lstat.st_uid file_stat)) Metadata.set_user;;
      assign_name (getgrgid sys (Lstat.st_gid file_stat)) Metadata.set_group;;
      access_time ← py_lift (fromtimestamp sys (Lstat.st_atime file_stat));
      modification_time ← py_lift (fromtimestamp sys (Lstat.st_mtime file_stat));
      creation_time ← py_lift (fromtimestamp sys (Lstat.st_ctime file_stat));
      py_modify (Metadata.set_timestamps
                   {| Metadata.access_time := access_time;
                      Metadata.modification_time := modification_time;
                      Metadata.creation_time := creation_time |}))
     (λ e, py_modify (Metadata.set_error e))
     Metadata.empty).2.

(** ** [get_filesystem_info] *)

(** What [os.statvfs] reports. *)
Module Statvfs.
Record t : Type := {
  f_frsize : Z;
  f_blocks : Z;
  f_bfree : Z;
  f_bavail : Z;
  f_files : Z;
  f_ffree : Z
}.
End Statvfs.

Module FsInfo.
Record Statistics : Type := {
  total_space : Z;
  free_space : Z;
  available_space : Z;
  total_inodes : Z;
  free_inodes : Z
}.

Record t : Type := {
  mount_point : string;
  statistics : option Statistics;
  error : option string
}.
End FsInfo.

Definition get_filesystem_info (statvfs : string → outcome Statvfs.t)
    (mount_point : string) : FsInfo.t :=
  let fs_info :=
    {| FsInfo.mount_point := mount_point;
       FsInfo.statistics := None; FsInfo.error := None |} in
  match statvfs mount_point with
  | Return fs_stat =>
      let block_size := Statvfs.f_frsize fs_stat in
      {| FsInfo.mount_point := FsInfo.mount_point fs_info;
         FsInfo.statistics :=
           Some {| FsInfo.total_space := block_size * Statvfs.f_blocks fs_stat;
                   FsInfo.free_space := block_size * Statvfs.f_bfree fs_stat;
                   FsInfo.available_space := block_size * Statvfs.f_bavail fs_stat;
                   FsInfo.total_inodes := Statvfs.f_files fs_stat;
                   FsInfo.free_inodes := Statvfs.f_ffree fs_stat |};
         FsInfo.error := FsInfo.error fs_info |}
  | Raise e =>
      {| FsInfo.mount_point := FsInfo.mount_point fs_info;
         FsInfo.statistics := FsInfo.statistics fs_info;
         FsInfo.error := Some e |}
  end%Z.

(** ** [extract_all_metadata] *)

(** A tree below a mount point as the metadata walk sees it: every entry
    has its probe, and a directory has its entries.  A link to a directory,
    which [os.walk] lists among the directories and does not enter, is a
    directory without entries. *)
#[local] Set Warnings "-register-all".
Inductive mtree : Type :=
| MFile (file : Probe)
| MDir (dir : Probe) (entries : list (string * mtree)).
#[local] Set Warnings "register-all".

Definition probe_of (n : mtree) : Probe :=
  match n with
  | MFile file => file
  | MDir dir _ => dir
  end.

Definition is_mdir (n : mtree) : bool :=
  match n with MFile _ => false | MDir _ _ => true end.

(** The paths in the order the loops of [extract_all_metadata] visit them:
    for each directory that [os.walk] yields, its subdirectories, then its
    files; the subdirectories are walked afterwards, in turn. *)
Fixpoint walk_all (rel : string) (n : mtree) : list (string * Probe) :=
  match n with
  | MFile _ => []
  | MDir _ entries =>
      let named := prod_map (os_path_join rel) id <$> entries in
      let dirs := prod_map id probe_of <$> filter (λ e, is_mdir e.2) named in
      let files := prod_map id probe_of <$> filter (λ e, negb (is_mdir e.2)) named in
      let below :=
        (fix go (es : list (string * mtree)) : list (string * Probe) :=
           match es with
           | [] => []
           | (name, child) :: es' => walk_all (os_path_join rel name) child ++ go es'
           end) entries in
      dirs ++ files ++ below
  end.

(** The environment of the metadata module: the trees, [os.statvfs], the
    path-independent calls, and whether a file can be written. *)
Record MetaWorld : Type := {
  meta_mounts : dict mtree;
  statvfs : string → outcome Statvfs.t;
  system : System;
  write_file : string → outcome unit
}.

Module MetadataResults.
Record t : Type := {
  filesystem_info : FsInfo.t;
  files : dict Metadata.t;
  errors : list string
}.

Definition set_file (rel_path : string) (m : Metadata.t) (r : t) : t :=
  {| filesystem_info := filesystem_info r;
     files := PyDict.setitem (files r) rel_path m; errors := errors r |}.

Definition append_error (msg : string) (r : t) : t :=
  {| filesystem_info := filesystem_info r;
     files := files r; errors := errors r ++ [msg] |}.
End MetadataResults.

(** The body shared by the loop over directories and the loop over files,
    with its [try]. *)
Definition record_metadata (sys : System) (rel_path : string) (entry : Probe)
  : py MetadataResults.t unit :=
  py_try
    (let metadata := extract_file_metadata sys entry in
     py_modify (MetadataResults.set_file rel_path metadata))
    (λ e, py_modify (MetadataResults.append_error
                       ("Error extracting metadata for " +:+ rel_path +:+ ": " +:+ e))).

Definition extract_all_metadata (mw : MetaWorld) (mount_point : string)
    (output_file : option string) : MetadataResults.t :=
  let metadata_results :=
    {| MetadataResults.filesystem_info :=
         get_filesystem_info (statvfs mw) mount_point;
       MetadataResults.files := [];
       MetadataResults.errors := [] |} in
  let visited :=
    match PyDict.get (meta_mounts mw) mount_point with
    | Some n => walk_all "" n
    | None => []
    end in
  let metadata_results :=
    (py_try
       (py_for visited (λ '(rel_path, entry),
                          record_metadata (system mw) rel_path entry))
       (λ e, py_modify (MetadataResults.append_error
                          ("Error walking filesystem " +:+ mount_point +:+ ": " +:+ e)))
       metadata_results).2 in
  match output_file with
  | None => metadata_results
  | Some output_file =>
      if decide (output_file = "") then metadata_results
      else match write_file mw output_file with
           | Return _ => metadata_results
           | Raise e =>
               MetadataResults.append_error
                 ("Error saving metadata to " +:+ output_file +:+ ": " +:+ e)
                 metadata_results
           end
  end.

(** * The detection module and the choice of the target in [main] *)

(** [needle in hay] on strings *)
Fixpoint str_in (needle hay : string) : bool :=
  String.prefix needle hay
  || match hay with
     | EmptyString => false
     | String _ hay' => str_in needle hay'
     end.

(** [s.split(sep)] for a one-character separator *)
Fixpoint split_on (sep : Ascii.ascii) (s : string) : list string :=
  match s with
  | EmptyString => [EmptyString]
  | String c s' =>
      if Ascii.eqb c sep then EmptyString :: split_on sep s'
      else match split_on sep s' with
           | piece :: pieces => String c piece :: pieces
           | [] => [String c EmptyString]
           end
  end.

(** The line feed character *)
Definition newline : Ascii.ascii := Ascii.ascii_of_nat 10.

Module MountInfo.
Record t : Type := {
  source : string;
  mount_point : string;
  fs_type : string;
  fuse_type : string;
  detection_method : string
}.
End MountInfo.

(** What [subprocess.run(['df', '-T'], capture_output=True, text=True)]
    returns. *)
Module Completed.
Record t : Type := {
  returncode : Z;
  stdout : string;
  stderr : string
}.
End Completed.

Definition FUSE_TYPES : dict (list string) :=
  [("encfs", ["encfs"; "encrypted"]);
   ("bindfs", ["bindfs"]);
   ("generic", ["fuse"])].

(** The two nested loops of [_determine_fuse_type], which return at the
    first keyword found. *)
Fixpoint first_type_with_keyword (types : dict (list string)) (text : string)
  : option string :=
  match types with
  | [] => None
  | (fuse_type, keywords) :: types' =>
      if existsb (λ keyword, str_in keyword text) keywords then Some fuse_type
      else first_type_with_keyword types' text
  end.

Section detection.
(** The string methods of the Python library that the module calls:
    [str.lower], [str.split] without argument and [str.strip].  The
    properties hold whatever they compute. *)
Context (lower : string → string) (split : string → list string)
        (strip : string → string).

Definition _determine_fuse_type (mount_info : string) : string :=
  let mount_info_lower := lower mount_info in
  default "generic" (first_type_with_keyword FUSE_TYPES mount_info_lower).

(** The body of the loop over the lines of [/proc/mounts]; the state is the
    pair of [mounts] and [mount_points]. *)
Definition scan_proc_line (state : list MountInfo.t * gset string) (line : string)
  : list MountInfo.t * gset string :=
  let '(mounts, mount_points) := state in
  if str_in "fuse" (lower line) then
    match split line with
    | source :: mount_point :: fs_type :: _ =>
        let mount_info :=
          {| MountInfo.source := source;
             MountInfo.mount_point := mount_point;
             MountInfo.fs_type := fs_type;
             MountInfo.fuse_type := _determine_fuse_type line;
             MountInfo.detection_method := "proc_mounts" |} in
        (mounts ++ [mount_info], mount_points ∪ {[mount_point]})
    | _ => state
    end
  else state.

(** The body of the loop over the lines of the [df -T] output. *)
Definition scan_df_line (state : list MountInfo.t * gset string) (line : string)
  : list MountInfo.t * gset string :=
  let '(mounts, mount_points) := state in
  if str_in "fuse" (lower line) then
    match split line with
    | filesystem :: fs_type :: _ :: _ :: _ :: _ :: mount_point :: _ =>
        if bool_decide (mount_point ∈ mount_points) then state
        else
          let mount_info :=
            {| MountInfo.source := filesystem;
               MountInfo.mount_point := mount_point;
               MountInfo.fs_type := fs_type;
               MountInfo.fuse_type := _determine_fuse_type line;
               MountInfo.detection_method := "df_command" |} in
          (mounts ++ [mount_info], mount_points ∪ {[mount_point]})
    | _ => state
    end
  else state.

(** [proc_mounts] is what reading [/proc/mounts] with [readlines] yields and
    [df] what running [df -T] yields; either may raise. *)
Definition detect_fuse_filesystems (proc_mounts : outcome (list string))
    (df : outcome Completed.t) : list MountInfo.t :=
  let state : list MountInfo.t * gset string := ([], ∅) in
  let state :=
    match proc_mounts with
    | Return lines => foldl scan_proc_line state lines
    | Raise _ => state
    end in
  let state :=
    match df with
    | Return result =>
        if decide (Completed.returncode result = 0%Z) then
          let lines := split_on newline (strip (Completed.stdout result)) in
          foldl scan_df_line state (drop 1 lines)
        else state
    | Raise _ => state
    end in
  state.1.

Definition detect_all_fuse_filesystems (proc_mounts : outcome (list string))
    (df : outcome Completed.t) : list MountInfo.t :=
  detect_fuse_filesystems proc_mounts df.
End detection.

(** The choice of [target_mount_info] in [main]: the first detected mount at
    the requested mount point, or a stand-in of type [unknown]. *)
Module Target.
Record t : Type := { mount_point : string; fuse_type : string }.
End Target.

Fixpoint first_mount_at (fuse_mounts : list MountInfo.t) (mount : string)
  : option MountInfo.t :=
  match fuse_mounts with
  | [] => None
  | m :: fuse_mounts' =>
      if decide (MountInfo.mount_point m = mount) then Some m
      else first_mount_at fuse_mounts' mount
  end.

Definition target_mount_info (fuse_mounts : list MountInfo.t) (mount : string)
  : Target.t :=
  match first_mount_at fuse_mounts mount with
  | Some m => {| Target.mount_point := MountInfo.mount_point m;
                 Target.fuse_type := MountInfo.fuse_type m |}
  | None => {| Target.mount_point := mount; Target.fuse_type := "unknown" |}
  end.

(** * The recovery module *)

Module RecoveryInfo.
(** One element of [recovery_results['recovered_files']]; [error] and [size]
    are the two keys that are assigned on one branch only. *)
Record t : Type := {
  inode : string;
  filename : string;
  output_path : string;
  error : option string;
  size : option Z
}.
End RecoveryInfo.

Module RecoveryResults.
Record t : Type := {
  recovered_files : list RecoveryInfo.t;
  errors : list string
}.

Definition append_file (info : RecoveryInfo.t) (r : t) : t :=
  {| recovered_files := recovered_files r ++ [info]; errors := errors r |}.

Definition append_error (msg : string) (r : t) : t :=
  {| recovered_files := recovered_files r; errors := errors r ++ [msg] |}.
End RecoveryResults.

(** What the environment answers to the recovery.  The calls made for a line
    of the [fls] output take the position of that line, since the answers
    may change while files are being written. *)
Record RecoveryWorld : Type := {
  makedirs : string → outcome unit;
  run_fls : string → outcome Completed.t;
  open_wb : nat → string → outcome unit;
  run_icat : nat → string → string → outcome Completed.t;
  getsize : nat → string → outcome Z
}.

(** [line.split(':', 1)[1]] for a line that holds a colon *)
Fixpoint after_first_colon (line : string) : string :=
  match line with
  | EmptyString => EmptyString
  | String c line' =>
      if Ascii.eqb c (Ascii.ascii_of_nat 58) then line' else after_first_colon line'
  end.

Section recovery.
(** The library calls of the module: [str.splitlines], the search of the
    pattern for an inode number (its first group, when the pattern matches),
    [str.strip], [os.path.join] and [os.path.basename].  The properties hold
    whatever they compute. *)
Context (splitlines : string → list string)
        (search_inode : string → option string)
        (strip : string → string)
        (path_join : string → string → string)
        (basename : string → string).

(** The body of the loop over the lines of the [fls] output. *)
Definition recover_line (rw : RecoveryWorld) (mount_point recovery_dir : string)
    (position : nat) (line : string) : py RecoveryResults.t unit :=
  if str_in "*" line || str_in "r/r" line then
    match search_inode line with
    | Some inode =>
        let file_name :=
          if str_in ":" line then strip (after_first_colon line)
          else "unknown_file_" +:+ inode in
        let output_file := path_join recovery_dir file_name in
        _ ← py_lift (open_wb rw position output_file);
        icat_result ← py_lift (run_icat rw position mount_point inode);
        let recovery_info :=
          {| RecoveryInfo.inode := inode;
             RecoveryInfo.filename := file_name;
             RecoveryInfo.output_path := output_file;
             RecoveryInfo.error := None;
             RecoveryInfo.size := None |} in
        recovery_info ←
          (if decide (Completed.returncode icat_result ≠ 0%Z) then
             mret {| RecoveryInfo.inode := RecoveryInfo.inode recovery_info;
                     RecoveryInfo.filename := RecoveryInfo.filename recovery_info;
                     RecoveryInfo.output_path :=
                       RecoveryInfo.output_path recovery_info;
                     RecoveryInfo.error := Some (Completed.stderr icat_result);
                     RecoveryInfo.size := RecoveryInfo.size recovery_info |}
           else
             file_size ← py_lift (getsize rw position output_file);
             mret {| RecoveryInfo.inode := RecoveryInfo.inode recovery_info;
                     RecoveryInfo.filename := RecoveryInfo.filename recovery_info;
                     RecoveryInfo.output_path :=
                       RecoveryInfo.output_path recovery_info;
                     RecoveryInfo.error := RecoveryInfo.error recovery_info;
                     RecoveryInfo.size := Some file_size |});
        py_modify (RecoveryResults.append_file recovery_info)
    | None => mret tt
    end
  else mret tt.

(** [for line in lines], with the position of each line *)
Fixpoint recover_lines (rw : RecoveryWorld) (mount_point recovery_dir : string)
    (position : nat) (lines : list string) : py RecoveryResults.t unit :=
  match lines with
  | [] => mret tt
  | line :: lines' =>
      recover_line rw mount_point recovery_dir position line;;
      recover_lines rw mount_point recovery_dir (S position) lines'
  end.

(** [os.makedirs] is called outside the [try], so its failure leaves the
    function; everything after it is handled.  The argument [fuse_type] is
    not used by the function. *)
Definition recover_deleted_files (rw : RecoveryWorld)
    (mount_point fuse_type output_dir : string) : outcome RecoveryResults.t :=
  let recovery_results :=
    {| RecoveryResults.recovered_files := []; RecoveryResults.errors := [] |} in
  let recovery_dir := path_join output_dir ("recovered_" +:+ basename mount_point) in
  match makedirs rw recovery_dir with
  | Raise e => Raise e
  | Return _ =>
      Return
        (py_try
           (fls_result ← py_lift (run_fls rw mount_point);
            if decide (Completed.returncode fls_result ≠ 0%Z) then
              py_modify (RecoveryResults.append_error
                           ("fls failed: " +:+ Completed.stderr fls_result))
            else
              recover_lines rw mount_point recovery_dir 0
                            (splitlines (Completed.stdout fls_result)))
           (λ e, py_modify (RecoveryResults.append_error
                              ("Recovery failed: " +:+ e)))
           recovery_results).2
  end.
End recovery.

(** * Derived notions and examples *)

(** The definitions below are used to state and prove the properties: the
    effect of each loop in closed form, the document a scan builds, and the
    concrete documents and worlds of the examples. *)

(** Appending to the four lists and counting what was appended. *)
Definition extend {P} (us : list string) (ms : list (Modification.t P))
    (ns : list NewItem) (xs : list (Entry.t P)) (r : Report.t P) : Report.t P :=
  {| Report.timestamp := Report.timestamp r;
     Report.mount_point := Report.mount_point r;
     Report.baseline_file := Report.baseline_file r;
     Report.files :=
       {| Report.unchanged := Report.unchanged (Report.files r) ++ us;
          Report.modified := Report.modified (Report.files r) ++ ms;
          Report.new := Report.new (Report.files r) ++ ns;
          Report.missing := Report.missing (Report.files r) ++ xs |};
     Report.summary :=
       {| Report.total_files := Report.total_files (Report.summary r);
          Report.unchanged_files :=
            Report.unchanged_files (Report.summary r) + length us;
          Report.modified_files :=
            Report.modified_files (Report.summary r) + length ms;
          Report.new_files := Report.new_files (Report.summary r) + length ns;
          Report.missing_files :=
            Report.missing_files (Report.summary r) + length xs |};
     Report.errors := Report.errors r |}.

(** What one common path contributes. *)
Definition unchanged_of (previous_files current_files : dict FileInfo)
    (path : string) : option string :=
  current_info ← PyDict.get current_files path;
  previous_info ← PyDict.get previous_files path;
  if same_hashes previous_info current_info then Some path else None.

Definition modified_of (previous_files current_files : dict FileInfo)
    (path : string) : option (Modification.t FileInfo) :=
  current_info ← PyDict.get current_files path;
  previous_info ← PyDict.get previous_files path;
  if same_hashes previous_info current_info then None
  else Some {| Modification.path := path;
               Modification.previous := previous_info;
               Modification.current := current_info;
               Modification.changes := list_changes previous_info current_info |}.

Definition entry_of {R} (files : dict R) (path : string) : option (Entry.t R) :=
  info ← PyDict.get files path;
  Some {| Entry.path := path; Entry.info := info |}.

(** The lists that [compare_files] appends, in the order of the loops. *)
Definition common_paths {P} (order : SetOrder)
    (previous_files : dict P) (current_files : dict FileInfo) : list string :=
  order (PyDict.key_set current_files ∩ PyDict.key_set previous_files).
Definition added_paths {P} (order : SetOrder)
    (previous_files : dict P) (current_files : dict FileInfo) : list string :=
  order (PyDict.key_set current_files ∖ PyDict.key_set previous_files).
Definition removed_paths {P} (order : SetOrder)
    (previous_files : dict P) (current_files : dict FileInfo) : list string :=
  order (PyDict.key_set previous_files ∖ PyDict.key_set current_files).

(** The result object after the comparison. *)
Definition compared (order : SetOrder)
    (previous_files current_files : dict FileInfo) (r : Report.t FileInfo)
  : Report.t FileInfo :=
  Report.with_summary tally
    (extend (omap (unchanged_of previous_files current_files)
                  (common_paths order previous_files current_files))
            (omap (modified_of previous_files current_files)
                  (common_paths order previous_files current_files))
            (WithInfo <$> omap (entry_of current_files)
                               (added_paths order previous_files current_files))
            (omap (entry_of previous_files)
                  (removed_paths order previous_files current_files)) r).

(** What the body of the inner [try] needs from a file before it stores
    the record: the result of [os.stat] and the instant of the last
    modification. *)
Definition stat_and_mtime (f : node) : outcome (stat_result * Z) :=
  match os_stat f with
  | Return file_stat =>
      match datetime_fromtimestamp (st_mtime file_stat) with
      | Return modified => Return (file_stat, modified)
      | Raise e => Raise e
      end
  | Raise e => Raise e
  end.

(** What the inner [try] does to the document for one file. *)
Definition record_file (rel_path : string) (f : node) (b : Baseline.t) : Baseline.t :=
  match stat_and_mtime f with
  | Return (file_stat, modified) =>
      Baseline.set_file rel_path
        {| hashes := Some (calculate_file_hashes f None);
           size := Some (st_size file_stat);
           mtime := Some modified |} b
  | Raise e =>
      Baseline.append_error ("Error processing " +:+ rel_path +:+ ": " +:+ e) b
  end.

Definition record_files (entries : list (string * node)) (b : Baseline.t)
  : Baseline.t :=
  foldl (λ b e, record_file e.1 e.2 b) b entries.

Definition fresh_baseline (now : nat) (mount_point : string) : Baseline.t :=
  {| Baseline.timestamp := now; Baseline.mount_point := mount_point;
     Baseline.files := []; Baseline.errors := [] |}.

Definition tick (w : World) : World :=
  {| mounts := mounts w; store := store w; clock := S (clock w) |}.

Definition walked (w : World) (top : string) : list (string * node) :=
  match PyDict.get (mounts w) top with
  | Some n => walk_node "" n
  | None => []
  end.

(** The document a scan of [mount_point] builds in world [w]. *)
Definition scanned (w : World) (mount_point : string) : Baseline.t :=
  record_files (walked w mount_point) (fresh_baseline (clock w) mount_point).

Definition absent_report {P} (now : nat) (mount_point baseline_file : string)
    (current_files : dict FileInfo) : Report.t P :=
  {| Report.timestamp := now;
     Report.mount_point := mount_point;
     Report.baseline_file := baseline_file;
     Report.files := {| Report.unchanged := []; Report.modified := [];
                        Report.new := BarePath <$> PyDict.keys current_files;
                        Report.missing := [] |};
     Report.summary := {| Report.total_files := PyDict.len current_files;
                          Report.unchanged_files := 0;
                          Report.modified_files := 0;
                          Report.new_files := PyDict.len current_files;
                          Report.missing_files := 0 |};
     Report.errors := ["Previous baseline file not found: " +:+ baseline_file] |}.

(** What one common path contributes in [verify_integrity]: nothing when
    the previous record cannot be examined, and otherwise a verdict,
    unchanged ([None]) or modified with its [changes]. *)
Definition examined (previous_info : json) (current_info : FileInfo)
  : outcome (option (list string)) :=
  match as_dict previous_info "get" with
  | Raise e => Raise e
  | Return previous_record =>
      match as_dict (default (JObject []) (PyDict.get previous_record "hashes"))
                    "get" with
      | Raise e => Raise e
      | Return previous_hashes =>
          let current_hashes := Loaded.hashes_of current_info in
          Return
            (if py_eq (get_or_none current_hashes "md5")
                      (get_or_none previous_hashes "md5")
                && py_eq (get_or_none current_hashes "sha256")
                         (get_or_none previous_hashes "sha256")
             then None
             else Some (Loaded.list_changes previous_record previous_hashes
                          current_info))
      end
  end.

(** The loop over the common paths in closed form: whether it ended or
    failed, and what it had appended to [unchanged] and [modified] by then. *)
Fixpoint common_run (previous_files : dict json) (current_files : dict FileInfo)
    (paths : list string)
  : outcome unit * (list string * list (Modification.t json)) :=
  match paths with
  | [] => (Return tt, ([], []))
  | path :: paths =>
      match PyDict.get current_files path with
      | None => (Raise ("KeyError: " +:+ path), ([], []))
      | Some current_info =>
          match PyDict.get previous_files path with
          | None => (Raise ("KeyError: " +:+ path), ([], []))
          | Some previous_info =>
              match examined previous_info current_info with
              | Raise e => (Raise e, ([], []))
              | Return None =>
                  let '(o, (us, ms)) :=
                    common_run previous_files current_files paths in
                  (o, (path :: us, ms))
              | Return (Some changes) =>
                  let '(o, (us, ms)) :=
                    common_run previous_files current_files paths in
                  (o, (us, {| Modification.path := path;
                              Modification.previous := previous_info;
                              Modification.current := current_info;
                              Modification.changes := changes |} :: ms))
              end
          end
      end
  end.

(** [Loaded.compare_files] in closed form. *)
Definition loaded_compared (order : SetOrder) (previous_baseline : json)
    (current_files : dict FileInfo) (r : Report.t json)
  : outcome unit * Report.t json :=
  match as_dict previous_baseline "get" with
  | Raise e => (Raise e, r)
  | Return document =>
      match as_dict (default (JObject []) (PyDict.get document "files")) "keys" with
      | Raise e => (Raise e, r)
      | Return previous_files =>
          match common_run previous_files current_files
                  (common_paths order previous_files current_files) with
          | (Raise e, (us, ms)) => (Raise e, extend us ms [] [] r)
          | (Return _, (us, ms)) =>
              (Return tt,
               Report.with_summary tally
                 (extend us ms
                    (WithInfo <$> omap (entry_of current_files)
                                       (added_paths order previous_files current_files))
                    (omap (entry_of previous_files)
                          (removed_paths order previous_files current_files)) r))
          end
      end
  end.

(** The report of [verify_integrity] when the baseline file parsed to
    [previous_baseline]. *)
Definition checked (order : SetOrder) (now : nat) (mount_point baseline_file : string)
    (previous_baseline : json) (current_files : dict FileInfo) : Report.t json :=
  (verification_block order (Return previous_baseline) current_files
     (initial_results now mount_point baseline_file)).2.

Definition verified (order : SetOrder) (mount_point baseline_file : string)
    (w : World) : Report.t json :=
  let current_files := Baseline.files (scanned (tick w) mount_point) in
  match PyDict.get (store w) baseline_file with
  | None => absent_report (clock w) mount_point baseline_file current_files
  | Some (JsonFile previous) =>
      checked order (clock w) mount_point baseline_file previous current_files
  | Some OtherFile =>
      Report.append_error
        ("Error during verification: " +:+ "cannot load " +:+ baseline_file)
        (initial_results (clock w) mount_point baseline_file)
  | Some Directory =>
      Report.append_error
        ("Error during verification: " +:+ "Is a directory: " +:+ baseline_file)
        (initial_results (clock w) mount_point baseline_file)
  end.

Definition unchanged_paths {P} (r : Report.t P) : list string :=
  Report.unchanged (Report.files r).
Definition modified_paths {P} (r : Report.t P) : list string :=
  Modification.path <$> Report.modified (Report.files r).
Definition new_paths {P} (r : Report.t P) : list string :=
  new_item_path <$> Report.new (Report.files r).
Definition missing_paths {P} (r : Report.t P) : list string :=
  Entry.path <$> Report.missing (Report.files r).

(** The summary agrees with the lists it summarises. *)
Definition consistent {P} (r : Report.t P) : Prop :=
  let s := Report.summary r in
  let f := Report.files r in
  Report.total_files s
  = Report.unchanged_files s + Report.modified_files s
    + Report.new_files s + Report.missing_files s
  ∧ Report.unchanged_files s = length (Report.unchanged f)
  ∧ Report.modified_files s = length (Report.modified f)
  ∧ Report.new_files s = length (Report.new f)
  ∧ Report.missing_files s = length (Report.missing f).

(** Each count agrees with the list it counts. *)
Definition counted {P} (r : Report.t P) : Prop :=
  let s := Report.summary r in
  let f := Report.files r in
  Report.unchanged_files s = length (Report.unchanged f)
  ∧ Report.modified_files s = length (Report.modified f)
  ∧ Report.new_files s = length (Report.new f)
  ∧ Report.missing_files s = length (Report.missing f).

(** The total is the sum of the four counts. *)
Definition tallied {P} (r : Report.t P) : Prop :=
  let s := Report.summary r in
  Report.total_files s
  = Report.unchanged_files s + Report.modified_files s
    + Report.new_files s + Report.missing_files s.

(** A record that the loop over the common paths can examine: a dictionary
    whose [hashes], when it has one, is a dictionary. *)
Definition examinable (previous_info : json) : bool :=
  match previous_info with
  | JObject previous_record =>
      match default (JObject []) (PyDict.get previous_record "hashes") with
      | JObject _ => true
      | _ => false
      end
  | _ => false
  end.

(** The records of a loaded value, when it is a dictionary whose [files] is
    a dictionary. *)
Definition records_of (previous_baseline : json) : dict json :=
  match previous_baseline with
  | JObject document =>
      match default (JObject []) (PyDict.get document "files") with
      | JObject previous_files => previous_files
      | _ => []
      end
  | _ => []
  end.

(** What one common path contributes when its record can be examined. *)
Definition loaded_unchanged_of (previous_files : dict json)
    (current_files : dict FileInfo) (path : string) : option string :=
  current_info ← PyDict.get current_files path;
  previous_info ← PyDict.get previous_files path;
  match examined previous_info current_info with
  | Return None => Some path
  | _ => None
  end.

Definition loaded_modified_of (previous_files : dict json)
    (current_files : dict FileInfo) (path : string)
  : option (Modification.t json) :=
  current_info ← PyDict.get current_files path;
  previous_info ← PyDict.get previous_files path;
  match examined previous_info current_info with
  | Return (Some changes) =>
      Some {| Modification.path := path;
              Modification.previous := previous_info;
              Modification.current := current_info;
              Modification.changes := changes |}
  | _ => None
  end.

(** Closed goals over concrete documents and worlds are settled by
    evaluation. *)
Ltac by_evaluation :=
  match goal with
  | |- ?P => apply (bool_decide_unpack P); vm_compute; exact I
  end.

Definition file_record (h : dict string) (s : Z) (t : Z) : FileInfo :=
  {| hashes := Some h; size := Some s; mtime := Some t |}.

Definition document (fs : dict FileInfo) : Baseline.t :=
  {| Baseline.timestamp := 0; Baseline.mount_point := "/mnt/evidence";
     Baseline.files := fs; Baseline.errors := [] |}.

(** Two documents with three common paths: [a.txt] keeps its digests and
    changes size, [c.log] has no digest on either side and changes size,
    [b.bin] keeps [md5] and [sha256] and changes its [sha512] digest. *)
Definition c1_previous : Baseline.t :=
  document [("a.txt", file_record [("md5", "0a1b"); ("sha256", "77fe")] 10 1);
            ("c.log", file_record [] 10 1);
            ("b.bin", file_record [("md5", "c3d4"); ("sha256", "99aa");
                                   ("sha512", "e5f6")] 4 1)].

Definition c1_current : Baseline.t :=
  document [("a.txt", file_record [("md5", "0a1b"); ("sha256", "77fe")] 12 2);
            ("c.log", file_record [] 12 2);
            ("b.bin", file_record [("md5", "c3d4"); ("sha256", "99aa");
                                   ("sha512", "0000")] 4 2)].

(** Two documents with one common path of equal size: the previous record
    carries [md5] and [sha256], the current one [md5] only, with the same
    digest. *)
Definition c6_previous : Baseline.t :=
  document [("report.pdf",
             file_record [("md5", "5d41"); ("sha256", "2cf2")] 2048 1)].

Definition c6_current : Baseline.t :=
  document [("report.pdf", file_record [("md5", "5d41")] 2048 1)].

Definition scanned_record (f : node) (file_stat : stat_result) (modified : Z)
  : FileInfo :=
  {| hashes := Some (calculate_file_hashes f None);
     size := Some (st_size file_stat);
     mtime := Some modified |}.

Definition processing_error (rel_path e : string) : string :=
  "Error processing " +:+ rel_path +:+ ": " +:+ e.

Definition c5_world : World :=
  {| mounts := [("/mnt/image.dd",
                 File (Return "raw") (Return {| st_size := 3; st_mtime := 1 |}))];
     store := [];
     clock := 100 |}.

(** A tree with two files, scanned while both are readable. *)
Definition c2_before : World :=
  {| mounts :=
       [("/mnt/evidence",
         Dir [("notes.txt",
               File (Return "meeting at noon")
                    (Return {| st_size := 15; st_mtime := 3 |}));
              ("log",
               Dir [("auth.log",
                     File (Return "ok") (Return {| st_size := 2; st_mtime := 4 |}))])])];
     store := [];
     clock := 0 |}.

Definition c2_previous : Baseline.t := scanned c2_before "/mnt/evidence".

(** The same tree after the permission to read [notes.txt] was revoked, with
    the earlier document stored as the baseline. *)
Definition c2_after : World :=
  {| mounts :=
       [("/mnt/evidence",
         Dir [("notes.txt",
               File (Raise "Permission denied")
                    (Return {| st_size := 15; st_mtime := 3 |}));
              ("log",
               Dir [("auth.log",
                     File (Return "ok") (Return {| st_size := 2; st_mtime := 4 |}))])])];
     store := [("out/baseline.json", JsonFile (Baseline.to_json c2_previous))];
     clock := 50 |}.

(** The tree after [notes.txt] vanished: neither opening it nor [os.stat]
    succeeds. *)
Definition c2_vanished : World :=
  {| mounts :=
       [("/mnt/evidence",
         Dir [("notes.txt",
               File (Raise "No such file or directory")
                    (Raise "No such file or directory"));
              ("log",
               Dir [("auth.log",
                     File (Return "ok") (Return {| st_size := 2; st_mtime := 4 |}))])])];
     store := [("out/baseline.json", JsonFile (Baseline.to_json c2_previous))];
     clock := 50 |}.

Definition c4_world : World :=
  {| mounts := mounts c2_before; store := []; clock := 7 |}.

(** Two reports with the same findings: everything but the timestamp
    agrees, each category up to the order of its entries. *)
Definition same_findings {P} (r1 r2 : Report.t P) : Prop :=
  Report.mount_point r1 = Report.mount_point r2
  ∧ Report.baseline_file r1 = Report.baseline_file r2
  ∧ Report.summary r1 = Report.summary r2
  ∧ Report.errors r1 = Report.errors r2
  ∧ Report.unchanged (Report.files r1) ≡ₚ Report.unchanged (Report.files r2)
  ∧ Report.modified (Report.files r1) ≡ₚ Report.modified (Report.files r2)
  ∧ Report.new (Report.files r1) ≡ₚ Report.new (Report.files r2)
  ∧ Report.missing (Report.files r1) ≡ₚ Report.missing (Report.files r2).

(** The second run of the example of C2, started later. *)
Definition c7_later : World :=
  {| mounts := mounts c2_after; store := store c2_after; clock := 90 |}.

Definition is_bare (n : NewItem) : Prop := ∃ p, n = BarePath p.

Definition carries_record (current_files : dict FileInfo) (n : NewItem) : Prop :=
  ∃ p info, n = WithInfo {| Entry.path := p; Entry.info := info |}
            ∧ PyDict.get current_files p = Some info.

(** A stored baseline in the documented format, with both digests of the one
    file, checked against a tree in which that file is untouched. *)
Definition c6_world : World :=
  {| mounts :=
       [("/mnt/evidence",
         Dir [("report.pdf",
               File (Return "%PDF") (Return {| st_size := 2048; st_mtime := 1 |}))])];
     store :=
       [("out/baseline.json",
         JsonFile (Baseline.to_json
                     (document
                        [("report.pdf",
                          file_record [("md5", "5d41"); ("sha256", "2cf2")]
                                      2048 1)])))];
     clock := 9 |}.

(** All the paths a report mentions, category after category. *)
Definition reported_paths {P} (r : Report.t P) : list string :=
  unchanged_paths r ++ modified_paths r ++ new_paths r ++ missing_paths r.

Definition digest_free (info : FileInfo) : Prop :=
  ∃ h, hashes info = Some h
       ∧ (h = [] ∨ ∃ e, h = [("error", e)])
       ∧ is_Some (size info) ∧ is_Some (mtime info).

(** The tree of the earlier example after [notes.txt] was rewritten: new
    content, new size, new modification time. *)
Definition tampered_world : World :=
  {| mounts :=
       [("/mnt/evidence",
         Dir [("notes.txt",
               File (Return "meeting at midnight")
                    (Return {| st_size := 19; st_mtime := 40 |}));
              ("log",
               Dir [("auth.log",
                     File (Return "ok") (Return {| st_size := 2; st_mtime := 4 |}))])])];
     store := [("out/baseline.json", JsonFile (Baseline.to_json c2_previous))];
     clock := 60 |}.

(** The stored baseline of the earlier example after the record of
    [log/auth.log] was replaced by [null]: the file still parses. *)
Definition null_record_baseline : json :=
  JObject [("timestamp", JString "0");
           ("mount_point", JString "/mnt/evidence");
           ("files", JObject [("notes.txt", info_to_json (file_record [] 15 3));
                              ("log/auth.log", JNull)]);
           ("errors", JArray [])].

Definition null_record_world : World :=
  {| mounts := mounts c2_before;
     store := [("out/baseline.json", JsonFile null_record_baseline)];
     clock := 50 |}.

(** The tree of the earlier example with the modification time of
    [notes.txt] set beyond the year 9999. *)
Definition far_future_world : World :=
  {| mounts :=
       [("/mnt/evidence",
         Dir [("notes.txt",
               File (Return "meeting at noon")
                    (Return {| st_size := 15; st_mtime := 1000000000000 |}));
              ("log",
               Dir [("auth.log",
                     File (Return "ok") (Return {| st_size := 2; st_mtime := 4 |}))])])];
     store := [];
     clock := 0 |}.

(** A world in which the baseline locator is taken by a directory. *)
Definition locator_is_directory : World :=
  {| mounts := mounts c2_before;
     store := [("out/baseline.json", Directory)];
     clock := 3 |}.

(** A world in which the baseline file exists and cannot be parsed. *)
Definition corrupt_baseline_world : World :=
  {| mounts := mounts c2_before;
     store := [("out/baseline.json", OtherFile)];
     clock := 3 |}.

Definition known_fuse_type (m : MountInfo.t) : Prop :=
  MountInfo.fuse_type m ∈ ["encfs"; "bindfs"; "generic"].

(** The mount that one line of [/proc/mounts] yields: the line must name
    a FUSE file system and have three fields at least. *)
Definition proc_mount (lower : string → string) (split : string → list string)
    (line : string) : option MountInfo.t :=
  if str_in "fuse" (lower line) then
    match split line with
    | source :: mount_point :: fs_type :: _ =>
        Some {| MountInfo.source := source;
                MountInfo.mount_point := mount_point;
                MountInfo.fs_type := fs_type;
                MountInfo.fuse_type := _determine_fuse_type lower line;
                MountInfo.detection_method := "proc_mounts" |}
    | _ => None
    end
  else None.

(** The mount that one line of the [df -T] output shows: the line must name
    a FUSE file system and have seven fields at least. *)
Definition df_mount (lower : string → string) (split : string → list string)
    (line : string) : option MountInfo.t :=
  if str_in "fuse" (lower line) then
    match split line with
    | filesystem :: fs_type :: _ :: _ :: _ :: _ :: mount_point :: _ =>
        Some {| MountInfo.source := filesystem;
                MountInfo.mount_point := mount_point;
                MountInfo.fs_type := fs_type;
                MountInfo.fuse_type := _determine_fuse_type lower line;
                MountInfo.detection_method := "df_command" |}
    | _ => None
    end
  else None.

(** The lines of the [df -T] output that the second loop visits: those
    after the header, when the command ran and returned 0. *)
Definition df_lines (strip : string → string) (df : outcome Completed.t)
  : list string :=
  match df with
  | Return result =>
      if decide (Completed.returncode result = 0%Z)
      then drop 1 (split_on newline (strip (Completed.stdout result)))
      else []
  | Raise _ => []
  end.

(** Of the mounts shown, in order, those whose mount point was not seen
    before. *)
Fixpoint fresh_mounts (seen : gset string) (shown : list MountInfo.t)
  : list MountInfo.t :=
  match shown with
  | [] => []
  | m :: shown =>
      if bool_decide (MountInfo.mount_point m ∈ seen) then fresh_mounts seen shown
      else m :: fresh_mounts (seen ∪ {[MountInfo.mount_point m]}) shown
  end.

(** What a loop of the detection adds to [mounts] and [mount_points]. *)
Definition adds (method : string) (state state' : list MountInfo.t * gset string)
    (new : list MountInfo.t) : Prop :=
  state'.1 = state.1 ++ new
  ∧ state'.2 = state.2 ∪ list_to_set (MountInfo.mount_point <$> new)
  ∧ Forall (λ m, MountInfo.detection_method m = method) new
  ∧ Forall known_fuse_type new.

(** The entries that [extract_all_metadata] visits below a mount point. *)
Definition metadata_walk (mw : MetaWorld) (mount_point : string)
  : list (string * Probe) :=
  match PyDict.get (meta_mounts mw) mount_point with
  | Some n => walk_all "" n
  | None => []
  end.

Definition record_all (sys : System) (visited : list (string * Probe))
    (r : MetadataResults.t) : MetadataResults.t :=
  foldl (λ r e, MetadataResults.set_file e.1 (extract_file_metadata sys e.2) r)
        r visited.

(** A recovered entry says how its extraction ended: it has an [error] or a
    [size], never both and never neither; and it was written below the
    recovery directory under its file name. *)
Definition settled_in (path_join : string → string → string)
    (recovery_dir : string) (info : RecoveryInfo.t) : Prop :=
  (is_Some (RecoveryInfo.error info) ↔ RecoveryInfo.size info = None)
  ∧ RecoveryInfo.output_path info
    = path_join recovery_dir (RecoveryInfo.filename info).

(** What running part of the loop does to the results. *)
Definition extends_by (path_join : string → string → string)
    (recovery_dir : string) (bound : nat) (r r' : RecoveryResults.t) : Prop :=
  RecoveryResults.errors r' = RecoveryResults.errors r
  ∧ ∃ new, RecoveryResults.recovered_files r'
           = RecoveryResults.recovered_files r ++ new
           ∧ (length new ≤ bound)%nat
           ∧ Forall (settled_in path_join recovery_dir) new.

(** Instances of the library calls for text made of ASCII characters, used
    to run the detection and the recovery on examples. *)
Definition in_range (lo hi : nat) (c : Ascii.ascii) : bool :=
  (lo <=? Ascii.nat_of_ascii c)%nat && (Ascii.nat_of_ascii c <=? hi)%nat.

Definition is_space (c : Ascii.ascii) : bool :=
  in_range 9 13 c || in_range 32 32 c.

Fixpoint ascii_lower (s : string) : string :=
  match s with
  | EmptyString => EmptyString
  | String c s' =>
      String (if in_range 65 90 c
              then Ascii.ascii_of_nat (Ascii.nat_of_ascii c + 32) else c)
             (ascii_lower s')
  end.

Fixpoint ascii_split_from (word s : string) : list string :=
  match s with
  | EmptyString => if decide (word = "") then [] else [word]
  | String c s' =>
      if is_space c then
        (if decide (word = "") then [] else [word]) ++ ascii_split_from "" s'
      else ascii_split_from (word +:+ String c "") s'
  end.

Definition ascii_split (s : string) : list string := ascii_split_from "" s.

Fixpoint ascii_lstrip (s : string) : string :=
  match s with
  | EmptyString => EmptyString
  | String c s' => if is_space c then ascii_lstrip s' else s
  end.

Definition ascii_strip (s : string) : string :=
  String.rev (ascii_lstrip (String.rev (ascii_lstrip s))).

(** The first run of digits that is followed by [-] or [:] *)
Fixpoint ascii_search_inode_from (digits s : string) : option string :=
  match s with
  | EmptyString => None
  | String c s' =>
      if in_range 48 57 c then ascii_search_inode_from (digits +:+ String c "") s'
      else if (in_range 45 45 c || in_range 58 58 c)
              && negb (bool_decide (digits = ""))
           then Some digits
           else ascii_search_inode_from "" s'
  end.

Definition ascii_search_inode (line : string) : option string :=
  ascii_search_inode_from "" line.

Definition ascii_splitlines (s : string) : list string :=
  match reverse (split_on newline s) with
  | last_piece :: pieces =>
      if decide (last_piece = "") then reverse pieces
      else reverse (last_piece :: pieces)
  | [] => []
  end.

Fixpoint ascii_basename_from (name s : string) : string :=
  match s with
  | EmptyString => name
  | String c s' =>
      if in_range 47 47 c then ascii_basename_from "" s'
      else ascii_basename_from (name +:+ String c "") s'
  end.

Definition ascii_basename (s : string) : string := ascii_basename_from "" s.

(** A [/proc/mounts] with two FUSE mounts and a [df -T] output that repeats
    one of them and adds a third. *)
Definition example_proc_mounts : list string :=
  ["encfs /home/u/private fuse.encfs rw,nosuid 0 0";
   "/dev/sda1 / ext4 rw 0 0";
   "bindfs /srv/share fuse.bindfs rw 0 0"].

Definition example_df : Completed.t :=
  {| Completed.returncode := 0;
     Completed.stdout :=
       "Filesystem Type 1K-blocks Used Available Use% Mounted on"
       +:+ String newline
             ("encfs fuse.encfs 100 10 90 10% /home/u/private"
              +:+ String newline
                    ("host:/data fuse.sshfs 100 10 90 10% /mnt/remote"
                     +:+ String newline ""));
     Completed.stderr := "" |}.

(** An [fls] output with two deleted files; the extraction of the first
    succeeds and that of the second fails. *)
Definition example_recovery_world : RecoveryWorld :=
  {| makedirs := λ _, Return tt;
     run_fls := λ _,
       Return {| Completed.returncode := 0;
                 Completed.stdout :=
                   "r/r * 14: file2.txt (deleted)"
                   +:+ String newline
                         ("r/r * 17-128-1: document.pdf (deleted)"
                          +:+ String newline "");
                 Completed.stderr := "" |};
     open_wb := λ _ _, Return tt;
     run_icat := λ _ _ inode,
       if decide (inode = "14")
       then Return {| Completed.returncode := 0; Completed.stdout := "";
                      Completed.stderr := "" |}
       else Return {| Completed.returncode := 1; Completed.stdout := "";
                      Completed.stderr := "Invalid inode" |};
     getsize := λ _ _, Return 120%Z |}.

(** * Properties *)

(** ** Dictionaries *)

Section PyDict_facts.
Context {V : Type}.
Implicit Types (d : list (string * V)) (k : string) (v : V).

Lemma get_is_Some d k : is_Some (PyDict.get d k) ↔ k ∈ PyDict.keys d.
Proof.
  unfold PyDict.keys. induction d as [|[k' v'] d IH]; simpl.
  - split; [intros [? [=]] | intros H; inversion H].
  - case_decide as Hk.
    + subst. split; [intros _; left | eauto].
    + rewrite IH. split; [by right | ].
      intros H. apply elem_of_cons in H as [->|H]; [done | exact H].
Qed.

Lemma get_None d k : PyDict.get d k = None ↔ k ∉ PyDict.keys d.
Proof. rewrite <- get_is_Some, eq_None_not_Some. done. Qed.

Lemma elem_of_key_set d k : k ∈ PyDict.key_set d ↔ is_Some (PyDict.get d k).
Proof. unfold PyDict.key_set. by rewrite elem_of_list_to_set, get_is_Some. Qed.

Lemma get_setitem_eq d k v : PyDict.get (PyDict.setitem d k v) k = Some v.
Proof.
  induction d as [|[k' v'] d IH]; simpl.
  - by rewrite decide_True.
  - case_decide as Hk; simpl.
    + by rewrite decide_True.
    + by rewrite decide_False.
Qed.

Lemma get_setitem_ne d k k' v :
  k ≠ k' → PyDict.get (PyDict.setitem d k v) k' = PyDict.get d k'.
Proof.
  intros Hne. induction d as [|[k0 v0] d IH]; simpl.
  - by rewrite decide_False.
  - case_decide as Hk; simpl.
    + subst k0. by rewrite !decide_False.
    + by rewrite IH.
Qed.

Lemma getitem_Some d k v : PyDict.get d k = Some v → getitem d k = Return v.
Proof. unfold getitem. by intros ->. Qed.
End PyDict_facts.

(** ** The loops of [compare_files] as bulk updates *)

Section bulk_updates.
Context {P : Type}.
Implicit Types (r : Report.t P) (m : Modification.t P) (x : Entry.t P).

Lemma extend_nil r : extend [] [] [] [] r = r.
Proof.
  destruct r as [? ? ? [] [] ?]. unfold extend; simpl.
  by rewrite !app_nil_r, !Nat.add_0_r.
Qed.

Lemma extend_extend us ms ns xs us' ms' ns' xs' r :
  extend us' ms' ns' xs' (extend us ms ns xs r)
  = extend (us ++ us') (ms ++ ms') (ns ++ ns') (xs ++ xs') r.
Proof.
  unfold extend; simpl.
  by rewrite !length_app, !Nat.add_assoc, <- !(assoc_L (++)).
Qed.

Lemma step_unchanged p r :
  Report.with_summary Report.incr_unchanged
    (Report.with_files (Report.append_unchanged p) r) = extend [p] [] [] [] r.
Proof.
  destruct r as [? ? ? [] [] ?]. unfold extend; simpl.
  by rewrite !app_nil_r, !Nat.add_0_r.
Qed.

Lemma step_modified m r :
  Report.with_summary Report.incr_modified
    (Report.with_files (Report.append_modified m) r) = extend [] [m] [] [] r.
Proof.
  destruct r as [? ? ? [] [] ?]. unfold extend; simpl.
  by rewrite !app_nil_r, !Nat.add_0_r.
Qed.

Lemma step_new n r :
  Report.with_summary Report.incr_new
    (Report.with_files (Report.append_new n) r) = extend [] [] [n] [] r.
Proof.
  destruct r as [? ? ? [] [] ?]. unfold extend; simpl.
  by rewrite !app_nil_r, !Nat.add_0_r.
Qed.

Lemma step_missing x r :
  Report.with_summary Report.incr_missing
    (Report.with_files (Report.append_missing x) r) = extend [] [] [] [x] r.
Proof.
  destruct r as [? ? ? [] [] ?]. unfold extend; simpl.
  by rewrite !app_nil_r, !Nat.add_0_r.
Qed.

End bulk_updates.

Lemma compare_common_run previous_files current_files p ci pi r :
  PyDict.get current_files p = Some ci →
  PyDict.get previous_files p = Some pi →
  compare_common previous_files current_files p r
  = (Return tt,
     extend (option_list (unchanged_of previous_files current_files p))
            (option_list (modified_of previous_files current_files p)) [] [] r).
Proof.
  intros Hci Hpi.
  unfold compare_common, unchanged_of, modified_of, mbind, py_mbind, py_bind, py_lift.
  rewrite (getitem_Some _ _ _ Hci), (getitem_Some _ _ _ Hpi), Hci, Hpi. simpl.
  destruct (same_hashes pi ci); unfold py_modify; simpl.
  - by rewrite step_unchanged.
  - by rewrite step_modified.
Qed.

Lemma omap_cons_option_list {A B} (f : A → option B) x l :
  omap f (x :: l) = option_list (f x) ++ omap f l.
Proof. simpl. by destruct (f x). Qed.

Lemma py_for_compare_common previous_files current_files paths r :
  (∀ p, p ∈ paths →
        is_Some (PyDict.get current_files p) ∧ is_Some (PyDict.get previous_files p)) →
  py_for paths (compare_common previous_files current_files) r
  = (Return tt,
     extend (omap (unchanged_of previous_files current_files) paths)
            (omap (modified_of previous_files current_files) paths) [] [] r).
Proof.
  revert r. induction paths as [|p paths IH]; intros r Hin.
  - simpl. unfold py_ret. by rewrite extend_nil.
  - destruct (Hin p) as [[ci Hci] [pi Hpi]]; [left|].
    cbn [py_for]. unfold py_bind at 1.
    rewrite (compare_common_run _ _ _ _ _ _ Hci Hpi).
    rewrite IH by (intros q Hq; apply Hin; by right).
    by rewrite extend_extend, !omap_cons_option_list.
Qed.

Lemma py_for_record_new {P} current_files paths (r : Report.t P) :
  (∀ p, p ∈ paths → is_Some (PyDict.get current_files p)) →
  py_for paths (record_new current_files) r
  = (Return tt, extend [] [] (WithInfo <$> omap (entry_of current_files) paths) [] r).
Proof.
  revert r. induction paths as [|p paths IH]; intros r Hin.
  - simpl. unfold py_ret. by rewrite extend_nil.
  - destruct (Hin p) as [ci Hci]; [left|].
    cbn [py_for]. unfold py_bind at 1.
    unfold record_new at 1, mbind, py_mbind, py_bind, py_lift, py_modify.
    rewrite (getitem_Some _ _ _ Hci). simpl. rewrite step_new.
    rewrite IH by (intros q Hq; apply Hin; by right).
    rewrite extend_extend. unfold entry_of at 2. by rewrite Hci.
Qed.

Lemma py_for_record_missing {P} (previous_files : dict P) paths (r : Report.t P) :
  (∀ p, p ∈ paths → is_Some (PyDict.get previous_files p)) →
  py_for paths (record_missing previous_files) r
  = (Return tt, extend [] [] [] (omap (entry_of previous_files) paths) r).
Proof.
  revert r. induction paths as [|p paths IH]; intros r Hin.
  - simpl. unfold py_ret. by rewrite extend_nil.
  - destruct (Hin p) as [pi Hpi]; [left|].
    cbn [py_for]. unfold py_bind at 1.
    unfold record_missing at 1, mbind, py_mbind, py_bind, py_lift, py_modify.
    rewrite (getitem_Some _ _ _ Hpi). simpl. rewrite step_missing.
    rewrite IH by (intros q Hq; apply Hin; by right).
    rewrite extend_extend. unfold entry_of at 2. by rewrite Hpi.
Qed.

Lemma elem_of_order (order : SetOrder) (X : gset string) p : p ∈ order X ↔ p ∈ X.
Proof. by rewrite (iter_perm order X), elem_of_elements. Qed.

(** The comparison never raises, and its effect is [compared]. *)
Lemma compare_files_run order previous_files current_files r :
  compare_files order previous_files current_files r
  = (Return tt, compared order previous_files current_files r).
Proof.
  unfold compare_files, mbind, py_mbind, py_bind.
  rewrite py_for_compare_common.
  2:{ intros p Hp. apply elem_of_order, elem_of_intersection in Hp.
      by rewrite <- !elem_of_key_set. }
  rewrite py_for_record_new.
  2:{ intros p Hp. apply elem_of_order, elem_of_difference in Hp.
      rewrite <- elem_of_key_set. tauto. }
  rewrite py_for_record_missing.
  2:{ intros p Hp. apply elem_of_order, elem_of_difference in Hp.
      rewrite <- elem_of_key_set. tauto. }
  unfold py_modify. by rewrite !extend_extend, !app_nil_r.
Qed.

Lemma diff_compared order now mount_point baseline_file previous current :
  diff order now mount_point baseline_file previous current
  = compared order (Baseline.files previous) (Baseline.files current)
             (initial_results now mount_point baseline_file).
Proof. unfold diff. by rewrite compare_files_run. Qed.

(** ** The comparison on a loaded value *)

Lemma get_fmap {A B} (f : A → B) (d : dict A) k :
  PyDict.get (prod_map id f <$> d) k = f <$> PyDict.get d k.
Proof.
  induction d as [|[k' v] d IH]; [done|]. simpl.
  by destruct (decide (k' = k)).
Qed.

Lemma keys_fmap {A B} (f : A → B) (d : dict A) :
  PyDict.keys (prod_map id f <$> d) = PyDict.keys d.
Proof.
  unfold PyDict.keys. rewrite <- list_fmap_compose.
  by apply list_fmap_ext; intros ? [].
Qed.

Lemma key_set_fmap {A B} (f : A → B) (d : dict A) :
  PyDict.key_set (prod_map id f <$> d) = PyDict.key_set d.
Proof. unfold PyDict.key_set. by rewrite keys_fmap. Qed.

(** One round of the loop over the common paths. *)
Lemma loaded_compare_common_run previous_files current_files path r :
  Loaded.compare_common previous_files current_files path r
  = match PyDict.get current_files path with
    | None => (Raise ("KeyError: " +:+ path), r)
    | Some current_info =>
        match PyDict.get previous_files path with
        | None => (Raise ("KeyError: " +:+ path), r)
        | Some previous_info =>
            match examined previous_info current_info with
            | Raise e => (Raise e, r)
            | Return None => (Return tt, extend [path] [] [] [] r)
            | Return (Some changes) =>
                (Return tt,
                 extend [] [ {| Modification.path := path;
                                Modification.previous := previous_info;
                                Modification.current := current_info;
                                Modification.changes := changes |} ] [] [] r)
            end
        end
    end.
Proof.
  unfold Loaded.compare_common, examined, getitem, mbind, py_mbind, py_bind, py_lift.
  destruct (PyDict.get current_files path) as [ci|]; [|done].
  destruct (PyDict.get previous_files path) as [pi|]; [|done].
  destruct (as_dict pi "get") as [previous_record|e]; [|done].
  destruct (as_dict (default (JObject []) (PyDict.get previous_record "hashes"))
                    "get") as [previous_hashes|e]; [|done].
  destruct (_ && _); unfold py_modify; simpl.
  - by rewrite step_unchanged.
  - by rewrite step_modified.
Qed.

Lemma py_for_loaded_compare_common previous_files current_files paths r :
  py_for paths (Loaded.compare_common previous_files current_files) r
  = ((common_run previous_files current_files paths).1,
     extend (common_run previous_files current_files paths).2.1
            (common_run previous_files current_files paths).2.2 [] [] r).
Proof.
  revert r. induction paths as [|p paths IH]; intros r.
  - simpl. unfold py_ret. by rewrite extend_nil.
  - cbn [py_for common_run]. unfold py_bind at 1.
    rewrite loaded_compare_common_run.
    destruct (PyDict.get current_files p) as [ci|];
      [|simpl; by rewrite extend_nil].
    destruct (PyDict.get previous_files p) as [pi|];
      [|simpl; by rewrite extend_nil].
    destruct (examined pi ci) as [[changes|]|e];
      [| |simpl; by rewrite extend_nil].
    + rewrite IH.
      destruct (common_run previous_files current_files paths) as [o [us ms]].
      simpl. by rewrite extend_extend.
    + rewrite IH.
      destruct (common_run previous_files current_files paths) as [o [us ms]].
      simpl. by rewrite extend_extend.
Qed.

Lemma loaded_compare_files_run order previous_baseline current_files r :
  Loaded.compare_files order previous_baseline current_files r
  = loaded_compared order previous_baseline current_files r.
Proof.
  unfold Loaded.compare_files, loaded_compared, mbind, py_mbind.
  unfold py_bind at 1, py_lift at 1.
  destruct (as_dict previous_baseline "get") as [document|e]; [|done].
  unfold py_bind at 1, py_lift at 1.
  destruct (as_dict (default (JObject []) (PyDict.get document "files")) "keys")
    as [previous_files|e]; [|done].
  unfold py_bind at 1. rewrite py_for_loaded_compare_common.
  fold (common_paths order previous_files current_files).
  destruct (common_run previous_files current_files
              (common_paths order previous_files current_files))
    as [[[]|e] [us ms]]; [|done]. simpl.
  unfold py_bind.
  rewrite py_for_record_new.
  2:{ intros p Hp. apply elem_of_order, elem_of_difference in Hp.
      rewrite <- elem_of_key_set. tauto. }
  rewrite py_for_record_missing.
  2:{ intros p Hp. apply elem_of_order, elem_of_difference in Hp.
      rewrite <- elem_of_key_set. tauto. }
  unfold py_modify. by rewrite !extend_extend, !app_nil_r.
Qed.

(** The report of [verify_integrity] on a loaded value, in closed form. *)
Lemma checked_run order now mount_point baseline_file previous_baseline
    current_files :
  checked order now mount_point baseline_file previous_baseline current_files
  = match loaded_compared order previous_baseline current_files
            (initial_results now mount_point baseline_file) with
    | (Return _, r) => r
    | (Raise e, r) => Report.append_error ("Error during verification: " +:+ e) r
    end.
Proof.
  unfold checked, verification_block, py_try, mbind, py_mbind, py_bind, py_lift.
  rewrite loaded_compare_files_run.
  by destruct (loaded_compared _ _ _ _) as [[[]|e] r].
Qed.

(** *** A previous baseline of the documented shape *)

Lemma info_to_json_members pi :
  ∃ members,
    info_to_json pi = JObject members
    ∧ PyDict.get members "hashes"
      = (λ h, JObject (prod_map id JString <$> h)) <$> hashes pi
    ∧ PyDict.get members "size" = JInt <$> size pi.
Proof. destruct pi as [[h|] [n|] [t|]]; eexists; by repeat split. Qed.

Lemma py_eq_digest (c p : dict string) k :
  py_eq (get_or_none (prod_map id JString <$> c) k)
        (get_or_none (prod_map id JString <$> p) k)
  = bool_decide (PyDict.get c k = PyDict.get p k).
Proof.
  unfold get_or_none. rewrite !get_fmap.
  destruct (PyDict.get c k), (PyDict.get p k); simpl;
    first [ done
          | apply bool_decide_ext; naive_solver
          | symmetry; by apply bool_decide_eq_false_2
          | symmetry; by apply bool_decide_eq_true_2 ].
Qed.

Lemma loaded_list_changes_typed members pi ci :
  PyDict.get members "size" = JInt <$> size pi →
  Loaded.list_changes members (Loaded.hashes_of pi) ci = list_changes pi ci.
Proof.
  intros Hsize. unfold Loaded.list_changes, list_changes, Loaded.hashes_of,
    Loaded.size_of, get_or_none.
  rewrite Hsize.
  assert (negb (py_eq (from_option JInt JNull (size ci))
                      (default JNull (JInt <$> size pi)))
          = bool_decide (size ci ≠ size pi)) as ->.
  { destruct (size ci), (size pi); simpl;
      first [ done
            | rewrite <- bool_decide_not; apply bool_decide_ext; naive_solver
            | symmetry; by apply bool_decide_eq_true_2
            | symmetry; apply bool_decide_eq_false_2; naive_solver ]. }
  generalize (if bool_decide (size ci ≠ size pi) then [] ++ ["size"] else [])
    as changes.
  intros changes. simpl. rewrite !get_fmap.
  destruct (PyDict.get (get_hashes pi) "md5") as [p1|],
    (PyDict.get (get_hashes ci) "md5") as [c1|]; simpl;
    destruct (PyDict.get (get_hashes pi) "sha256") as [p2|],
      (PyDict.get (get_hashes ci) "sha256") as [c2|]; simpl; try done;
    repeat (case_bool_decide; case_decide); simpl; congruence.
Qed.

Lemma examined_typed pi ci :
  examined (info_to_json pi) ci
  = Return (if same_hashes pi ci then None else Some (list_changes pi ci)).
Proof.
  destruct (info_to_json_members pi) as (members & -> & Hhashes & Hsize).
  unfold examined. simpl. rewrite Hhashes.
  assert (as_dict (default (JObject []) ((λ h, JObject (prod_map id JString <$> h))
                                           <$> hashes pi)) "get"
          = Return (Loaded.hashes_of pi)) as ->.
  { unfold Loaded.hashes_of, get_hashes. by destruct (hashes pi). }
  unfold Loaded.hashes_of at 1 2 3 4. rewrite !py_eq_digest.
  fold (same_hashes pi ci). rewrite (loaded_list_changes_typed _ _ _ Hsize).
  done.
Qed.

Lemma common_run_typed previous_files current_files paths :
  (∀ p, p ∈ paths →
        is_Some (PyDict.get current_files p) ∧ is_Some (PyDict.get previous_files p)) →
  common_run (prod_map id info_to_json <$> previous_files) current_files paths
  = (Return tt,
     (omap (unchanged_of previous_files current_files) paths,
      Modification.map info_to_json
        <$> omap (modified_of previous_files current_files) paths)).
Proof.
  induction paths as [|p paths IH]; intros Hin; [done|].
  destruct (Hin p) as [[ci Hci] [pi Hpi]]; [left|].
  cbn [common_run omap]. rewrite get_fmap, Hci, Hpi. simpl.
  rewrite examined_typed, IH by (intros q Hq; apply Hin; by right).
  unfold unchanged_of, modified_of. rewrite Hci, Hpi. simpl.
  by destruct (same_hashes pi ci).
Qed.

Lemma entry_of_fmap {A B} (f : A → B) (d : dict A) (paths : list string) :
  omap (entry_of (prod_map id f <$> d)) paths
  = Entry.map f <$> omap (entry_of d) paths.
Proof.
  induction paths as [|p paths IH]; [done|].
  rewrite !omap_cons_option_list, fmap_app, IH. f_equal.
  unfold entry_of. rewrite get_fmap. by destruct (PyDict.get d p).
Qed.

Lemma map_extend {P Q} (f : P → Q) us ms ns xs (r : Report.t P) :
  Report.map f (extend us ms ns xs r)
  = extend us (Modification.map f <$> ms) ns (Entry.map f <$> xs) (Report.map f r).
Proof. unfold Report.map, extend. simpl. by rewrite !fmap_app, !length_fmap. Qed.

Lemma map_with_summary {P Q} (f : P → Q) g (r : Report.t P) :
  Report.map f (Report.with_summary g r) = Report.with_summary g (Report.map f r).
Proof. done. Qed.

(** On a file that holds a document of the documented shape,
    [verify_integrity] computes what the differencer computes on the typed
    documents, with the previous records kept as the JSON objects they were
    loaded as. *)
Lemma checked_typed order now mount_point baseline_file
    (previous current : Baseline.t) :
  checked order now mount_point baseline_file (Baseline.to_json previous)
          (Baseline.files current)
  = Report.map info_to_json
      (diff order now mount_point baseline_file previous current).
Proof.
  rewrite checked_run, diff_compared. unfold loaded_compared, compared.
  simpl. unfold common_paths, added_paths, removed_paths.
  rewrite !key_set_fmap, common_run_typed.
  2:{ intros p Hp. apply elem_of_order, elem_of_intersection in Hp.
      by rewrite <- !elem_of_key_set. }
  rewrite entry_of_fmap.
  by rewrite map_with_summary, map_extend.
Qed.

(** ** The scan as a fold *)

Lemma os_walk_run top w : os_walk top w = (Return (walked w top), w).
Proof. done. Qed.

Lemma process_file_run rel_path f b :
  process_file rel_path f b = (Return tt, record_file rel_path f b).
Proof.
  unfold process_file, record_file, stat_and_mtime, py_try, mbind, py_mbind,
    py_bind, py_lift.
  destruct (os_stat f) as [file_stat|e]; [|done].
  by destruct (datetime_fromtimestamp (st_mtime file_stat)).
Qed.

Lemma py_for_process_file entries b :
  py_for entries (λ '(rel_path, f), process_file rel_path f) b
  = (Return tt, record_files entries b).
Proof.
  revert b. induction entries as [|[p f] entries IH]; intros b; [done|].
  cbn [py_for]. unfold py_bind at 1. rewrite process_file_run. by rewrite IH.
Qed.

(** The handler of the outer [try] is never entered. *)
Lemma scan_run mount_point entries b :
  scan mount_point entries b = (Return tt, record_files entries b).
Proof. unfold scan, py_try. by rewrite py_for_process_file. Qed.

Lemma generate_baseline_run mount_point w :
  generate_baseline mount_point None w = (Return (scanned w mount_point), tick w).
Proof.
  unfold generate_baseline, mbind, py_mbind, py_bind, datetime_now, os_walk.
  simpl. by rewrite scan_run.
Qed.

Lemma generate_baseline_save_run mount_point output_file w :
  output_file ≠ "" →
  generate_baseline mount_point (Some output_file) w
  = match PyDict.get (store w) output_file with
    | Some Directory =>
        (Return (Baseline.append_error
                   ("Error saving baseline to " +:+ output_file +:+ ": "
                    +:+ "Is a directory: " +:+ output_file)
                   (scanned w mount_point)), tick w)
    | _ =>
        (Return (scanned w mount_point),
         {| mounts := mounts w;
            store := PyDict.setitem (store w) output_file
                       (JsonFile (Baseline.to_json (scanned w mount_point)));
            clock := S (clock w) |})
    end.
Proof.
  intros Hne.
  unfold generate_baseline, mbind, py_mbind, py_bind, datetime_now, os_walk.
  simpl. rewrite scan_run, decide_False by done.
  unfold py_try, py_bind, json_dump, mret, py_mret, py_ret. simpl.
  by destruct (PyDict.get (store w) output_file) as [[]|].
Qed.

(** ** [verify_integrity] in closed form *)

(** [verify_integrity] always returns, and leaves the stored files alone. *)
Lemma verify_integrity_run order mount_point baseline_file w :
  verify_integrity order mount_point baseline_file w
  = (Return (verified order mount_point
               (default DEFAULT_BASELINE_FILE baseline_file) w),
     tick (tick w)).
Proof.
  unfold verify_integrity, verified. cbv zeta.
  generalize (default DEFAULT_BASELINE_FILE baseline_file) as bf. intros bf.
  unfold mbind, py_mbind, py_bind at 1, datetime_now.
  unfold py_bind at 1. rewrite generate_baseline_run.
  destruct w as [ms st c].
  unfold py_bind, os_path_exists, py_attempt, json_load, PyDict.contains, tick,
    checked, mret, py_mret, py_ret.
  simpl.
  destruct (PyDict.get st bf) as [[prev| |]|] eqn:E; simpl; rewrite ?E; done.
Qed.

(** ** The categories of a report *)

Section diff_fields.
Context (order : SetOrder) (now : nat) (mount_point baseline_file : string).
Context (previous current : Baseline.t).

Let r := diff order now mount_point baseline_file previous current.
Let pf := Baseline.files previous.
Let cf := Baseline.files current.

Lemma diff_unchanged :
  Report.unchanged (Report.files r)
  = omap (unchanged_of pf cf) (common_paths order pf cf).
Proof. subst r. by rewrite diff_compared. Qed.

Lemma diff_modified :
  Report.modified (Report.files r)
  = omap (modified_of pf cf) (common_paths order pf cf).
Proof. subst r. by rewrite diff_compared. Qed.

Lemma diff_new :
  Report.new (Report.files r)
  = WithInfo <$> omap (entry_of cf) (added_paths order pf cf).
Proof. subst r. by rewrite diff_compared. Qed.

Lemma diff_missing :
  Report.missing (Report.files r)
  = omap (entry_of pf) (removed_paths order pf cf).
Proof. subst r. by rewrite diff_compared. Qed.

Lemma diff_header :
  Report.timestamp r = now ∧ Report.mount_point r = mount_point
  ∧ Report.baseline_file r = baseline_file ∧ Report.errors r = [].
Proof. subst r. by rewrite diff_compared. Qed.

Lemma diff_consistent : consistent r.
Proof. subst r. rewrite diff_compared. by repeat split. Qed.

Lemma elem_of_diff_unchanged p :
  p ∈ unchanged_paths r ↔
  ∃ pi ci, PyDict.get pf p = Some pi ∧ PyDict.get cf p = Some ci
           ∧ same_hashes pi ci = true.
Proof.
  unfold unchanged_paths. rewrite diff_unchanged, list_elem_of_omap. split.
  - intros (q & _ & Hq). unfold unchanged_of in Hq.
    destruct (PyDict.get cf q) as [ci|] eqn:Hc; [|done].
    destruct (PyDict.get pf q) as [pi|] eqn:Hp; [|done]. simpl in Hq.
    destruct (same_hashes pi ci) eqn:Hs; [|done].
    injection Hq as ->. eauto.
  - intros (pi & ci & Hp & Hc & Hs). exists p. split.
    + apply elem_of_order, elem_of_intersection.
      rewrite !elem_of_key_set. subst pf cf. rewrite Hp, Hc. eauto.
    + unfold unchanged_of. rewrite Hc, Hp. simpl. by rewrite Hs.
Qed.

Lemma elem_of_diff_modified m :
  m ∈ Report.modified (Report.files r) ↔
  ∃ p pi ci, PyDict.get pf p = Some pi ∧ PyDict.get cf p = Some ci
             ∧ same_hashes pi ci = false
             ∧ m = {| Modification.path := p;
                      Modification.previous := pi;
                      Modification.current := ci;
                      Modification.changes := list_changes pi ci |}.
Proof.
  rewrite diff_modified, list_elem_of_omap. split.
  - intros (q & _ & Hq). unfold modified_of in Hq.
    destruct (PyDict.get cf q) as [ci|] eqn:Hc; [|done].
    destruct (PyDict.get pf q) as [pi|] eqn:Hp; [|done]. simpl in Hq.
    destruct (same_hashes pi ci) eqn:Hs; [done|].
    injection Hq as <-. eauto 10.
  - intros (p & pi & ci & Hp & Hc & Hs & ->). exists p. split.
    + apply elem_of_order, elem_of_intersection.
      rewrite !elem_of_key_set. subst pf cf. rewrite Hp, Hc. eauto.
    + unfold modified_of. rewrite Hc, Hp. simpl. by rewrite Hs.
Qed.

Lemma elem_of_modified_paths p :
  p ∈ modified_paths r ↔
  ∃ pi ci, PyDict.get pf p = Some pi ∧ PyDict.get cf p = Some ci
           ∧ same_hashes pi ci = false.
Proof.
  unfold modified_paths. rewrite list_elem_of_fmap. split.
  - intros (m & -> & Hm). apply elem_of_diff_modified in Hm
      as (q & pi & ci & Hp & Hc & Hs & ->). simpl. eauto.
  - intros (pi & ci & Hp & Hc & Hs).
    eexists. split; [|apply elem_of_diff_modified; eauto 10]. done.
Qed.

Lemma elem_of_diff_new n :
  n ∈ Report.new (Report.files r) ↔
  ∃ p ci, PyDict.get cf p = Some ci ∧ PyDict.get pf p = None
          ∧ n = WithInfo {| Entry.path := p; Entry.info := ci |}.
Proof.
  rewrite diff_new, list_elem_of_fmap. split.
  - intros (e & -> & He). apply list_elem_of_omap in He as (q & Hq & He).
    apply elem_of_order, elem_of_difference in Hq as [_ Hq].
    rewrite elem_of_key_set, <- eq_None_not_Some in Hq.
    unfold entry_of in He. destruct (PyDict.get cf q) eqn:Hc; [|done].
    injection He as <-. eauto.
  - intros (p & ci & Hc & Hp & ->). eexists. split; [done|].
    apply list_elem_of_omap. exists p. split.
    + apply elem_of_order, elem_of_difference.
      rewrite !elem_of_key_set. subst pf cf. rewrite Hp, Hc.
      split; [eauto | by intros [? [=]]].
    + unfold entry_of. by rewrite Hc.
Qed.

Lemma elem_of_diff_missing x :
  x ∈ Report.missing (Report.files r) ↔
  ∃ p pi, PyDict.get pf p = Some pi ∧ PyDict.get cf p = None
          ∧ x = {| Entry.path := p; Entry.info := pi |}.
Proof.
  rewrite diff_missing, list_elem_of_omap. split.
  - intros (q & Hq & He).
    apply elem_of_order, elem_of_difference in Hq as [_ Hq].
    rewrite elem_of_key_set, <- eq_None_not_Some in Hq.
    unfold entry_of in He. destruct (PyDict.get pf q) eqn:Hp; [|done].
    injection He as <-. eauto.
  - intros (p & pi & Hp & Hc & ->). exists p. split.
    + apply elem_of_order, elem_of_difference.
      rewrite !elem_of_key_set. subst pf cf. rewrite Hp, Hc.
      split; [eauto | by intros [? [=]]].
    + unfold entry_of. by rewrite Hp.
Qed.

Lemma elem_of_new_paths p :
  p ∈ new_paths r ↔ is_Some (PyDict.get cf p) ∧ PyDict.get pf p = None.
Proof.
  unfold new_paths. rewrite list_elem_of_fmap. split.
  - intros (n & -> & Hn). apply elem_of_diff_new in Hn
      as (q & ci & Hc & Hp & ->). simpl. eauto.
  - intros [[ci Hc] Hp].
    eexists. split; [|apply elem_of_diff_new; eauto 10]. done.
Qed.

Lemma elem_of_missing_paths p :
  p ∈ missing_paths r ↔ is_Some (PyDict.get pf p) ∧ PyDict.get cf p = None.
Proof.
  unfold missing_paths. rewrite list_elem_of_fmap. split.
  - intros (x & -> & Hx). apply elem_of_diff_missing in Hx
      as (q & pi & Hp & Hc & ->). simpl. eauto.
  - intros [[pi Hp] Hc].
    eexists. split; [|apply elem_of_diff_missing; eauto 10]. done.
Qed.
End diff_fields.

(** ** The summary *)

Lemma absent_report_consistent {P} now mount_point baseline_file current_files :
  consistent (@absent_report P now mount_point baseline_file current_files).
Proof.
  unfold consistent, absent_report, PyDict.len, PyDict.keys; simpl.
  rewrite !length_fmap. repeat split; lia.
Qed.

Lemma consistent_counted_tallied {P} (r : Report.t P) :
  consistent r ↔ tallied r ∧ counted r.
Proof. done. Qed.

(** The two ways in which the [try] block of [verify_integrity] ends on a
    loaded value: by a failure, with what the first loop had recorded by
    then and without the tally, or normally. *)
Lemma checked_cases order now mount_point baseline_file previous_baseline
    current_files :
  ∃ us ms,
    (∃ e, checked order now mount_point baseline_file previous_baseline
                  current_files
          = Report.append_error ("Error during verification: " +:+ e)
              (extend us ms [] [] (initial_results now mount_point baseline_file)))
    ∨ (∃ previous_files,
         checked order now mount_point baseline_file previous_baseline
                 current_files
         = Report.with_summary tally
             (extend us ms
                (WithInfo <$> omap (entry_of current_files)
                                   (added_paths order previous_files current_files))
                (omap (entry_of previous_files)
                      (removed_paths order previous_files current_files))
                (initial_results now mount_point baseline_file))).
Proof.
  rewrite checked_run. unfold loaded_compared.
  destruct (as_dict previous_baseline "get") as [document|e].
  2:{ exists [], []. left. exists e. by rewrite extend_nil. }
  destruct (as_dict (default (JObject []) (PyDict.get document "files")) "keys")
    as [previous_files|e].
  2:{ exists [], []. left. exists e. by rewrite extend_nil. }
  destruct (common_run previous_files current_files
              (common_paths order previous_files current_files))
    as [[[]|e] [us ms]]; exists us, ms; [right|left]; eauto.
Qed.

Lemma checked_counted order now mount_point baseline_file previous_baseline
    current_files :
  counted (checked order now mount_point baseline_file previous_baseline
                   current_files).
Proof.
  destruct (checked_cases order now mount_point baseline_file previous_baseline
              current_files) as (us & ms & [[e ->]|[pf ->]]);
    unfold counted; simpl; by rewrite ?length_fmap.
Qed.

Lemma checked_tallied_or_failed order now mount_point baseline_file
    previous_baseline current_files :
  let r := checked order now mount_point baseline_file previous_baseline
                   current_files in
  (tallied r ∧ Report.errors r = [])
  ∨ (Report.total_files (Report.summary r) = 0
     ∧ ∃ e, Report.errors r = ["Error during verification: " +:+ e]).
Proof.
  destruct (checked_cases order now mount_point baseline_file previous_baseline
              current_files) as (us & ms & [[e ->]|[pf ->]]).
  - right. split; [done|]. by exists e.
  - left. by split.
Qed.

(** In every report of [verify_integrity] each count is the length of its
    list; the total is the sum of the counts unless the [try] block failed,
    and then the total is still 0. *)
Lemma verified_counted order mount_point baseline_file w :
  let r := verified order mount_point baseline_file w in
  counted r
  ∧ (tallied r
     ∨ (Report.total_files (Report.summary r) = 0
        ∧ ∃ e, Report.errors r = ["Error during verification: " +:+ e])).
Proof.
  unfold verified.
  destruct (PyDict.get (store w) baseline_file) as [[prev| |]|].
  - split; [apply checked_counted|].
    destruct (checked_tallied_or_failed order (clock w) mount_point baseline_file
                prev (Baseline.files (scanned (tick w) mount_point)))
      as [[? _]|?]; [by left | by right].
  - split; [done|]. right. split; [done|]. eauto.
  - split; [done|]. right. split; [done|]. eauto.
  - split; [|left]; apply (absent_report_consistent (P := json)).
Qed.

(** C3, on the code: when the comparison fails on a record after it has
    recorded a path, the tally is skipped.  Against a baseline file in which
    the record of [log/auth.log] is [null], the report counts one unchanged
    file, and its total is 0. *)
Theorem C3_total_not_tallied_after_failure :
  ∃ r w',
    verify_integrity canonical_order "/mnt/evidence" (Some "out/baseline.json")
                     null_record_world = (Return r, w')
    ∧ Report.unchanged (Report.files r) = ["notes.txt"]
    ∧ Report.summary r
      = {| Report.total_files := 0; Report.unchanged_files := 1;
           Report.modified_files := 0; Report.new_files := 0;
           Report.missing_files := 0 |}
    ∧ Report.errors r
      = ["Error during verification: 'NoneType' object has no attribute 'get'"]
    ∧ ¬ tallied r.
Proof.
  eexists _, _. split; [vm_compute; reflexivity|].
  split; [reflexivity|]. split; [reflexivity|]. split; [reflexivity|].
  unfold tallied. simpl. lia.
Qed.

(** ** Comparing a document with itself, and swapping the documents *)

Lemma same_hashes_refl info : same_hashes info info = true.
Proof. unfold same_hashes. by rewrite !bool_decide_eq_true_2. Qed.

(** C8.  Comparing a document with itself leaves [modified], [new] and
    [missing] empty, and the paths reported unchanged are exactly the paths
    the document records. *)
Theorem C8_diff_with_itself order now mount_point baseline_file (A : Baseline.t) :
  let r := diff order now mount_point baseline_file A A in
  Report.modified (Report.files r) = []
  ∧ Report.new (Report.files r) = []
  ∧ Report.missing (Report.files r) = []
  ∧ list_to_set (unchanged_paths r) = PyDict.key_set (Baseline.files A).
Proof.
  intros r. subst r. repeat split.
  - apply elem_of_nil_inv. intros m Hm.
    apply elem_of_diff_modified in Hm as (p & pi & ci & Hp & Hc & Hs & _).
    rewrite Hp in Hc. injection Hc as <-. by rewrite same_hashes_refl in Hs.
  - apply elem_of_nil_inv. intros n Hn.
    apply elem_of_diff_new in Hn as (p & ci & Hc & Hp & _). congruence.
  - apply elem_of_nil_inv. intros x Hx.
    apply elem_of_diff_missing in Hx as (p & pi & Hp & Hc & _). congruence.
  - apply set_eq. intros p.
    rewrite elem_of_list_to_set, elem_of_diff_unchanged, elem_of_key_set. split.
    + intros (pi & ci & Hp & _). eauto.
    + intros [i Hi]. exists i, i. by rewrite same_hashes_refl.
Qed.

Lemma order_perm (o o' : SetOrder) (X : gset string) : o X ≡ₚ o' X.
Proof. by rewrite (iter_perm o X), (iter_perm o' X). Qed.

(** C9.  Swapping the two documents swaps the roles of [new] and [missing]:
    what one comparison reports as new the other reports as missing, with
    the same file records, whatever order each run visits its sets in; in
    particular the two sets of paths are equal. *)
Theorem C9_swap_inverts_roles order order' now now' mount_point baseline_file
    (A B : Baseline.t) :
  let ab := diff order now mount_point baseline_file A B in
  let ba := diff order' now' mount_point baseline_file B A in
  Report.new (Report.files ab) ≡ₚ WithInfo <$> Report.missing (Report.files ba)
  ∧ Report.new (Report.files ba) ≡ₚ WithInfo <$> Report.missing (Report.files ab)
  ∧ list_to_set (new_paths ab) =@{gset string} list_to_set (missing_paths ba)
  ∧ list_to_set (missing_paths ab) =@{gset string} list_to_set (new_paths ba).
Proof.
  intros ab ba. subst ab ba.
  assert (∀ o o' n n' (X Y : Baseline.t),
            Report.new (Report.files (diff o n mount_point baseline_file X Y))
            ≡ₚ WithInfo <$>
               Report.missing (Report.files (diff o' n' mount_point baseline_file Y X)))
    as Hperm.
  { intros o o' n n' X Y. rewrite diff_new, diff_missing.
    unfold added_paths, removed_paths. by rewrite (order_perm o o'). }
  assert (∀ o o' n n' (X Y : Baseline.t),
            list_to_set (new_paths (diff o n mount_point baseline_file X Y))
            =@{gset string}
            list_to_set (missing_paths (diff o' n' mount_point baseline_file Y X)))
    as Hset.
  { intros o o' n n' X Y. apply set_eq. intros p.
    rewrite !elem_of_list_to_set, elem_of_new_paths, elem_of_missing_paths. done. }
  repeat split; [apply Hperm | apply Hperm | apply Hset | symmetry; apply Hset].
Qed.

(** ** How a common path is classified *)

Lemma same_hashes_true pi ci :
  same_hashes pi ci = true ↔
  PyDict.get (get_hashes ci) "md5" = PyDict.get (get_hashes pi) "md5"
  ∧ PyDict.get (get_hashes ci) "sha256" = PyDict.get (get_hashes pi) "sha256".
Proof.
  unfold same_hashes. rewrite andb_true_iff, !bool_decide_eq_true. done.
Qed.

Lemma unchanged_xor_modified order now mount_point baseline_file previous current
    p pi ci :
  PyDict.get (Baseline.files previous) p = Some pi →
  PyDict.get (Baseline.files current) p = Some ci →
  let r := diff order now mount_point baseline_file previous current in
  (p ∈ unchanged_paths r ↔ same_hashes pi ci = true)
  ∧ (p ∈ modified_paths r ↔ same_hashes pi ci = false).
Proof.
  intros Hp Hc r. subst r.
  rewrite elem_of_diff_unchanged, elem_of_modified_paths. split; split.
  - intros (pi' & ci' & Hp' & Hc' & Hs). congruence.
  - eauto.
  - intros (pi' & ci' & Hp' & Hc' & Hs). congruence.
  - eauto.
Qed.

(** C1, as stated, fails: paths whose sizes differ, and a path whose common
    [sha512] digest differs, are all reported unchanged and none is reported
    modified. *)
Lemma C1_counterexample :
  let r := diff canonical_order 0 "/mnt/evidence" "baseline.json"
                c1_previous c1_current in
  (size <$> PyDict.get (Baseline.files c1_previous) "a.txt" = Some (Some 10%Z)
   ∧ size <$> PyDict.get (Baseline.files c1_current) "a.txt" = Some (Some 12%Z)
   ∧ "a.txt" ∈ unchanged_paths r ∧ "a.txt" ∉ modified_paths r)
  ∧ (size <$> PyDict.get (Baseline.files c1_previous) "c.log" = Some (Some 10%Z)
     ∧ size <$> PyDict.get (Baseline.files c1_current) "c.log" = Some (Some 12%Z)
     ∧ "c.log" ∈ unchanged_paths r ∧ "c.log" ∉ modified_paths r)
  ∧ ((get_hashes <$> PyDict.get (Baseline.files c1_previous) "b.bin")
       ≫= (λ h, PyDict.get h "sha512") = Some "e5f6"
     ∧ (get_hashes <$> PyDict.get (Baseline.files c1_current) "b.bin")
         ≫= (λ h, PyDict.get h "sha512") = Some "0000"
     ∧ "b.bin" ∈ unchanged_paths r ∧ "b.bin" ∉ modified_paths r).
Proof. cbv zeta. repeat split; by_evaluation. Qed.

(** C1, amended.  A path present in both documents lands in exactly one of
    [unchanged] and [modified], decided by the [md5] and [sha256] entries
    alone: when both entries read the same on the two sides (a digest, or
    nothing) the path is unchanged, whatever the sizes and the other
    algorithms; it is unchanged only if each of [md5] and [sha256] that both
    records carry matches exactly; and it is modified whenever an [md5] or
    [sha256] digest carried by both records differs. *)
Theorem C1_classified_by_md5_and_sha256 order now mount_point baseline_file
    previous current p pi ci :
  PyDict.get (Baseline.files previous) p = Some pi →
  PyDict.get (Baseline.files current) p = Some ci →
  let r := diff order now mount_point baseline_file previous current in
  let digest info algo := PyDict.get (get_hashes info) algo in
  (p ∈ unchanged_paths r ↔ p ∉ modified_paths r)
  ∧ (digest ci "md5" = digest pi "md5" → digest ci "sha256" = digest pi "sha256" →
     p ∈ unchanged_paths r)
  ∧ (p ∈ unchanged_paths r →
     ∀ algo h h', algo ∈ ["md5"; "sha256"] →
       digest pi algo = Some h → digest ci algo = Some h' → h = h')
  ∧ (∀ algo h h', algo ∈ ["md5"; "sha256"] →
       digest pi algo = Some h → digest ci algo = Some h' → h ≠ h' →
       p ∈ modified_paths r).
Proof.
  intros Hp Hc r digest.
  destruct (unchanged_xor_modified order now mount_point baseline_file
              previous current p pi ci Hp Hc) as [Hu Hm].
  fold r in Hu, Hm. rewrite Hu, Hm. subst digest. cbv beta.
  repeat split.
  - intros ->. done.
  - destruct (same_hashes pi ci); [done | intros H; by destruct H].
  - intros H1 H2. by apply same_hashes_true.
  - intros [H1 H2]%same_hashes_true algo h h' Halgo Hh Hh'.
    apply elem_of_cons in Halgo as [->|Halgo]; [congruence|].
    apply list_elem_of_singleton in Halgo as ->. congruence.
  - intros algo h h' Halgo Hh Hh' Hne. apply Hm.
    destruct (same_hashes pi ci) eqn:Hs; [|done].
    apply same_hashes_true in Hs as [H1 H2].
    apply elem_of_cons in Halgo as [->|Halgo]; [congruence|].
    apply list_elem_of_singleton in Halgo as ->. congruence.
Qed.

Lemma C1_classified_by_md5_and_sha256_witness :
  let r := diff canonical_order 0 "/mnt/evidence" "baseline.json"
                c1_previous c1_current in
  ("a.txt" ∈ unchanged_paths r ↔ "a.txt" ∉ modified_paths r)
  ∧ "a.txt" ∈ unchanged_paths r.
Proof.
  pose proof (C1_classified_by_md5_and_sha256 canonical_order 0 "/mnt/evidence"
                "baseline.json" c1_previous c1_current "a.txt"
                (file_record [("md5", "0a1b"); ("sha256", "77fe")] 10 1)
                (file_record [("md5", "0a1b"); ("sha256", "77fe")] 12 2)
                eq_refl eq_refl) as (H1 & H2 & _).
  split; [exact H1 | apply H2; reflexivity].
Defined.

(** ** The [changes] of a modified path *)

Lemma elem_of_fold_changes (previous_hashes current_hashes : dict string)
    (algos changes : list string) a :
  a ∈ foldl (λ changes algo,
               match PyDict.get previous_hashes algo,
                     PyDict.get current_hashes algo with
               | Some p, Some c => if decide (p ≠ c) then changes ++ [algo] else changes
               | _, _ => changes
               end) changes algos ↔
  a ∈ changes
  ∨ (a ∈ algos
     ∧ ∃ h h', PyDict.get previous_hashes a = Some h
               ∧ PyDict.get current_hashes a = Some h' ∧ h ≠ h').
Proof.
  revert changes. induction algos as [|algo algos IH]; intros changes.
  - simpl. rewrite elem_of_nil. tauto.
  - cbn [foldl]. rewrite IH, elem_of_cons. clear IH.
    destruct (PyDict.get previous_hashes algo) as [p|] eqn:Hp;
      destruct (PyDict.get current_hashes algo) as [c|] eqn:Hc;
      try case_decide; rewrite ?elem_of_app, ?list_elem_of_singleton;
      naive_solver.
Qed.

(** [changes] names [size] exactly when the sizes differ, and an algorithm
    exactly when it is [md5] or [sha256], both records carry it, and the two
    digests differ. *)
Lemma elem_of_list_changes pi ci a :
  a ∈ list_changes pi ci ↔
  (a = "size" ∧ size ci ≠ size pi)
  ∨ (a ∈ ["md5"; "sha256"]
     ∧ ∃ h h', PyDict.get (get_hashes pi) a = Some h
               ∧ PyDict.get (get_hashes ci) a = Some h' ∧ h ≠ h').
Proof.
  unfold list_changes. cbv zeta. rewrite elem_of_fold_changes.
  case_bool_decide as Hsize.
  - rewrite app_nil_l, list_elem_of_singleton. naive_solver.
  - rewrite elem_of_nil. naive_solver.
Qed.

(** C6, on the code: a path whose only difference is an algorithm carried by
    one record alone is reported as modified, and its [changes] list is
    empty. *)
Theorem C6_one_sided_algorithm_is_flagged :
  let r := diff canonical_order 0 "/mnt/evidence" "baseline.json"
                c6_previous c6_current in
  unchanged_paths r = []
  ∧ Report.modified (Report.files r)
    = [ {| Modification.path := "report.pdf";
           Modification.previous :=
             file_record [("md5", "5d41"); ("sha256", "2cf2")] 2048 1;
           Modification.current := file_record [("md5", "5d41")] 2048 1;
           Modification.changes := [] |} ].
Proof. cbv zeta. split; vm_compute; reflexivity. Qed.

(** ** What a scan records *)

(** No digest ever reaches the returned dictionary: a readable file gets an
    empty one, an unreadable file one that holds the error text. *)
Lemma calculate_file_hashes_run f algorithms :
  calculate_file_hashes f algorithms
  = match open_read f with
    | Return _ => []
    | Raise e => [("error", e)]
    end.
Proof.
  unfold calculate_file_hashes, py_try, mbind, py_mbind, py_bind, py_lift.
  by destruct (open_read f).
Qed.

Lemma record_files_cons q g entries b :
  record_files ((q, g) :: entries) b = record_files entries (record_file q g b).
Proof. done. Qed.

Lemma record_file_get_ne q f b p :
  q ≠ p →
  PyDict.get (Baseline.files (record_file q f b)) p
  = PyDict.get (Baseline.files b) p.
Proof.
  intros Hne. unfold record_file.
  destruct (stat_and_mtime f) as [[file_stat modified]|e]; simpl; [|done].
  by apply get_setitem_ne.
Qed.

Lemma record_file_errors_incl q f b msg :
  msg ∈ Baseline.errors b → msg ∈ Baseline.errors (record_file q f b).
Proof.
  intros Hin. unfold record_file.
  destruct (stat_and_mtime f) as [[file_stat modified]|e]; simpl; [done|].
  apply elem_of_app. by left.
Qed.

Lemma record_files_errors_incl entries b msg :
  msg ∈ Baseline.errors b → msg ∈ Baseline.errors (record_files entries b).
Proof.
  revert b. induction entries as [|[q g] entries IH]; intros b Hin; [done|].
  rewrite record_files_cons. apply IH. by apply record_file_errors_incl.
Qed.

(** A path whose every visit fails, at [os.stat] or at the conversion of
    the modification time, is not recorded. *)
Lemma record_files_get_None entries b p :
  (∀ f, (p, f) ∈ entries → ∃ e, stat_and_mtime f = Raise e) →
  PyDict.get (Baseline.files b) p = None →
  PyDict.get (Baseline.files (record_files entries b)) p = None.
Proof.
  revert b. induction entries as [|[q g] entries IH]; intros b Hfail Hb; [done|].
  rewrite record_files_cons. apply IH.
  - intros f Hf. apply Hfail. by right.
  - destruct (decide (q = p)) as [->|Hne].
    + destruct (Hfail g) as [e He]; [left|].
      unfold record_file. by rewrite He.
    + by rewrite record_file_get_ne.
Qed.

(** ... and its failure is appended to [errors]. *)
Lemma record_files_error entries b p f e :
  (p, f) ∈ entries → stat_and_mtime f = Raise e →
  processing_error p e ∈ Baseline.errors (record_files entries b).
Proof.
  revert b. induction entries as [|[q g] entries IH]; intros b Hin He.
  - by apply elem_of_nil in Hin.
  - rewrite record_files_cons. apply elem_of_cons in Hin as [[= <- <-]|Hin].
    + apply record_files_errors_incl. unfold record_file. rewrite He. simpl.
      apply elem_of_app. right. by left.
    + by apply IH.
Qed.

(** A path visited as one file on which both calls succeed is recorded
    with what [calculate_file_hashes] returned for it. *)
Lemma record_files_get_Some entries b p f file_stat modified :
  (∀ f', (p, f') ∈ entries → f' = f) →
  stat_and_mtime f = Return (file_stat, modified) →
  (p, f) ∈ entries
  ∨ PyDict.get (Baseline.files b) p = Some (scanned_record f file_stat modified) →
  PyDict.get (Baseline.files (record_files entries b)) p
  = Some (scanned_record f file_stat modified).
Proof.
  revert b. induction entries as [|[q g] entries IH]; intros b Hsame Hst Hin.
  - destruct Hin as [Hin|Hb]; [by apply elem_of_nil in Hin | done].
  - rewrite record_files_cons.
    apply IH; [intros f' Hf'; apply Hsame; by right | done |].
    destruct (decide (q = p)) as [->|Hne].
    + right. rewrite (Hsame g) by left.
      unfold record_file. rewrite Hst. simpl. apply get_setitem_eq.
    + destruct Hin as [Hin|Hb].
      * left. apply elem_of_cons in Hin as [[= -> ->]|Hin]; [done | exact Hin].
      * right. by rewrite record_file_get_ne.
Qed.

(** Only a failure of [os.stat] or of the conversion adds to [errors]. *)
Lemma record_files_errors_nil entries b :
  (∀ p f, (p, f) ∈ entries → ∃ v, stat_and_mtime f = Return v) →
  Baseline.errors (record_files entries b) = Baseline.errors b.
Proof.
  revert b. induction entries as [|[q g] entries IH]; intros b Hok; [done|].
  rewrite record_files_cons.
  rewrite IH by (intros p f Hf; apply (Hok p f); by right).
  destruct (Hok q g) as [[file_stat modified] Hst]; [left|].
  unfold record_file. by rewrite Hst.
Qed.

(** The recorded files do not depend on the clock reading. *)
Lemma record_files_files entries b b' :
  Baseline.files b = Baseline.files b' →
  Baseline.files (record_files entries b) = Baseline.files (record_files entries b').
Proof.
  revert b b'. induction entries as [|[q g] entries IH]; intros b b' Heq; [done|].
  rewrite !record_files_cons. apply IH. unfold record_file.
  destruct (stat_and_mtime g) as [[file_stat modified]|e]; simpl; by rewrite ?Heq.
Qed.

Lemma record_files_errors entries b b' :
  Baseline.errors b = Baseline.errors b' →
  Baseline.errors (record_files entries b) = Baseline.errors (record_files entries b').
Proof.
  revert b b'. induction entries as [|[q g] entries IH]; intros b b' Heq; [done|].
  rewrite !record_files_cons. apply IH. unfold record_file.
  destruct (stat_and_mtime g) as [[file_stat modified]|e]; simpl; by rewrite ?Heq.
Qed.

(** [generate_baseline] returns a document in every world, for every mount
    point and every output file. *)
Lemma generate_baseline_returns mount_point output_file w :
  ∃ b w', generate_baseline mount_point output_file w = (Return b, w')
          ∧ Baseline.files b = Baseline.files (scanned w mount_point)
          ∧ Baseline.mount_point b = mount_point
          ∧ (b = scanned w mount_point
             ∨ ∃ f e, output_file = Some f
                      ∧ b = Baseline.append_error
                              ("Error saving baseline to " +:+ f +:+ ": " +:+ e)
                              (scanned w mount_point)).
Proof.
  assert (Baseline.mount_point (scanned w mount_point) = mount_point) as Hmp.
  { unfold scanned. generalize (walked w mount_point) as entries.
    assert (∀ entries b, Baseline.mount_point (record_files entries b)
                         = Baseline.mount_point b) as H.
    { induction entries as [|[q g] entries IH]; intros b; [done|].
      rewrite record_files_cons.
      rewrite IH. unfold record_file.
      by destruct (stat_and_mtime g) as [[file_stat modified]|e]. }
    intros entries. by rewrite H. }
  destruct output_file as [f|].
  - destruct (decide (f = "")) as [->|Hne].
    + eexists _, _. split; [|split; [done|split; [done|by left]]].
      unfold generate_baseline, mbind, py_mbind, py_bind, datetime_now, os_walk.
      simpl. by rewrite scan_run.
    + rewrite generate_baseline_save_run by done.
      destruct (PyDict.get (store w) f) as [[]|];
        eexists _, _; (split; [done|]); (split; [done|]); (split; [done|]);
        first [ by left | right; eauto ].
  - rewrite generate_baseline_run. eexists _, _. repeat split; eauto.
Qed.

(** ** A root that cannot be walked *)

(** C5, as stated, fails: for a root that does not exist and for a root that
    is a regular file, [generate_baseline] returns a document, with no file
    and no error in it. *)
Lemma C5_counterexample :
  (PyDict.get (mounts c5_world) "/mnt/absent" = None
   ∧ generate_baseline "/mnt/absent" None c5_world
     = (Return {| Baseline.timestamp := 100;
                  Baseline.mount_point := "/mnt/absent";
                  Baseline.files := []; Baseline.errors := [] |},
        tick c5_world))
  ∧ (is_file <$> PyDict.get (mounts c5_world) "/mnt/image.dd" = Some true
     ∧ generate_baseline "/mnt/image.dd" None c5_world
       = (Return {| Baseline.timestamp := 100;
                    Baseline.mount_point := "/mnt/image.dd";
                    Baseline.files := []; Baseline.errors := [] |},
          tick c5_world)).
Proof. repeat split; vm_compute; reflexivity. Qed.

Lemma walked_not_a_directory w mount_point :
  PyDict.get (mounts w) mount_point = None
  ∨ (∃ content st, PyDict.get (mounts w) mount_point = Some (File content st)) →
  walked w mount_point = [].
Proof. unfold walked. by intros [->|(content & st & ->)]. Qed.

(** C5, amended.  For a root that is missing or is not a directory,
    [generate_baseline] returns normally: nothing is raised to the caller,
    and the document it returns, for that mount point, has no file record. *)
Theorem C5_invalid_root_returns_document mount_point output_file w :
  PyDict.get (mounts w) mount_point = None
  ∨ (∃ content st, PyDict.get (mounts w) mount_point = Some (File content st)) →
  ∃ b w', generate_baseline mount_point output_file w = (Return b, w')
          ∧ Baseline.mount_point b = mount_point
          ∧ Baseline.files b = [].
Proof.
  intros Hroot.
  destruct (generate_baseline_returns mount_point output_file w)
    as (b & w' & Hrun & Hfiles & Hmount & _).
  exists b, w'. split; [done|]. split; [done|].
  rewrite Hfiles. unfold scanned. by rewrite walked_not_a_directory.
Qed.

Lemma C5_invalid_root_returns_document_witness :
  ∃ b w', generate_baseline "/mnt/absent" None c5_world = (Return b, w')
          ∧ Baseline.mount_point b = "/mnt/absent"
          ∧ Baseline.files b = [].
Proof.
  apply (C5_invalid_root_returns_document "/mnt/absent" None c5_world).
  left. reflexivity.
Defined.

(** ** A file that cannot be read *)

(** C2, as stated, fails: the file that can no longer be read is still
    recorded (its [hashes] hold the error text), the document's [errors] stay
    empty, and the verification against the earlier baseline reports it as
    unchanged and nothing as missing. *)
Lemma C2_counterexample :
  PyDict.get (Baseline.files c2_previous) "notes.txt"
  = Some (file_record [] 15 3)
  ∧ (∃ current w',
       generate_baseline "/mnt/evidence" None c2_after = (Return current, w')
       ∧ PyDict.get (Baseline.files current) "notes.txt"
         = Some (file_record [("error", "Permission denied")] 15 3)
       ∧ Baseline.errors current = [])
  ∧ (∃ r w',
       verify_integrity canonical_order "/mnt/evidence"
                        (Some "out/baseline.json") c2_after = (Return r, w')
       ∧ Report.missing (Report.files r) = []
       ∧ "notes.txt" ∈ unchanged_paths r).
Proof.
  split; [vm_compute; reflexivity|]. split.
  - eexists _, _. split; [vm_compute; reflexivity|].
    split; vm_compute; reflexivity.
  - eexists _, _. split; [vm_compute; reflexivity|].
    split; [vm_compute; reflexivity | by_evaluation].
Qed.

(** C2, amended.  A failure on one file does not stop the scan, which
    returns a document.  For a path the walk visits as one file: if
    [os.stat] fails on it, or the conversion of its modification time fails,
    the path is absent from the records, the failure is in the document's
    [errors], and a comparison with a baseline that records the path reports
    it as missing; if both succeed, the path is recorded even when its
    content cannot be read (the error text is then kept in its [hashes]),
    and no comparison reports it as missing. *)
Theorem C2_unreadable_file order now report_mount baseline_file w mount_point p f
    (previous : Baseline.t) :
  (p, f) ∈ walked w mount_point →
  (∀ f', (p, f') ∈ walked w mount_point → f' = f) →
  is_Some (PyDict.get (Baseline.files previous) p) →
  ∃ current w',
    generate_baseline mount_point None w = (Return current, w')
    ∧ let r := diff order now report_mount baseline_file previous current in
      let failed e :=
        PyDict.get (Baseline.files current) p = None
        ∧ processing_error p e ∈ Baseline.errors current
        ∧ p ∈ missing_paths r in
      match os_stat f with
      | Raise e => failed e
      | Return file_stat =>
          match datetime_fromtimestamp (st_mtime file_stat) with
          | Raise e => failed e
          | Return modified =>
              PyDict.get (Baseline.files current) p
              = Some {| hashes := Some match open_read f with
                                       | Return _ => []
                                       | Raise e => [("error", e)]
                                       end;
                        size := Some (st_size file_stat);
                        mtime := Some modified |}
              ∧ p ∉ missing_paths r
          end
      end.
Proof.
  intros Hin Hsame Hprev. eexists _, _. split; [apply generate_baseline_run|].
  cbv zeta.
  assert (∀ e, stat_and_mtime f = Raise e →
               PyDict.get (Baseline.files (scanned w mount_point)) p = None
               ∧ processing_error p e ∈ Baseline.errors (scanned w mount_point)
               ∧ p ∈ missing_paths (diff order now report_mount baseline_file
                                         previous (scanned w mount_point)))
    as Hfailed.
  { intros e He.
    assert (PyDict.get (Baseline.files (scanned w mount_point)) p = None) as Hget.
    { unfold scanned. apply record_files_get_None; [|done].
      intros f' Hf'. rewrite (Hsame f' Hf'). eauto. }
    split; [done|]. split.
    - unfold scanned. by apply record_files_error with f.
    - by apply elem_of_missing_paths. }
  unfold stat_and_mtime in Hfailed.
  destruct (os_stat f) as [file_stat|e] eqn:Hst; [|by apply Hfailed].
  destruct (datetime_fromtimestamp (st_mtime file_stat)) as [modified|e] eqn:Ht;
    [|by apply Hfailed].
  assert (PyDict.get (Baseline.files (scanned w mount_point)) p
          = Some (scanned_record f file_stat modified)) as Hget.
  { unfold scanned. apply record_files_get_Some; auto.
    unfold stat_and_mtime. by rewrite Hst, Ht. }
  split.
  - rewrite Hget. unfold scanned_record. by rewrite calculate_file_hashes_run.
  - rewrite elem_of_missing_paths, Hget. by intros [_ [=]].
Qed.

Lemma C2_unreadable_file_witness :
  ∃ current w',
    generate_baseline "/mnt/evidence" None c2_vanished = (Return current, w')
    ∧ PyDict.get (Baseline.files current) "notes.txt" = None
    ∧ processing_error "notes.txt" "No such file or directory"
      ∈ Baseline.errors current
    ∧ "notes.txt" ∈ missing_paths (diff canonical_order 0 "/mnt/evidence"
                                        "out/baseline.json" c2_previous current).
Proof.
  destruct (C2_unreadable_file canonical_order 0 "/mnt/evidence"
              "out/baseline.json" c2_vanished "/mnt/evidence" "notes.txt"
              (File (Raise "No such file or directory")
                    (Raise "No such file or directory"))
              c2_previous)
    as (current & w' & Hrun & Hget & Herr & Hmiss).
  - vm_compute. left.
  - intros f' Hf'. vm_compute in Hf'.
    apply list_elem_of_In in Hf'. simpl in Hf'.
    destruct Hf' as [Hf'|[Hf'|[]]]; [by injection Hf' as <- | discriminate Hf'].
  - vm_compute. eauto.
  - exists current, w'. repeat split; assumption.
Defined.

(** ** No baseline at the locator *)

(** C4, as stated, fails: [verify_integrity] reports every current file as
    new and leaves the locator empty, while the baseline step of [main]
    creates and saves the baseline and produces no report at all. *)
Lemma C4_counterexample :
  PyDict.get (store c4_world) "out/baseline.json" = None
  ∧ (∃ r w',
       verify_integrity canonical_order "/mnt/evidence"
                        (Some "out/baseline.json") c4_world = (Return r, w')
       ∧ new_paths r = ["notes.txt"; "log/auth.log"]
       ∧ PyDict.get (store w') "out/baseline.json" = None)
  ∧ (∃ i w',
       main_integrity canonical_order "/mnt/evidence" "out" c4_world
       = (Return i, w')
       ∧ Integrity.verification i = None
       ∧ PyDict.get (store w') "out/baseline.json"
         = Some (JsonFile (Integrity.baseline i))).
Proof.
  split; [reflexivity|]. split.
  - eexists _, _. split; [vm_compute; reflexivity|]. split; reflexivity.
  - eexists _, _. split; [vm_compute; reflexivity|]. split; reflexivity.
Qed.

Lemma os_path_join_nonempty a b : b ≠ "" → os_path_join a b ≠ "".
Proof.
  intros Hb. unfold os_path_join. case_decide as Ha; [done|].
  destruct a as [|c a]; [done|].
  by destruct (String.eqb _ _).
Qed.

Lemma main_integrity_absent_run order mount output_dir w :
  PyDict.get (store w) (os_path_join output_dir "baseline.json") = None →
  main_integrity order mount output_dir w
  = (Return {| Integrity.baseline := Baseline.to_json (scanned w mount);
               Integrity.verification := None |},
     {| mounts := mounts w;
        store := PyDict.setitem (store w) (os_path_join output_dir "baseline.json")
                   (JsonFile (Baseline.to_json (scanned w mount)));
        clock := S (clock w) |}).
Proof.
  intros Habs.
  unfold main_integrity, mbind, py_mbind, py_bind at 1, os_path_isfile.
  rewrite Habs. cbn [negb]. unfold py_bind.
  rewrite generate_baseline_save_run by (by apply os_path_join_nonempty).
  by rewrite Habs.
Qed.

Lemma verify_integrity_absent_run order mount baseline_file w :
  PyDict.get (store w) baseline_file = None →
  verify_integrity order mount (Some baseline_file) w
  = (Return (absent_report (clock w) mount baseline_file
               (Baseline.files (scanned (tick w) mount))),
     tick (tick w)).
Proof.
  intros Habs. rewrite verify_integrity_run. unfold verified.
  change (default DEFAULT_BASELINE_FILE (Some baseline_file)) with baseline_file.
  by rewrite Habs.
Qed.

(** C4, amended.  When nothing exists at the locator, [verify_integrity]
    returns a report that lists every file of the current snapshot as new, by
    its bare path, with nothing unchanged, modified or missing, with matching
    counts and with the error "Previous baseline file not found"; it does not
    save anything.  Creating and saving the baseline is what the baseline step
    of [main] does in that situation, and that step runs no verification. *)
Theorem C4_absent_baseline order mount baseline_file output_dir w :
  PyDict.get (store w) baseline_file = None →
  PyDict.get (store w) (os_path_join output_dir "baseline.json") = None →
  (∃ r w' current w'',
     verify_integrity order mount (Some baseline_file) w = (Return r, w')
     ∧ generate_baseline mount None (tick w) = (Return current, w'')
     ∧ store w' = store w
     ∧ Report.files r
       = {| Report.unchanged := []; Report.modified := [];
            Report.new := BarePath <$> PyDict.keys (Baseline.files current);
            Report.missing := [] |}
     ∧ Report.summary r
       = {| Report.total_files := PyDict.len (Baseline.files current);
            Report.unchanged_files := 0; Report.modified_files := 0;
            Report.new_files := PyDict.len (Baseline.files current);
            Report.missing_files := 0 |}
     ∧ Report.errors r = ["Previous baseline file not found: " +:+ baseline_file])
  ∧ (∃ b w',
       main_integrity order mount output_dir w
       = (Return {| Integrity.baseline := Baseline.to_json b;
                    Integrity.verification := None |}, w')
       ∧ generate_baseline mount None w = (Return b, tick w)
       ∧ PyDict.get (store w') (os_path_join output_dir "baseline.json")
         = Some (JsonFile (Baseline.to_json b))).
Proof.
  intros Habs Habs'. split.
  - eexists _, _, _, _.
    split; [by apply verify_integrity_absent_run|].
    split; [apply generate_baseline_run|]. done.
  - eexists _, _.
    split; [by apply main_integrity_absent_run|].
    split; [apply generate_baseline_run|].
    cbn [store]. apply get_setitem_eq.
Qed.

Lemma C4_absent_baseline_witness :
  (∃ r w',
     verify_integrity canonical_order "/mnt/evidence"
                      (Some "out/baseline.json") c4_world = (Return r, w')
     ∧ store w' = store c4_world
     ∧ Report.unchanged (Report.files r) = []
     ∧ Report.missing (Report.files r) = [])
  ∧ (∃ b w',
       main_integrity canonical_order "/mnt/evidence" "out" c4_world
       = (Return {| Integrity.baseline := Baseline.to_json b;
                    Integrity.verification := None |}, w')
       ∧ PyDict.get (store w') "out/baseline.json"
         = Some (JsonFile (Baseline.to_json b))).
Proof.
  destruct (C4_absent_baseline canonical_order "/mnt/evidence" "out/baseline.json"
              "out" c4_world eq_refl eq_refl)
    as [(r & w' & current & w'' & Hrun & _ & Hstore & Hfiles & _)
        (b & w1 & Hmain & _ & Hsaved)].
  split.
  - exists r, w'. split; [exact Hrun|]. split; [exact Hstore|].
    rewrite Hfiles. split; reflexivity.
  - exists b, w1. split; [exact Hmain | exact Hsaved].
Defined.

(** ** Two runs on the same documents *)

Lemma same_findings_refl {P} (r : Report.t P) : same_findings r r.
Proof. by repeat split. Qed.

Lemma consistent_summary_eq {P} (r1 r2 : Report.t P) :
  consistent r1 → consistent r2 →
  Report.unchanged (Report.files r1) ≡ₚ Report.unchanged (Report.files r2) →
  Report.modified (Report.files r1) ≡ₚ Report.modified (Report.files r2) →
  Report.new (Report.files r1) ≡ₚ Report.new (Report.files r2) →
  Report.missing (Report.files r1) ≡ₚ Report.missing (Report.files r2) →
  Report.summary r1 = Report.summary r2.
Proof.
  intros (Ht1 & Hu1 & Hm1 & Hn1 & Hx1) (Ht2 & Hu2 & Hm2 & Hn2 & Hx2)
         Hu%Permutation_length Hm%Permutation_length
         Hn%Permutation_length Hx%Permutation_length.
  destruct (Report.summary r1), (Report.summary r2). simpl in *.
  f_equal; lia.
Qed.

Lemma diff_same_findings o1 o2 now1 now2 mount_point baseline_file
    (previous current1 current2 : Baseline.t) :
  Baseline.files current1 = Baseline.files current2 →
  same_findings (diff o1 now1 mount_point baseline_file previous current1)
                (diff o2 now2 mount_point baseline_file previous current2).
Proof.
  intros Hfiles.
  assert (Report.unchanged (Report.files
            (diff o1 now1 mount_point baseline_file previous current1))
          ≡ₚ Report.unchanged (Report.files
               (diff o2 now2 mount_point baseline_file previous current2))) as Hu.
  { rewrite !diff_unchanged, Hfiles. unfold common_paths.
    by rewrite (order_perm o1 o2). }
  assert (Report.modified (Report.files
            (diff o1 now1 mount_point baseline_file previous current1))
          ≡ₚ Report.modified (Report.files
               (diff o2 now2 mount_point baseline_file previous current2))) as Hm.
  { rewrite !diff_modified, Hfiles. unfold common_paths.
    by rewrite (order_perm o1 o2). }
  assert (Report.new (Report.files
            (diff o1 now1 mount_point baseline_file previous current1))
          ≡ₚ Report.new (Report.files
               (diff o2 now2 mount_point baseline_file previous current2))) as Hn.
  { rewrite !diff_new, Hfiles. unfold added_paths.
    by rewrite (order_perm o1 o2). }
  assert (Report.missing (Report.files
            (diff o1 now1 mount_point baseline_file previous current1))
          ≡ₚ Report.missing (Report.files
               (diff o2 now2 mount_point baseline_file previous current2))) as Hx.
  { rewrite !diff_missing, Hfiles. unfold removed_paths.
    by rewrite (order_perm o1 o2). }
  split; [by rewrite !(proj1 (proj2 (diff_header _ _ _ _ _ _)))|].
  split; [by rewrite !(proj1 (proj2 (proj2 (diff_header _ _ _ _ _ _))))|].
  split; [apply consistent_summary_eq; auto using diff_consistent|].
  split; [by rewrite !(proj2 (proj2 (proj2 (diff_header _ _ _ _ _ _))))|].
  done.
Qed.

Lemma scanned_files_clock w1 w2 mount_point :
  mounts w1 = mounts w2 →
  Baseline.files (scanned w1 mount_point) = Baseline.files (scanned w2 mount_point).
Proof.
  intros Hm. unfold scanned, walked. rewrite Hm. by apply record_files_files.
Qed.

(** C7, as stated, fails: two runs over the same tree and the same stored
    baseline return different reports when the clock has moved, and also
    when only the order in which the sets are visited differs. *)
Lemma C7_counterexample :
  mounts c2_after = mounts c7_later
  ∧ store c2_after = store c7_later
  ∧ (verify_integrity canonical_order "/mnt/evidence"
                      (Some "out/baseline.json") c2_after).1
    ≠ (verify_integrity canonical_order "/mnt/evidence"
                        (Some "out/baseline.json") c7_later).1
  ∧ (verify_integrity canonical_order "/mnt/evidence"
                      (Some "out/baseline.json") c2_after).1
    ≠ (verify_integrity reversed_order "/mnt/evidence"
                        (Some "out/baseline.json") c2_after).1.
Proof.
  split; [reflexivity|]. split; [reflexivity|].
  split; intros H; vm_compute in H; discriminate H.
Qed.

Lemma extend_same_findings {P} (us1 us2 : list string)
    (ms1 ms2 : list (Modification.t P)) ns1 ns2 (xs1 xs2 : list (Entry.t P))
    now1 now2 mount_point baseline_file :
  us1 ≡ₚ us2 → ms1 ≡ₚ ms2 → ns1 ≡ₚ ns2 → xs1 ≡ₚ xs2 →
  same_findings
    (Report.with_summary tally
       (extend us1 ms1 ns1 xs1 (initial_results now1 mount_point baseline_file)))
    (Report.with_summary tally
       (extend us2 ms2 ns2 xs2 (initial_results now2 mount_point baseline_file))).
Proof.
  intros Hu Hm Hn Hx. unfold same_findings; simpl.
  repeat split; try done.
  unfold tally; simpl.
  by rewrite (Permutation_length Hu), (Permutation_length Hm),
    (Permutation_length Hn), (Permutation_length Hx).
Qed.

Lemma examinable_examined previous_info current_info :
  examinable previous_info = true →
  ∃ verdict, examined previous_info current_info = Return verdict.
Proof.
  unfold examinable, examined.
  destruct previous_info as [| | | | |previous_record]; try done. simpl.
  destruct (default (JObject []) (PyDict.get previous_record "hashes"));
    try done. simpl. eauto.
Qed.

(** When every record met can be examined, the loop over the common paths
    ends, and what it appends is read off path by path. *)
Lemma common_run_examinable previous_files current_files paths :
  (∀ p, p ∈ paths →
        is_Some (PyDict.get current_files p)
        ∧ ∃ pi, PyDict.get previous_files p = Some pi ∧ examinable pi = true) →
  common_run previous_files current_files paths
  = (Return tt,
     (omap (loaded_unchanged_of previous_files current_files) paths,
      omap (loaded_modified_of previous_files current_files) paths)).
Proof.
  induction paths as [|p paths IH]; intros Hin; [done|].
  destruct (Hin p) as [[ci Hci] (pi & Hpi & Hex)]; [left|].
  destruct (examinable_examined pi ci Hex) as [verdict Hverdict].
  cbn [common_run]. rewrite Hci, Hpi, Hverdict.
  rewrite IH by (intros q Hq; apply Hin; by right).
  rewrite !omap_cons_option_list.
  assert (loaded_unchanged_of previous_files current_files p
          = match verdict with None => Some p | Some _ => None end) as ->.
  { unfold loaded_unchanged_of. rewrite Hci, Hpi. simpl. by rewrite Hverdict. }
  assert (loaded_modified_of previous_files current_files p
          = match verdict with
            | Some changes =>
                Some {| Modification.path := p;
                        Modification.previous := pi;
                        Modification.current := ci;
                        Modification.changes := changes |}
            | None => None
            end) as ->.
  { unfold loaded_modified_of. rewrite Hci, Hpi. simpl. by rewrite Hverdict. }
  by destruct verdict.
Qed.

Lemma get_Some_elem_of {V} (d : dict V) k v : PyDict.get d k = Some v → (k, v) ∈ d.
Proof.
  induction d as [|[k' v'] d IH]; [done|]. simpl.
  destruct (decide (k' = k)) as [->|].
  - intros [= ->]. left.
  - intros Hget. right. by apply IH.
Qed.

(** Two comparisons of the same loaded value with the same snapshot have
    the same findings, whatever the orders, when every record of the value
    can be examined. *)
Lemma checked_same_findings o1 o2 now1 now2 mount_point baseline_file
    previous_baseline current_files :
  Forall (λ e, examinable e.2 = true) (records_of previous_baseline) →
  same_findings
    (checked o1 now1 mount_point baseline_file previous_baseline current_files)
    (checked o2 now2 mount_point baseline_file previous_baseline current_files).
Proof.
  intros Hrecords. rewrite !checked_run. unfold loaded_compared.
  destruct (as_dict previous_baseline "get") as [document|e] eqn:Hdoc;
    [|by repeat split].
  destruct (as_dict (default (JObject []) (PyDict.get document "files")) "keys")
    as [previous_files|e] eqn:Hfiles; [|by repeat split].
  assert (records_of previous_baseline = previous_files) as Hrec.
  { destruct previous_baseline; try done. injection Hdoc as ->. simpl.
    destruct (default (JObject []) (PyDict.get document "files")); try done.
    by injection Hfiles as ->. }
  rewrite Hrec in Hrecords.
  assert (∀ o : SetOrder,
            common_run previous_files current_files
              (common_paths o previous_files current_files)
            = (Return tt,
               (omap (loaded_unchanged_of previous_files current_files)
                     (common_paths o previous_files current_files),
                omap (loaded_modified_of previous_files current_files)
                     (common_paths o previous_files current_files)))) as Hrun.
  { intros o. apply common_run_examinable. intros p Hp.
    apply elem_of_order, elem_of_intersection in Hp as [Hc Hp].
    apply elem_of_key_set in Hc. apply elem_of_key_set in Hp as [pi Hpi].
    split; [done|]. exists pi. split; [done|].
    apply get_Some_elem_of in Hpi.
    by apply (proj1 (Forall_forall _ _) Hrecords (p, pi)). }
  rewrite !Hrun.
  apply extend_same_findings; unfold common_paths, added_paths, removed_paths;
    by rewrite (order_perm o1 o2).
Qed.

(** When a record cannot be examined, what the report holds depends on the
    order of the visit: the paths visited before the failure are recorded,
    the others are not. *)
Lemma failure_depends_on_order :
  (∃ r w',
     verify_integrity canonical_order "/mnt/evidence" (Some "out/baseline.json")
                      null_record_world = (Return r, w')
     ∧ unchanged_paths r = ["notes.txt"])
  ∧ (∃ r w',
       verify_integrity reversed_order "/mnt/evidence" (Some "out/baseline.json")
                        null_record_world = (Return r, w')
       ∧ unchanged_paths r = []).
Proof. split; eexists _, _; split; vm_compute; reflexivity. Qed.

(** C7, amended.  Two runs over the same tree and the same stored files both
    return, and their reports have the same findings: the same mount point,
    baseline file, summary and errors, and the same entries in each category
    up to order; only the timestamp and the order inside the categories may
    differ.  This holds when the stored baseline, if it parses, holds only
    records that the comparison can examine. *)
Theorem C7_runs_agree_up_to_timestamp_and_order o1 o2 mount_point baseline_file
    w1 w2 :
  mounts w1 = mounts w2 →
  store w1 = store w2 →
  (∀ previous_baseline,
     PyDict.get (store w1) (default DEFAULT_BASELINE_FILE baseline_file)
     = Some (JsonFile previous_baseline) →
     Forall (λ e, examinable e.2 = true) (records_of previous_baseline)) →
  ∃ r1 r2 w1' w2',
    verify_integrity o1 mount_point baseline_file w1 = (Return r1, w1')
    ∧ verify_integrity o2 mount_point baseline_file w2 = (Return r2, w2')
    ∧ same_findings r1 r2.
Proof.
  intros Hmounts Hstore Hrecords. eexists _, _, _, _.
  split; [apply verify_integrity_run|]. split; [apply verify_integrity_run|].
  revert Hrecords.
  generalize (default DEFAULT_BASELINE_FILE baseline_file) as bf.
  intros bf Hrecords.
  assert (Baseline.files (scanned (tick w1) mount_point)
          = Baseline.files (scanned (tick w2) mount_point)) as Hfiles
    by (by apply scanned_files_clock).
  unfold verified. rewrite Hstore in Hrecords |- *. rewrite Hfiles.
  destruct (PyDict.get (store w2) bf) as [[prev| |]|].
  - apply checked_same_findings. by apply Hrecords.
  - by repeat split.
  - by repeat split.
  - by repeat split.
Qed.

Lemma C7_runs_agree_up_to_timestamp_and_order_witness :
  ∃ r1 r2 w1' w2',
    verify_integrity canonical_order "/mnt/evidence"
                     (Some "out/baseline.json") c2_after = (Return r1, w1')
    ∧ verify_integrity reversed_order "/mnt/evidence"
                       (Some "out/baseline.json") c7_later = (Return r2, w2')
    ∧ same_findings r1 r2.
Proof.
  apply (C7_runs_agree_up_to_timestamp_and_order canonical_order reversed_order
           "/mnt/evidence" (Some "out/baseline.json") c2_after c7_later
           eq_refl eq_refl).
  intros previous_baseline Hstored. vm_compute in Hstored.
  injection Hstored as <-. vm_compute. repeat constructor.
Defined.

(** ** The shape of the entries of [new] *)

(** C10.  [verify_integrity] fills [new] in two shapes.  With nothing at the
    baseline locator, [new] is the list of the bare paths of the current
    snapshot; with something there, every entry of [new] is a record holding
    a path and the current snapshot's record of that path. *)
Theorem C10_shape_of_new_entries order mount_point baseline_file w :
  ∃ r w' current w'',
    verify_integrity order mount_point baseline_file w = (Return r, w')
    ∧ generate_baseline mount_point None (tick w) = (Return current, w'')
    ∧ if PyDict.contains (store w) (default DEFAULT_BASELINE_FILE baseline_file)
      then Forall (carries_record (Baseline.files current))
                  (Report.new (Report.files r))
      else Report.new (Report.files r)
           = BarePath <$> PyDict.keys (Baseline.files current)
           ∧ Forall is_bare (Report.new (Report.files r)).
Proof.
  eexists _, _, _, _.
  split; [apply verify_integrity_run|]. split; [apply generate_baseline_run|].
  generalize (default DEFAULT_BASELINE_FILE baseline_file) as bf. intros bf.
  unfold verified, PyDict.contains.
  destruct (PyDict.get (store w) bf) as [[prev| |]|].
  - destruct (checked_cases order (clock w) mount_point bf prev
                (Baseline.files (scanned (tick w) mount_point)))
      as (us & ms & [[e ->]|[pf ->]]); [apply Forall_nil_2|].
    simpl. apply Forall_fmap, Forall_forall. intros x Hx.
    apply list_elem_of_omap in Hx as (p & _ & Hx). unfold entry_of in Hx.
    destruct (PyDict.get (Baseline.files (scanned (tick w) mount_point)) p)
      as [ci|] eqn:Hc; [|done].
    injection Hx as <-. by exists p, ci.
  - apply Forall_nil_2.
  - apply Forall_nil_2.
  - split; [done|]. simpl. apply Forall_fmap, Forall_true. intros p. by exists p.
Qed.

(** Both shapes occur: a first run lists bare paths; a run against a stored
    baseline that lacks [log/auth.log] lists that file with its record. *)
Lemma new_entries_examples :
  (verify_integrity canonical_order "/mnt/evidence" (Some "out/baseline.json")
                    c4_world).1
  = Return (absent_report 7 "/mnt/evidence" "out/baseline.json"
              [("notes.txt", file_record [] 15 3);
               ("log/auth.log", file_record [] 2 4)])
  ∧ ∃ r w',
      verify_integrity canonical_order "/mnt/evidence" (Some "out/baseline.json")
        {| mounts := mounts c2_before;
           store := [("out/baseline.json",
                      JsonFile (Baseline.to_json
                                  (document [("notes.txt",
                                              file_record [] 15 3)])))];
           clock := 7 |} = (Return r, w')
      ∧ Report.new (Report.files r)
        = [WithInfo {| Entry.path := "log/auth.log";
                       Entry.info := file_record [] 2 4 |}].
Proof.
  split; [vm_compute; reflexivity|].
  eexists _, _. split; vm_compute; reflexivity.
Qed.

(** ** Modified entries and their [changes] *)

(** Every modified entry lists the size when the sizes differ and each of
    [md5] and [sha256] that both records carry with different digests, and
    nothing else. *)
Lemma modified_changes_complete order now mount_point baseline_file previous
    current m a :
  m ∈ Report.modified
        (Report.files (diff order now mount_point baseline_file previous current)) →
  a ∈ Modification.changes m ↔
  (a = "size" ∧ size (Modification.current m) ≠ size (Modification.previous m))
  ∨ (a ∈ ["md5"; "sha256"]
     ∧ ∃ h h', PyDict.get (get_hashes (Modification.previous m)) a = Some h
               ∧ PyDict.get (get_hashes (Modification.current m)) a = Some h'
               ∧ h ≠ h').
Proof.
  intros Hm. apply elem_of_diff_modified in Hm as (p & pi & ci & _ & _ & _ & ->).
  simpl. apply elem_of_list_changes.
Qed.

(** The snapshot taken by [verify_integrity] carries no digest, so the
    untouched file is reported as modified, with nothing listed as changed. *)
Lemma stored_digests_flag_untouched_file :
  ∃ r w',
    verify_integrity canonical_order "/mnt/evidence" (Some "out/baseline.json")
                     c6_world = (Return r, w')
    ∧ unchanged_paths r = []
    ∧ Report.modified (Report.files r)
      = [ {| Modification.path := "report.pdf";
             Modification.previous :=
               info_to_json
                 (file_record [("md5", "5d41"); ("sha256", "2cf2")] 2048 1);
             Modification.current := file_record [] 2048 1;
             Modification.changes := [] |} ].
Proof. eexists _, _. repeat split; vm_compute; reflexivity. Qed.

(** * Further properties of the integrity checker *)

(** ** Every path lands in exactly one category *)

Lemma NoDup_order (order : SetOrder) (X : gset string) : NoDup (order X).
Proof. rewrite (iter_perm order X). apply NoDup_elements. Qed.

Lemma NoDup_omap_partial_id {A} (f : A → option A) (l : list A) :
  (∀ x y, f x = Some y → y = x) → NoDup l → NoDup (omap f l).
Proof.
  intros Hid. induction 1 as [|x l Hx Hl IH]; simpl; [constructor|].
  destruct (f x) as [y|] eqn:Hfx; [|exact IH].
  apply Hid in Hfx as ->. constructor; [|exact IH].
  intros Hin. apply list_elem_of_omap in Hin as (z & Hz & Hfz).
  apply Hid in Hfz as ->. done.
Qed.

Lemma NoDup_unchanged_paths order now mount_point baseline_file previous current :
  NoDup (unchanged_paths (diff order now mount_point baseline_file previous current)).
Proof.
  unfold unchanged_paths. rewrite diff_unchanged.
  apply NoDup_omap_partial_id; [|apply NoDup_order].
  intros p q Hq. unfold unchanged_of in Hq.
  destruct (PyDict.get (Baseline.files current) p); simpl in Hq; [|done].
  destruct (PyDict.get (Baseline.files previous) p); simpl in Hq; [|done].
  destruct (same_hashes _ _); simpl in Hq; by simplify_eq.
Qed.

Lemma NoDup_modified_paths order now mount_point baseline_file previous current :
  NoDup (modified_paths (diff order now mount_point baseline_file previous current)).
Proof.
  unfold modified_paths. rewrite diff_modified, list_fmap_omap.
  apply NoDup_omap_partial_id; [|apply NoDup_order].
  intros p q Hq. unfold modified_of in Hq.
  destruct (PyDict.get (Baseline.files current) p); simpl in Hq; [|done].
  destruct (PyDict.get (Baseline.files previous) p); simpl in Hq; [|done].
  destruct (same_hashes _ _); simpl in Hq; by simplify_eq.
Qed.

Lemma NoDup_new_paths order now mount_point baseline_file previous current :
  NoDup (new_paths (diff order now mount_point baseline_file previous current)).
Proof.
  unfold new_paths. rewrite diff_new, <- list_fmap_compose, list_fmap_omap.
  apply NoDup_omap_partial_id; [|apply NoDup_order].
  intros p q Hq. unfold entry_of in Hq.
  destruct (PyDict.get _ p); simpl in Hq; by simplify_eq.
Qed.

Lemma NoDup_missing_paths order now mount_point baseline_file previous current :
  NoDup (missing_paths (diff order now mount_point baseline_file previous current)).
Proof.
  unfold missing_paths. rewrite diff_missing, list_fmap_omap.
  apply NoDup_omap_partial_id; [|apply NoDup_order].
  intros p q Hq. unfold entry_of in Hq.
  destruct (PyDict.get _ p); simpl in Hq; by simplify_eq.
Qed.

Lemma reported_paths_spec order now mount_point baseline_file
    (previous current : Baseline.t) :
  let r := diff order now mount_point baseline_file previous current in
  NoDup (reported_paths r)
  ∧ ∀ p, p ∈ reported_paths r ↔
         p ∈ PyDict.key_set (Baseline.files previous)
             ∪ PyDict.key_set (Baseline.files current).
Proof.
  intros r. subst r. unfold reported_paths. split.
  - apply NoDup_app. split; [apply NoDup_unchanged_paths|]. split.
    { intros p Hu. rewrite !elem_of_app, elem_of_modified_paths,
        elem_of_new_paths, elem_of_missing_paths.
      apply elem_of_diff_unchanged in Hu as (pi & ci & Hp & Hc & Hs).
      rewrite Hp, Hc. intros [(pi' & ci' & ? & ? & ?)|[[_ ?]|[_ ?]]]; congruence. }
    apply NoDup_app. split; [apply NoDup_modified_paths|]. split.
    { intros p Hm. rewrite !elem_of_app, elem_of_new_paths, elem_of_missing_paths.
      apply elem_of_modified_paths in Hm as (pi & ci & Hp & Hc & Hs).
      rewrite Hp, Hc. intros [[_ ?]|[_ ?]]; congruence. }
    apply NoDup_app. split; [apply NoDup_new_paths|]. split.
    { intros p Hn. rewrite elem_of_missing_paths.
      apply elem_of_new_paths in Hn as [[ci Hc] Hp].
      rewrite Hp, Hc. by intros [[? [=]] _]. }
    apply NoDup_missing_paths.
  - intros p.
    rewrite !elem_of_app, elem_of_diff_unchanged, elem_of_modified_paths,
      elem_of_new_paths, elem_of_missing_paths, elem_of_union, !elem_of_key_set.
    destruct (PyDict.get (Baseline.files previous) p) as [pi|] eqn:Hp;
      destruct (PyDict.get (Baseline.files current) p) as [ci|] eqn:Hc.
    + split; [eauto|]. intros _.
      destruct (same_hashes pi ci) eqn:Hs; [left | right; left]; eauto.
    + split; [eauto|]. intros _. right. right. right. eauto.
    + split; [eauto|]. intros _. right. right. left. eauto.
    + split.
      * intros [(? & ? & [=] & _)|[(? & ? & [=] & _)|[[[? [=]] _]|[[? [=]] _]]]].
      * intros [[? [=]]|[? [=]]].
Qed.

(** X1.  The comparison of two documents mentions every path of either
    document exactly once: the four categories have no path in common, none
    repeats a path, and together they hold the paths of the two documents
    and nothing else. *)
Theorem diff_partitions_paths order now mount_point baseline_file
    (previous current : Baseline.t) :
  let r := diff order now mount_point baseline_file previous current in
  NoDup (reported_paths r)
  ∧ ∀ p, p ∈ reported_paths r ↔
         p ∈ PyDict.key_set (Baseline.files previous)
             ∪ PyDict.key_set (Baseline.files current).
Proof. apply reported_paths_spec. Qed.

(** X2.  The total of a comparison is the number of distinct paths of the
    two documents taken together. *)
Theorem diff_total_counts_distinct_paths order now mount_point baseline_file
    (previous current : Baseline.t) :
  Report.total_files
    (Report.summary (diff order now mount_point baseline_file previous current))
  = stdpp.base.size (PyDict.key_set (Baseline.files previous)
                     ∪ PyDict.key_set (Baseline.files current)).
Proof.
  destruct (reported_paths_spec order now mount_point baseline_file
              previous current) as [Hnd Hin].
  set (r := diff order now mount_point baseline_file previous current) in *.
  assert (stdpp.base.size (PyDict.key_set (Baseline.files previous)
                           ∪ PyDict.key_set (Baseline.files current))
          = length (reported_paths r)) as ->.
  { rewrite <- (size_list_to_set (C := gset string) _ Hnd). f_equal.
    apply set_eq. intros p. rewrite elem_of_list_to_set. symmetry. apply Hin. }
  destruct (diff_consistent order now mount_point baseline_file previous current)
    as (Ht & Hu & Hm & Hn & Hx). fold r in Ht, Hu, Hm, Hn, Hx.
  unfold reported_paths, unchanged_paths, modified_paths, new_paths, missing_paths.
  rewrite !length_app, !length_fmap. lia.
Qed.

(** X3.  The entries of a comparison carry the records of the documents: a
    modified entry holds the previous and the current record of its path, a
    missing entry the previous record of a path the current document lacks,
    and a new entry the current record of a path the previous document
    lacks. *)
Theorem diff_entries_carry_records order now mount_point baseline_file
    (previous current : Baseline.t) :
  let r := diff order now mount_point baseline_file previous current in
  let pf := Baseline.files previous in
  let cf := Baseline.files current in
  (∀ m, m ∈ Report.modified (Report.files r) →
        PyDict.get pf (Modification.path m) = Some (Modification.previous m)
        ∧ PyDict.get cf (Modification.path m) = Some (Modification.current m))
  ∧ (∀ x, x ∈ Report.missing (Report.files r) →
          PyDict.get pf (Entry.path x) = Some (Entry.info x)
          ∧ PyDict.get cf (Entry.path x) = None)
  ∧ (∀ n, n ∈ Report.new (Report.files r) →
          ∃ e, n = WithInfo e
               ∧ PyDict.get cf (Entry.path e) = Some (Entry.info e)
               ∧ PyDict.get pf (Entry.path e) = None).
Proof.
  intros r pf cf. subst r pf cf. repeat split.
  - apply elem_of_diff_modified in H as (p & pi & ci & Hp & Hc & _ & ->). done.
  - apply elem_of_diff_modified in H as (p & pi & ci & Hp & Hc & _ & ->). done.
  - apply elem_of_diff_missing in H as (p & pi & Hp & Hc & ->). done.
  - apply elem_of_diff_missing in H as (p & pi & Hp & Hc & ->). done.
  - intros n Hn. apply elem_of_diff_new in Hn as (p & ci & Hc & Hp & ->).
    eexists. eauto.
Qed.

(** ** The shape of [changes] *)

(** X4.  The [changes] of a modified entry name aspects in the fixed order
    size, md5, sha256, each at most once. *)
Theorem modified_changes_in_order order now mount_point baseline_file
    (previous current : Baseline.t) m :
  m ∈ Report.modified
        (Report.files (diff order now mount_point baseline_file previous current)) →
  sublist (Modification.changes m) ["size"; "md5"; "sha256"].
Proof.
  intros Hm. apply elem_of_diff_modified in Hm as (p & pi & ci & _ & _ & _ & ->).
  simpl. unfold list_changes. cbn [foldl].
  destruct (PyDict.get (get_hashes pi) "md5"), (PyDict.get (get_hashes ci) "md5"),
    (PyDict.get (get_hashes pi) "sha256"), (PyDict.get (get_hashes ci) "sha256");
    repeat case_decide; case_bool_decide; simpl;
    repeat first [ apply sublist_nil_l | apply sublist_skip | apply sublist_cons ].
Qed.

Lemma modified_changes_in_order_witness :
  sublist ["size"] ["size"; "md5"; "sha256"].
Proof.
  apply (modified_changes_in_order canonical_order 0 "/mnt/evidence"
           "baseline.json"
           (document [("a.txt", file_record [("md5", "0a1b")] 10 1)])
           (document [("a.txt", file_record [("md5", "0a1b"); ("sha256", "77fe")] 12 2)])
           {| Modification.path := "a.txt";
              Modification.previous := file_record [("md5", "0a1b")] 10 1;
              Modification.current :=
                file_record [("md5", "0a1b"); ("sha256", "77fe")] 12 2;
              Modification.changes := ["size"] |}).
  vm_compute. left.
Defined.

(** X5.  A modified entry whose [changes] list is empty always has [md5] or
    [sha256] in one of its two records only; the sizes are then equal. *)
Theorem empty_changes_only_for_one_sided_digest order now mount_point
    baseline_file (previous current : Baseline.t) m :
  m ∈ Report.modified
        (Report.files (diff order now mount_point baseline_file previous current)) →
  Modification.changes m = [] →
  size (Modification.current m) = size (Modification.previous m)
  ∧ ∃ algo, algo ∈ ["md5"; "sha256"]
            ∧ let ph := PyDict.get (get_hashes (Modification.previous m)) algo in
              let ch := PyDict.get (get_hashes (Modification.current m)) algo in
              (is_Some ph ∧ ch = None) ∨ (ph = None ∧ is_Some ch).
Proof.
  intros Hm Hnil.
  apply elem_of_diff_modified in Hm as (p & pi & ci & _ & _ & Hs & ->).
  simpl in *.
  pose proof (λ a, elem_of_list_changes pi ci a) as Hchanges.
  rewrite Hnil in Hchanges. split.
  - destruct (decide (size ci = size pi)) as [|Hne]; [done|].
    exfalso. apply (elem_of_nil "size"), Hchanges. by left.
  - assert (∀ algo, algo ∈ ["md5"; "sha256"] →
              PyDict.get (get_hashes ci) algo ≠ PyDict.get (get_hashes pi) algo →
              (is_Some (PyDict.get (get_hashes pi) algo)
               ∧ PyDict.get (get_hashes ci) algo = None)
              ∨ (PyDict.get (get_hashes pi) algo = None
                 ∧ is_Some (PyDict.get (get_hashes ci) algo))) as Hone.
    { intros algo Halgo Hne.
      destruct (PyDict.get (get_hashes pi) algo) as [h|] eqn:Hp,
               (PyDict.get (get_hashes ci) algo) as [h'|] eqn:Hc; eauto.
      - exfalso. apply (elem_of_nil algo), Hchanges. right.
        split; [done|]. exists h, h'. rewrite Hp, Hc.
        repeat split; congruence.
      - done. }
    destruct (decide (PyDict.get (get_hashes ci) "md5"
                      = PyDict.get (get_hashes pi) "md5")) as [Hmd5|Hmd5].
    + exists "sha256". split; [set_solver|]. apply Hone; [set_solver|].
      intros Hsha. apply not_true_iff_false in Hs. apply Hs.
      by apply same_hashes_true.
    + exists "md5". split; [set_solver|]. apply Hone; [set_solver | done].
Qed.

Lemma empty_changes_only_for_one_sided_digest_witness :
  ∃ algo, algo ∈ ["md5"; "sha256"]
          ∧ ((is_Some (PyDict.get [("md5", "5d41"); ("sha256", "2cf2")] algo)
              ∧ PyDict.get [("md5", "5d41")] algo = None)
             ∨ (PyDict.get [("md5", "5d41"); ("sha256", "2cf2")] algo = None
                ∧ is_Some (PyDict.get [("md5", "5d41")] algo))).
Proof.
  refine (proj2 (empty_changes_only_for_one_sided_digest canonical_order 0
                   "/mnt/evidence" "baseline.json" c6_previous c6_current
                   {| Modification.path := "report.pdf";
                      Modification.previous :=
                        file_record [("md5", "5d41"); ("sha256", "2cf2")] 2048 1;
                      Modification.current := file_record [("md5", "5d41")] 2048 1;
                      Modification.changes := [] |} _ eq_refl)).
  vm_compute. left.
Defined.

(** X6.  The [changes] of a modified entry name exactly what differs
    between its two records among the aspects the comparison looks at: the
    size when the sizes differ, and each of [md5] and [sha256] that both
    records carry with different digests. *)
Theorem modified_changes_name_every_difference order now mount_point
    baseline_file (previous current : Baseline.t) m a :
  m ∈ Report.modified
        (Report.files (diff order now mount_point baseline_file previous current)) →
  a ∈ Modification.changes m ↔
  (a = "size" ∧ size (Modification.current m) ≠ size (Modification.previous m))
  ∨ (a ∈ ["md5"; "sha256"]
     ∧ ∃ h h', PyDict.get (get_hashes (Modification.previous m)) a = Some h
               ∧ PyDict.get (get_hashes (Modification.current m)) a = Some h'
               ∧ h ≠ h').
Proof.
  intros Hm. apply elem_of_diff_modified in Hm as (p & pi & ci & _ & _ & _ & ->).
  simpl. apply elem_of_list_changes.
Qed.

Lemma modified_changes_name_every_difference_witness :
  "size" ∈ ["size"] ↔
  ("size" = "size" ∧ Some 12%Z ≠ Some 10%Z)
  ∨ ("size" ∈ ["md5"; "sha256"]
     ∧ ∃ h h', PyDict.get [("md5", "0a1b")] "size" = Some h
               ∧ PyDict.get [("md5", "0a1b"); ("sha256", "77fe")] "size" = Some h'
               ∧ h ≠ h').
Proof.
  apply (modified_changes_name_every_difference canonical_order 0 "/mnt/evidence"
           "baseline.json"
           (document [("a.txt", file_record [("md5", "0a1b")] 10 1)])
           (document [("a.txt", file_record [("md5", "0a1b"); ("sha256", "77fe")] 12 2)])
           {| Modification.path := "a.txt";
              Modification.previous := file_record [("md5", "0a1b")] 10 1;
              Modification.current :=
                file_record [("md5", "0a1b"); ("sha256", "77fe")] 12 2;
              Modification.changes := ["size"] |} "size").
  vm_compute. left.
Defined.

(** ** Snapshots carry no digest *)

Lemma stat_and_mtime_Return f file_stat modified :
  stat_and_mtime f = Return (file_stat, modified) ↔
  os_stat f = Return file_stat
  ∧ datetime_fromtimestamp (st_mtime file_stat) = Return modified.
Proof.
  unfold stat_and_mtime. split.
  - destruct (os_stat f) as [st|e]; [|done].
    destruct (datetime_fromtimestamp (st_mtime st)) as [t|e] eqn:Ht; [|done].
    by intros [= <- <-].
  - intros [-> Ht]. by rewrite Ht.
Qed.

Lemma record_files_get_inv entries b p info :
  PyDict.get (Baseline.files (record_files entries b)) p = Some info →
  PyDict.get (Baseline.files b) p = Some info
  ∨ ∃ f file_stat modified,
      (p, f) ∈ entries ∧ stat_and_mtime f = Return (file_stat, modified)
      ∧ info = scanned_record f file_stat modified.
Proof.
  revert b. induction entries as [|[q g] entries IH]; intros b Hget; [by left|].
  rewrite record_files_cons in Hget. apply IH in Hget as [Hget|Hget].
  - destruct (decide (q = p)) as [->|Hne].
    + unfold record_file in Hget.
      destruct (stat_and_mtime g) as [[st t]|e] eqn:Hst.
      * simpl in Hget. rewrite get_setitem_eq in Hget. injection Hget as <-.
        right. exists g, st, t. split; [left|done].
      * by left.
    + rewrite record_file_get_ne in Hget by done. by left.
  - destruct Hget as (f & st & t & Hin & Hst & ->). right. exists f, st, t.
    split; [by right|done].
Qed.

Lemma scanned_digest_free w mount_point p info :
  PyDict.get (Baseline.files (scanned w mount_point)) p = Some info →
  digest_free info.
Proof.
  unfold scanned.
  intros [Hget|(f & st & t & _ & _ & ->)]%record_files_get_inv; [done|].
  unfold scanned_record, digest_free. simpl. rewrite calculate_file_hashes_run.
  eexists. split; [done|]. split; [|eauto]. destruct (open_read f); eauto.
Qed.

Lemma digest_free_same_hashes pi ci :
  digest_free pi → digest_free ci → same_hashes pi ci = true.
Proof.
  intros (hp & Hhp & Hp & _) (hc & Hhc & Hc & _). apply same_hashes_true.
  unfold get_hashes. rewrite Hhp, Hhc. simpl.
  destruct Hp as [->|[? ->]], Hc as [->|[? ->]]; done.
Qed.

(** X7.  No record of a document that [generate_baseline] returns carries a
    digest.  Each record comes from a visit of its path on which [os.stat]
    and the conversion of the modification time succeeded; its [hashes] is
    empty when the content of the visited file could be read, and holds the
    error text alone when it could not; size and modification time are those
    of the visit.  So [md5] and [sha256] are never there. *)
Theorem generate_baseline_records_no_digest mount_point output_file w b w' p info :
  generate_baseline mount_point output_file w = (Return b, w') →
  PyDict.get (Baseline.files b) p = Some info →
  ∃ entries f file_stat modified,
    (os_walk mount_point w).1 = Return entries
    ∧ (p, f) ∈ entries
    ∧ os_stat f = Return file_stat
    ∧ datetime_fromtimestamp (st_mtime file_stat) = Return modified
    ∧ info = {| hashes := Some match open_read f with
                               | Return _ => []
                               | Raise e => [("error", e)]
                               end;
                size := Some (st_size file_stat);
                mtime := Some modified |}
    ∧ PyDict.get (get_hashes info) "md5" = None
    ∧ PyDict.get (get_hashes info) "sha256" = None.
Proof.
  intros Hgen Hget.
  destruct (generate_baseline_returns mount_point output_file w)
    as (b' & w1 & Hrun & Hfiles & _).
  rewrite Hgen in Hrun. injection Hrun as <- <-.
  rewrite Hfiles in Hget. unfold scanned in Hget.
  apply record_files_get_inv in Hget as [Hget|(f & st & t & Hin & Hst & ->)];
    [done|].
  apply stat_and_mtime_Return in Hst as [Hst Ht].
  exists (walked w mount_point), f, st, t.
  split; [done|]. split; [done|]. split; [done|]. split; [done|].
  unfold scanned_record, get_hashes. simpl. rewrite calculate_file_hashes_run.
  split; [done|]. by destruct (open_read f).
Qed.

Lemma generate_baseline_records_no_digest_witness :
  hashes (file_record [("error", "Permission denied")] 15 3)
  = Some [("error", "Permission denied")]
  ∧ PyDict.get (get_hashes (file_record [("error", "Permission denied")] 15 3))
               "md5" = None.
Proof.
  destruct (generate_baseline_records_no_digest "/mnt/evidence" None c2_after
              (scanned c2_after "/mnt/evidence") (tick c2_after) "notes.txt"
              (file_record [("error", "Permission denied")] 15 3))
    as (entries & f & file_stat & modified & _ & _ & _ & _ & _ & Hmd5 & _).
  - vm_compute. reflexivity.
  - vm_compute. reflexivity.
  - split; [reflexivity | exact Hmd5].
Defined.

(** X8.  Against a baseline that [generate_baseline] itself produced,
    [verify_integrity] never reports a modification: whatever the tree looks
    like now, [modified] is empty and its count is zero. *)
Theorem own_baseline_never_shows_modification mount0 output0 w0 b w0'
    order mount_point baseline_file w :
  generate_baseline mount0 output0 w0 = (Return b, w0') →
  PyDict.get (store w) baseline_file = Some (JsonFile (Baseline.to_json b)) →
  ∃ r w', verify_integrity order mount_point (Some baseline_file) w = (Return r, w')
          ∧ Report.modified (Report.files r) = []
          ∧ Report.modified_files (Report.summary r) = 0.
Proof.
  intros Hgen Hstored.
  destruct (generate_baseline_returns mount0 output0 w0)
    as (b' & w1 & Hrun & Hfiles & _).
  rewrite Hgen in Hrun. injection Hrun as <- <-.
  eexists _, _. split; [apply verify_integrity_run|].
  unfold verified.
  change (default DEFAULT_BASELINE_FILE (Some baseline_file)) with baseline_file.
  rewrite Hstored, checked_typed.
  set (r := diff _ _ _ _ _ _).
  assert (Report.modified (Report.files r) = []) as Hnil.
  { apply elem_of_nil_inv. intros m Hm.
    apply elem_of_diff_modified in Hm as (p & pi & ci & Hp & Hc & Hs & _).
    rewrite Hfiles in Hp.
    apply scanned_digest_free in Hp. apply scanned_digest_free in Hc.
    rewrite digest_free_same_hashes in Hs by done. done. }
  split; [simpl; by rewrite Hnil|].
  destruct (diff_consistent order (clock w) mount_point baseline_file b
              (scanned (tick w) mount_point)) as (_ & _ & Hm & _).
  fold r in Hm. simpl. by rewrite Hm, Hnil.
Qed.

Lemma own_baseline_never_shows_modification_witness :
  ∃ r w',
    verify_integrity canonical_order "/mnt/evidence" (Some "out/baseline.json")
                     tampered_world = (Return r, w')
    ∧ Report.modified (Report.files r) = []
    ∧ Report.modified_files (Report.summary r) = 0.
Proof.
  apply (own_baseline_never_shows_modification "/mnt/evidence" None c2_before
           c2_previous (tick c2_before) canonical_order "/mnt/evidence"
           "out/baseline.json" tampered_world).
  - apply generate_baseline_run.
  - reflexivity.
Defined.

(** ** The counts of a report *)

(** X27.  In every report that [verify_integrity] returns, each count is the
    length of its list.  The total is the sum of the four counts, unless the
    report carries the error of a verification that failed: such a report
    was never tallied, and its total is 0 whatever its lists hold. *)
Theorem report_counts_follow_lists order mount_point baseline_file w r w' :
  verify_integrity order mount_point baseline_file w = (Return r, w') →
  Report.unchanged_files (Report.summary r)
  = length (Report.unchanged (Report.files r))
  ∧ Report.modified_files (Report.summary r)
    = length (Report.modified (Report.files r))
  ∧ Report.new_files (Report.summary r) = length (Report.new (Report.files r))
  ∧ Report.missing_files (Report.summary r)
    = length (Report.missing (Report.files r))
  ∧ (Report.total_files (Report.summary r)
     = Report.unchanged_files (Report.summary r)
       + Report.modified_files (Report.summary r)
       + Report.new_files (Report.summary r)
       + Report.missing_files (Report.summary r)
     ∨ (Report.total_files (Report.summary r) = 0
        ∧ ∃ e, Report.errors r = ["Error during verification: " +:+ e])).
Proof.
  intros Hrun. rewrite verify_integrity_run in Hrun. injection Hrun as <- _.
  destruct (verified_counted order mount_point
              (default DEFAULT_BASELINE_FILE baseline_file) w)
    as ((Hu & Hm & Hn & Hx) & Htotal).
  done.
Qed.

Lemma report_counts_follow_lists_witness :
  ∃ r, (verify_integrity reversed_order "/mnt/evidence" (Some "out/baseline.json")
                         null_record_world).1 = Return r
       ∧ Report.unchanged_files (Report.summary r)
         = length (Report.unchanged (Report.files r))
       ∧ Report.total_files (Report.summary r) = 0.
Proof.
  eexists. split; [vm_compute; reflexivity|].
  split; [|reflexivity].
  eapply (report_counts_follow_lists reversed_order "/mnt/evidence"
            (Some "out/baseline.json") null_record_world).
  vm_compute. reflexivity.
Defined.

(** ** Saving the baseline *)

(** X10.  When a directory sits at the output file, [generate_baseline]
    still returns the scanned document: it stores nothing, and the failure to
    save is the last entry of the document's [errors]. *)
Theorem unsaved_baseline_reports_error mount_point output_file w :
  output_file ≠ "" →
  PyDict.get (store w) output_file = Some Directory →
  ∃ b w' scanned_doc w'',
    generate_baseline mount_point (Some output_file) w = (Return b, w')
    ∧ generate_baseline mount_point None w = (Return scanned_doc, w'')
    ∧ store w' = store w
    ∧ Baseline.files b = Baseline.files scanned_doc
    ∧ Baseline.errors b
      = Baseline.errors scanned_doc
        ++ ["Error saving baseline to " +:+ output_file +:+ ": "
            +:+ "Is a directory: " +:+ output_file].
Proof.
  intros Hne Hdir. rewrite generate_baseline_save_run, Hdir by done.
  rewrite generate_baseline_run. by eexists _, _, _, _.
Qed.

Lemma unsaved_baseline_reports_error_witness :
  ∃ b w',
    generate_baseline "/mnt/evidence" (Some "out/baseline.json")
                      locator_is_directory = (Return b, w')
    ∧ store w' = store locator_is_directory
    ∧ Baseline.errors b
      = ["Error saving baseline to out/baseline.json: Is a directory: out/baseline.json"].
Proof.
  destruct (unsaved_baseline_reports_error "/mnt/evidence" "out/baseline.json"
              locator_is_directory)
    as (b & w' & doc & w'' & Hrun & Hscan & Hstore & _ & Herrors).
  - discriminate.
  - reflexivity.
  - exists b, w'. split; [exact Hrun|]. split; [exact Hstore|].
    rewrite Herrors. vm_compute in Hscan. injection Hscan as <- _. reflexivity.
Defined.

(** ** What a verification leaves behind *)

(** X11.  [verify_integrity] never writes: in every case (no baseline, a
    baseline that loads, one that does not) the stored files and the scanned
    trees are as before, and the clock has been read exactly twice. *)
Theorem verify_integrity_never_writes order mount_point baseline_file w :
  let w' := (verify_integrity order mount_point baseline_file w).2 in
  store w' = store w ∧ mounts w' = mounts w ∧ clock w' = 2 + clock w.
Proof. rewrite verify_integrity_run. done. Qed.

Lemma diff_same_files order now mount_point baseline_file
    (previous current : Baseline.t) :
  Baseline.files current = Baseline.files previous →
  let r := diff order now mount_point baseline_file previous current in
  Report.modified (Report.files r) = []
  ∧ Report.new (Report.files r) = []
  ∧ Report.missing (Report.files r) = []
  ∧ list_to_set (unchanged_paths r) = PyDict.key_set (Baseline.files previous).
Proof.
  intros Hfiles r. subst r. repeat split.
  - apply elem_of_nil_inv. intros m Hm.
    apply elem_of_diff_modified in Hm as (p & pi & ci & Hp & Hc & Hs & _).
    rewrite Hfiles, Hp in Hc. injection Hc as <-.
    by rewrite same_hashes_refl in Hs.
  - apply elem_of_nil_inv. intros n Hn.
    apply elem_of_diff_new in Hn as (p & ci & Hc & Hp & _). congruence.
  - apply elem_of_nil_inv. intros x Hx.
    apply elem_of_diff_missing in Hx as (p & pi & Hp & Hc & _). congruence.
  - apply set_eq. intros p.
    rewrite elem_of_list_to_set, elem_of_diff_unchanged, elem_of_key_set, Hfiles.
    split.
    + intros (pi & ci & Hp & _). eauto.
    + intros [i Hi]. exists i, i. by rewrite same_hashes_refl.
Qed.

Lemma main_integrity_present_run order mount output_dir w previous :
  PyDict.get (store w) (os_path_join output_dir "baseline.json")
  = Some (JsonFile previous) →
  main_integrity order mount output_dir w
  = (Return {| Integrity.baseline := previous;
               Integrity.verification :=
                 Some (checked order (clock w) mount
                         (os_path_join output_dir "baseline.json") previous
                         (Baseline.files (scanned (tick w) mount))) |},
     tick (tick w)).
Proof.
  intros Hget.
  unfold main_integrity, mbind, py_mbind, py_bind at 1, os_path_isfile.
  rewrite Hget. cbn [negb]. unfold py_bind at 1, json_load. rewrite Hget.
  unfold py_bind. rewrite verify_integrity_run. unfold verified.
  change (default DEFAULT_BASELINE_FILE (Some ?f)) with f.
  by rewrite Hget.
Qed.

(** X12.  Running the baseline step of [main] twice over an unchanged tree:
    the first run saves the baseline and verifies nothing; the second run
    keeps that baseline as it is, and its report lists every recorded path as
    unchanged and nothing as modified, new or missing. *)
Theorem second_run_reports_all_unchanged order order' mount output_dir w :
  PyDict.get (store w) (os_path_join output_dir "baseline.json") = None →
  ∃ b w1 r w2,
    main_integrity order mount output_dir w
    = (Return {| Integrity.baseline := Baseline.to_json b;
                 Integrity.verification := None |}, w1)
    ∧ main_integrity order' mount output_dir w1
      = (Return {| Integrity.baseline := Baseline.to_json b;
                   Integrity.verification := Some r |}, w2)
    ∧ store w2 = store w1
    ∧ Report.modified (Report.files r) = []
    ∧ Report.new (Report.files r) = []
    ∧ Report.missing (Report.files r) = []
    ∧ list_to_set (unchanged_paths r) = PyDict.key_set (Baseline.files b).
Proof.
  intros Habs. eexists _, _, _, _.
  split; [by apply main_integrity_absent_run|].
  split; [apply main_integrity_present_run; cbn [store]; apply get_setitem_eq|].
  split; [done|].
  cbn [clock mounts store]. rewrite checked_typed.
  match goal with
  | |- context [diff ?o ?now ?m ?bf ?prev ?cur] =>
      destruct (diff_same_files o now m bf prev cur) as (Hm & Hn & Hx & Hu);
        [by apply scanned_files_clock|]
  end.
  unfold unchanged_paths in *. simpl. by rewrite Hm, Hn, Hx, Hu.
Qed.

Lemma second_run_reports_all_unchanged_witness :
  ∃ b w1 r w2,
    main_integrity canonical_order "/mnt/evidence" "out" c4_world
    = (Return {| Integrity.baseline := Baseline.to_json b;
                 Integrity.verification := None |}, w1)
    ∧ main_integrity reversed_order "/mnt/evidence" "out" w1
      = (Return {| Integrity.baseline := Baseline.to_json b;
                   Integrity.verification := Some r |}, w2)
    ∧ Report.modified (Report.files r) = []
    ∧ list_to_set (unchanged_paths r) = PyDict.key_set (Baseline.files b).
Proof.
  destruct (second_run_reports_all_unchanged canonical_order reversed_order
              "/mnt/evidence" "out" c4_world eq_refl)
    as (b & w1 & r & w2 & H1 & H2 & _ & Hm & _ & _ & Hu).
  exists b, w1, r, w2. repeat split; assumption.
Defined.

(** ** A baseline of the documented shape *)

(** X26.  Against a baseline file that holds a document of the documented
    shape (every record an object with the keys that [generate_baseline]
    writes, any of which may lack), [verify_integrity] returns the report of
    the differencer on two documents: the stored one and the snapshot it has
    just taken.  The previous records are kept as the JSON objects they were
    loaded as. *)
Theorem verify_integrity_runs_the_differencer order mount_point baseline_file
    (previous : Baseline.t) w :
  PyDict.get (store w) baseline_file = Some (JsonFile (Baseline.to_json previous)) →
  ∃ current w' w'',
    generate_baseline mount_point None (tick w) = (Return current, w'')
    ∧ verify_integrity order mount_point (Some baseline_file) w
      = (Return (Report.map info_to_json
                   (diff order (clock w) mount_point baseline_file previous
                         current)), w').
Proof.
  intros Hstored. eexists _, _, _. split; [apply generate_baseline_run|].
  rewrite verify_integrity_run. unfold verified.
  change (default DEFAULT_BASELINE_FILE (Some baseline_file)) with baseline_file.
  by rewrite Hstored, checked_typed.
Qed.

Lemma verify_integrity_runs_the_differencer_witness :
  ∃ current w' w'',
    generate_baseline "/mnt/evidence" None (tick c6_world) = (Return current, w'')
    ∧ verify_integrity canonical_order "/mnt/evidence" (Some "out/baseline.json")
                       c6_world
      = (Return (Report.map info_to_json
                   (diff canonical_order 9 "/mnt/evidence" "out/baseline.json"
                         (document
                            [("report.pdf",
                              file_record [("md5", "5d41"); ("sha256", "2cf2")]
                                          2048 1)])
                         current)), w').
Proof.
  apply (verify_integrity_runs_the_differencer canonical_order "/mnt/evidence"
           "out/baseline.json"
           (document [("report.pdf",
                       file_record [("md5", "5d41"); ("sha256", "2cf2")] 2048 1)])
           c6_world).
  reflexivity.
Defined.

(** ** A baseline that cannot be loaded *)

(** X13.  When something that cannot be loaded sits at the baseline locator
    (an unreadable or unparsable file, or a directory), [verify_integrity]
    returns a report whose four categories are empty and whose counts are all
    zero, however many files the tree holds, with a single error that starts
    with "Error during verification: ". *)
Theorem unloadable_baseline_gives_empty_report order mount_point baseline_file w :
  PyDict.get (store w) baseline_file = Some OtherFile
  ∨ PyDict.get (store w) baseline_file = Some Directory →
  ∃ r w' cause,
    verify_integrity order mount_point (Some baseline_file) w = (Return r, w')
    ∧ Report.files r
      = {| Report.unchanged := []; Report.modified := [];
           Report.new := []; Report.missing := [] |}
    ∧ Report.summary r
      = {| Report.total_files := 0; Report.unchanged_files := 0;
           Report.modified_files := 0; Report.new_files := 0;
           Report.missing_files := 0 |}
    ∧ Report.errors r = ["Error during verification: " +:+ cause].
Proof.
  intros [Hget|Hget]; eexists _, _, _;
    (split; [apply verify_integrity_run|]); unfold verified;
    change (default DEFAULT_BASELINE_FILE (Some baseline_file)) with baseline_file;
    rewrite Hget; done.
Qed.

Lemma unloadable_baseline_gives_empty_report_witness :
  ∃ r w',
    verify_integrity canonical_order "/mnt/evidence" (Some "out/baseline.json")
                     corrupt_baseline_world = (Return r, w')
    ∧ Report.total_files (Report.summary r) = 0
    ∧ Report.errors r
      = ["Error during verification: cannot load out/baseline.json"].
Proof.
  destruct (unloadable_baseline_gives_empty_report canonical_order "/mnt/evidence"
              "out/baseline.json" corrupt_baseline_world)
    as (r & w' & cause & Hrun & _ & Hsum & Herr).
  - left. reflexivity.
  - exists r, w'. split; [exact Hrun|]. split; [by rewrite Hsum|].
    vm_compute in Hrun. injection Hrun as <- _. reflexivity.
Defined.

(** X14.  The baseline step of [main] loads an existing baseline file outside
    any handler: when the file cannot be parsed the step raises, and it
    leaves the world as it found it.  ([verify_integrity] alone would have
    returned a report with the failure in its errors.) *)
Theorem main_integrity_aborts_on_unparsable_baseline order mount output_dir w :
  PyDict.get (store w) (os_path_join output_dir "baseline.json") = Some OtherFile →
  ∃ e, main_integrity order mount output_dir w = (Raise e, w).
Proof.
  intros Hget. eexists.
  unfold main_integrity, mbind, py_mbind, py_bind at 1, os_path_isfile.
  rewrite Hget. cbn [negb]. unfold py_bind, json_load. by rewrite Hget.
Qed.

Lemma main_integrity_aborts_on_unparsable_baseline_witness :
  ∃ e, main_integrity canonical_order "/mnt/evidence" "out" corrupt_baseline_world
       = (Raise e, corrupt_baseline_world).
Proof.
  exact (main_integrity_aborts_on_unparsable_baseline canonical_order
           "/mnt/evidence" "out" corrupt_baseline_world eq_refl).
Defined.

(** X15.  A directory at the baseline path is not taken for a baseline by
    the baseline step of [main]: the step scans, fails to save, stores
    nothing, and returns the scanned document with the failure to save as the
    last of its [errors] and without a verification. *)
Theorem main_integrity_with_directory_at_locator order mount output_dir w :
  PyDict.get (store w) (os_path_join output_dir "baseline.json") = Some Directory →
  ∃ b w', main_integrity order mount output_dir w
          = (Return {| Integrity.baseline := Baseline.to_json b;
                       Integrity.verification := None |}, w')
          ∧ store w' = store w
          ∧ last (Baseline.errors b)
            = Some ("Error saving baseline to "
                    +:+ os_path_join output_dir "baseline.json" +:+ ": "
                    +:+ "Is a directory: "
                    +:+ os_path_join output_dir "baseline.json").
Proof.
  intros Hget. eexists _, _.
  unfold main_integrity, mbind, py_mbind, py_bind at 1, os_path_isfile.
  rewrite Hget. cbn [negb]. unfold py_bind.
  rewrite generate_baseline_save_run by (by apply os_path_join_nonempty).
  rewrite Hget. split; [done|]. split; [done|]. simpl. apply last_snoc.
Qed.

Lemma main_integrity_with_directory_at_locator_witness :
  ∃ b w', main_integrity canonical_order "/mnt/evidence" "out" locator_is_directory
          = (Return {| Integrity.baseline := Baseline.to_json b;
                       Integrity.verification := None |}, w')
          ∧ store w' = store locator_is_directory.
Proof.
  destruct (main_integrity_with_directory_at_locator canonical_order
              "/mnt/evidence" "out" locator_is_directory eq_refl)
    as (b & w' & Hrun & Hstore & _).
  exists b, w'. split; assumption.
Defined.

(** ** What a scan accounts for *)

Lemma record_files_keys_inv entries b p :
  p ∈ PyDict.keys (Baseline.files (record_files entries b)) →
  p ∈ PyDict.keys (Baseline.files b)
  ∨ ∃ f v, (p, f) ∈ entries ∧ stat_and_mtime f = Return v.
Proof.
  intros [info Hget]%get_is_Some.
  apply record_files_get_inv in Hget as [Hget|(f & st & t & Hin & Hst & _)].
  - left. apply get_is_Some. eauto.
  - right. eauto.
Qed.

Lemma record_files_recorded entries b p f v :
  (p, f) ∈ entries → stat_and_mtime f = Return v →
  p ∈ PyDict.keys (Baseline.files (record_files entries b)).
Proof.
  revert b. induction entries as [|[q g] entries IH]; intros b Hin Hst.
  - by apply elem_of_nil in Hin.
  - rewrite record_files_cons. apply elem_of_cons in Hin as [[= <- <-]|Hin].
    + assert (∀ l b', p ∈ PyDict.keys (Baseline.files b') →
                      p ∈ PyDict.keys (Baseline.files (record_files l b'))) as Hkeep.
      { clear. induction l as [|[q g] l IH]; intros b' Hp; [done|].
        rewrite record_files_cons. apply IH.
        destruct (decide (q = p)) as [->|Hne].
        - unfold record_file. destruct (stat_and_mtime g) as [[st t]|e]; [|done].
          apply get_is_Some. simpl. rewrite get_setitem_eq. eauto.
        - apply get_is_Some. rewrite record_file_get_ne by done.
          by apply get_is_Some. }
      apply Hkeep. unfold record_file. rewrite Hst. destruct v as [st t].
      apply get_is_Some. simpl. rewrite get_setitem_eq. eauto.
    + by apply IH.
Qed.

Lemma record_files_errors_app entries b :
  Baseline.errors (record_files entries b)
  = Baseline.errors b
    ++ omap (λ e, match stat_and_mtime e.2 with
                  | Return _ => None
                  | Raise msg => Some (processing_error e.1 msg)
                  end) entries.
Proof.
  revert b. induction entries as [|[q g] entries IH]; intros b.
  - simpl. by rewrite app_nil_r.
  - rewrite record_files_cons, IH. unfold record_file. cbn [omap list_omap fst snd].
    destruct (stat_and_mtime g) as [[st t]|e]; simpl; [done|].
    by rewrite <- (assoc_L (++)).
Qed.

(** X16.  A scan accounts for every file it visits and for nothing else.
    A visit succeeds when [os.stat] and the conversion of the modification
    time both succeed ([stat_and_mtime]).  A path is recorded exactly when
    some visit of it succeeded; the document's [errors] are, in visiting
    order, the "Error processing" messages of the visits that failed; and a
    visited file therefore shows up as a record or as an error. *)
Theorem scan_accounts_for_every_visit mount_point w :
  ∃ b w' entries w'',
    generate_baseline mount_point None w = (Return b, w')
    ∧ os_walk mount_point w = (Return entries, w'')
    ∧ (∀ p, p ∈ PyDict.keys (Baseline.files b) ↔
            ∃ f v, (p, f) ∈ entries ∧ stat_and_mtime f = Return v)
    ∧ Baseline.errors b
      = omap (λ e, match stat_and_mtime e.2 with
                   | Return _ => None
                   | Raise msg =>
                       Some ("Error processing " +:+ e.1 +:+ ": " +:+ msg)
                   end) entries
    ∧ (∀ p f, (p, f) ∈ entries →
              p ∈ PyDict.keys (Baseline.files b)
              ∨ ∃ msg, ("Error processing " +:+ p +:+ ": " +:+ msg)
                       ∈ Baseline.errors b).
Proof.
  eexists _, _, _, _. split; [apply generate_baseline_run|].
  split; [apply os_walk_run|]. unfold scanned.
  set (entries := walked w mount_point).
  set (b0 := fresh_baseline (clock w) mount_point).
  split; [|split].
  - intros p. split.
    + intros [Hp|Hp]%record_files_keys_inv; [by apply elem_of_nil in Hp | done].
    + intros (f & v & Hin & Hst). by apply record_files_recorded with f v.
  - by rewrite record_files_errors_app.
  - intros p f Hin. destruct (stat_and_mtime f) as [v|msg] eqn:Hst.
    + left. by apply record_files_recorded with f v.
    + right. exists msg. by apply (record_files_error entries b0 p f msg).
Qed.

(** A file whose modification time lies beyond the year 9999 passes
    [os.stat] and is not recorded: the conversion of the time fails, and the
    failure goes to [errors]. *)
Lemma unconvertible_mtime_example :
  ∃ b w',
    generate_baseline "/mnt/evidence" None far_future_world = (Return b, w')
    ∧ PyDict.keys (Baseline.files b) = ["log/auth.log"]
    ∧ Baseline.errors b = ["Error processing notes.txt: year is out of range"].
Proof. eexists _, _. repeat split; vm_compute; reflexivity. Qed.

(** * Properties of the metadata module *)

(** ** File types *)

Lemma land_low_bits_format_mask perms :
  (0 ≤ perms < 0x1000)%Z → Z.land perms 0xF000 = 0%Z.
Proof.
  intros [Hlo Hhi]. apply Z.bits_inj'. intros n Hn.
  rewrite Z.land_spec, Z.bits_0.
  destruct (decide (n < 12)%Z) as [Hlt|Hge].
  - change 0xF000%Z with (Z.shiftl 15 12).
    rewrite (Z.shiftl_spec_low 15 12 n) by lia. apply andb_false_r.
  - destruct (decide (perms = 0)%Z) as [->|Hpos]; [by rewrite Z.bits_0|].
    rewrite (Z.bits_above_log2 perms n); [done | lia |].
    assert (Z.log2 perms < 12)%Z; [|lia].
    apply Z.log2_lt_pow2; lia.
Qed.

Lemma S_IFMT_lor_low_bits mode perms :
  (0 ≤ perms < 0x1000)%Z → S_IFMT (Z.lor mode perms) = S_IFMT mode.
Proof.
  intros Hperms. unfold S_IFMT.
  rewrite Z.land_lor_distr_l, (land_low_bits_format_mask perms Hperms).
  apply Z.lor_0_r.
Qed.

Lemma get_file_type_by_format mode mode' :
  S_IFMT mode = S_IFMT mode' → get_file_type mode = get_file_type mode'.
Proof.
  intros Heq. unfold get_file_type, S_ISREG, S_ISDIR, S_ISCHR, S_ISBLK,
    S_ISFIFO, S_ISLNK, S_ISSOCK. by rewrite Heq.
Qed.

(** X17.  The permission bits of a mode (the twelve low bits: rwx for user,
    group and others, set-uid, set-gid, sticky) never change the type that
    [get_file_type] reports. *)
Theorem get_file_type_ignores_permission_bits mode perms :
  (0 ≤ perms < 0x1000)%Z →
  get_file_type (Z.lor mode perms) = get_file_type mode.
Proof. intros Hperms. by apply get_file_type_by_format, S_IFMT_lor_low_bits. Qed.

Lemma get_file_type_ignores_permission_bits_witness :
  get_file_type (Z.lor 0x8000 0x1A4) = get_file_type 0x8000.
Proof. apply get_file_type_ignores_permission_bits. lia. Defined.

(** [get_file_type] names each of the seven formats by its format
    bits, whatever the order of its tests, and answers "unknown" exactly for
    the modes whose format bits are none of the seven (a mode of 0, for
    one). *)
Theorem get_file_type_by_format_bits mode :
  (get_file_type mode = "regular file" ↔ S_IFMT mode = S_IFREG)
  ∧ (get_file_type mode = "directory" ↔ S_IFMT mode = S_IFDIR)
  ∧ (get_file_type mode = "character device" ↔ S_IFMT mode = S_IFCHR)
  ∧ (get_file_type mode = "block device" ↔ S_IFMT mode = S_IFBLK)
  ∧ (get_file_type mode = "FIFO (named pipe)" ↔ S_IFMT mode = S_IFIFO)
  ∧ (get_file_type mode = "symbolic link" ↔ S_IFMT mode = S_IFLNK)
  ∧ (get_file_type mode = "socket" ↔ S_IFMT mode = S_IFSOCK)
  ∧ (get_file_type mode = "unknown" ↔
     S_IFMT mode ∉ [S_IFREG; S_IFDIR; S_IFCHR; S_IFBLK; S_IFIFO; S_IFLNK; S_IFSOCK]).
Proof.
  unfold get_file_type, S_ISREG, S_ISDIR, S_ISCHR, S_ISBLK, S_ISFIFO, S_ISLNK,
    S_ISSOCK.
  rewrite !not_elem_of_cons.
  repeat case_bool_decide;
    repeat match goal with H : S_IFMT mode = _ |- _ => rewrite H in * end;
    repeat split; try done; try (intros; exfalso; tauto); try tauto;
    intros; try discriminate; try (by apply not_elem_of_nil).
Qed.

(** ** Metadata of one path *)

Lemma extract_file_metadata_complete_or_failed sys file :
  is_Some (Metadata.timestamps (extract_file_metadata sys file)) ↔
  Metadata.error (extract_file_metadata sys file) = None.
Proof.
  unfold extract_file_metadata, py_try, mbind, py_mbind, py_bind, py_lift,
    py_modify, assign_name, mret, py_mret, py_ret.
  destruct (lstat file) as [st|e]; simpl; [|by split; [intros [? [=]]|]].
  destruct (getpwuid sys _), (getgrgid sys _); simpl;
    try (by split; [intros [? [=]]|]);
    destruct (fromtimestamp sys (Lstat.st_atime st)); simpl;
    try (by split; [intros [? [=]]|]);
    destruct (fromtimestamp sys (Lstat.st_mtime st)); simpl;
    try (by split; [intros [? [=]]|]);
    destruct (fromtimestamp sys (Lstat.st_ctime st)); simpl;
    try (by split; [intros [? [=]]|]); by split; eauto.
Qed.

(** X18.  The metadata of a path is either complete or marked as failed,
    never both: it has [timestamps] exactly when it has no [error]. *)
Theorem metadata_complete_or_failed sys file :
  let m := extract_file_metadata sys file in
  is_Some (Metadata.timestamps m) ↔ Metadata.error m = None.
Proof. apply extract_file_metadata_complete_or_failed. Qed.

(** X19.  When [os.stat] fails the metadata holds the error and nothing
    else.  When it succeeds, size, inode, permissions, type and ownership
    are filled from it whatever fails afterwards: the type is
    [get_file_type] of the mode, the user name is present exactly when the
    user lookup found one, and the group name exactly when the group lookup
    found one after a user lookup that did not fail otherwise. *)
Theorem metadata_after_stat sys file :
  let m := extract_file_metadata sys file in
  match lstat file with
  | Raise e => m = Metadata.set_error e Metadata.empty
  | Return st =>
      Metadata.size m = Some (Lstat.st_size st)
      ∧ Metadata.inode m = Some (Lstat.st_ino st)
      ∧ Metadata.permissions m
        = Some {| Metadata.mode := Lstat.st_mode st;
                  Metadata.readable := access_r file;
                  Metadata.writable := access_w file;
                  Metadata.executable := access_x file |}
      ∧ Metadata.type m = Some (get_file_type (Lstat.st_mode st))
      ∧ Metadata.ownership m
        = Some {| Metadata.uid := Lstat.st_uid st;
                  Metadata.gid := Lstat.st_gid st;
                  Metadata.user :=
                    match getpwuid sys (Lstat.st_uid st) with
                    | Found name => Some name
                    | _ => None
                    end;
                  Metadata.group :=
                    match getpwuid sys (Lstat.st_uid st),
                          getgrgid sys (Lstat.st_gid st) with
                    | LookupFailure _, _ => None
                    | _, Found name => Some name
                    | _, _ => None
                    end |}
  end.
Proof.
  unfold extract_file_metadata, py_try, mbind, py_mbind, py_bind, py_lift,
    py_modify, assign_name, mret, py_mret, py_ret.
  destruct (lstat file) as [st|e]; simpl; [|done].
  destruct (getpwuid sys _), (getgrgid sys _); simpl; try done;
    destruct (fromtimestamp sys (Lstat.st_atime st)); simpl; try done;
    destruct (fromtimestamp sys (Lstat.st_mtime st)); simpl; try done;
    destruct (fromtimestamp sys (Lstat.st_ctime st)); simpl; done.
Qed.

(** * Properties of the detection module *)

Section detection_facts.
Context (lower : string → string) (split : string → list string)
        (strip : string → string).

Lemma determine_fuse_type_known mount_info :
  _determine_fuse_type lower mount_info ∈ ["encfs"; "bindfs"; "generic"].
Proof.
  unfold _determine_fuse_type, FUSE_TYPES. cbn [first_type_with_keyword].
  repeat (destruct (existsb _ _); [set_solver|]). set_solver.
Qed.

Lemma adds_nil method state : adds method state state [].
Proof.
  destruct state as [mounts mps]. unfold adds. simpl.
  rewrite app_nil_r. split; [done|]. split; [set_solver|]. by split.
Qed.

Lemma adds_trans method s1 s2 s3 new new' :
  adds method s1 s2 new → adds method s2 s3 new' → adds method s1 s3 (new ++ new').
Proof.
  intros (H1 & H2 & H3 & H4) (H1' & H2' & H3' & H4'). unfold adds.
  rewrite H1', H1, H2', H2, fmap_app, list_to_set_app_L, <- (assoc_L (++)).
  split; [done|]. split; [set_solver|]. split; by apply Forall_app.
Qed.

Lemma scan_proc_line_adds state line :
  ∃ new, adds "proc_mounts" state (scan_proc_line lower split state line) new.
Proof.
  destruct state as [mounts mps]. unfold scan_proc_line.
  destruct (str_in "fuse" (lower line)); [|eexists; apply adds_nil].
  destruct (split line) as [|source [|mount_point [|fs_type parts]]];
    try (eexists; apply adds_nil).
  eexists [_]. unfold adds. simpl. split; [done|]. split; [set_solver|].
  split; (constructor; [|constructor]); [done|].
  apply determine_fuse_type_known.
Qed.

Lemma foldl_scan_proc_line_adds lines state :
  ∃ new, adds "proc_mounts" state
              (foldl (scan_proc_line lower split) state lines) new.
Proof.
  revert state. induction lines as [|line lines IH]; intros state.
  - eexists. apply adds_nil.
  - simpl. destruct (scan_proc_line_adds state line) as [new Hnew].
    destruct (IH (scan_proc_line lower split state line)) as [new' Hnew'].
    eexists. by eapply adds_trans.
Qed.

Lemma scan_df_line_adds state line :
  ∃ new, adds "df_command" state (scan_df_line lower split state line) new
         ∧ NoDup (MountInfo.mount_point <$> new)
         ∧ ∀ m, m ∈ new → MountInfo.mount_point m ∉ state.2.
Proof.
  destruct state as [mounts mps]. unfold scan_df_line.
  assert (∃ new, adds "df_command" (mounts, mps) (mounts, mps) new
                 ∧ NoDup (MountInfo.mount_point <$> new)
                 ∧ ∀ m, m ∈ new → MountInfo.mount_point m ∉ (mounts, mps).2)
    as Hnone.
  { exists []. split; [apply adds_nil|]. split; [constructor|].
    intros m Hm. by apply elem_of_nil in Hm. }
  destruct (str_in "fuse" (lower line)); [|done].
  destruct (split line) as [|filesystem [|fs_type [|? [|? [|? [|? [|mount_point ?]]]]]]];
    try done.
  case_bool_decide as Hseen; [done|].
  eexists [_]. split; [|split].
  - unfold adds. simpl. split; [done|]. split; [set_solver|].
    split; (constructor; [|constructor]); [done|].
    apply determine_fuse_type_known.
  - simpl. apply NoDup_singleton.
  - intros m ->%list_elem_of_singleton. done.
Qed.

Lemma foldl_scan_df_line_adds lines state :
  ∃ new, adds "df_command" state (foldl (scan_df_line lower split) state lines) new
         ∧ NoDup (MountInfo.mount_point <$> new)
         ∧ ∀ m, m ∈ new → MountInfo.mount_point m ∉ state.2.
Proof.
  revert state. induction lines as [|line lines IH]; intros state.
  - exists []. split; [apply adds_nil|]. split; [constructor|].
    intros m Hm. by apply elem_of_nil in Hm.
  - simpl. destruct (scan_df_line_adds state line) as (new & Hnew & Hnd & Hfresh).
    destruct (IH (scan_df_line lower split state line))
      as (new' & Hnew' & Hnd' & Hfresh').
    exists (new ++ new'). split; [by eapply adds_trans|].
    destruct Hnew as (_ & Hmps & _). split.
    + rewrite fmap_app. apply NoDup_app. split; [done|]. split; [|done].
      intros mp Hmp Hmp'. apply list_elem_of_fmap in Hmp' as (m & -> & Hm).
      apply (Hfresh' m Hm). rewrite Hmps. set_solver.
    + intros m [Hm|Hm]%elem_of_app; [by apply Hfresh|].
      intros Hin. apply (Hfresh' m Hm). rewrite Hmps. set_solver.
Qed.

Lemma detection_keeps_df_mounts_distinct_aux proc_mounts df :
  ∃ from_proc from_df,
    detect_fuse_filesystems lower split strip proc_mounts df = from_proc ++ from_df
    ∧ (∀ e, detect_fuse_filesystems lower split strip proc_mounts (Raise e)
            = from_proc)
    ∧ Forall (λ m, MountInfo.detection_method m = "proc_mounts") from_proc
    ∧ Forall (λ m, MountInfo.detection_method m = "df_command") from_df
    ∧ NoDup (MountInfo.mount_point <$> from_df)
    ∧ (∀ m, m ∈ from_df →
            MountInfo.mount_point m ∉ MountInfo.mount_point <$> from_proc)
    ∧ Forall known_fuse_type (from_proc ++ from_df).
Proof.
  unfold detect_fuse_filesystems.
  set (state0 := ([], ∅) : list MountInfo.t * gset string).
  set (state1 := match proc_mounts with
                 | Return lines => foldl (scan_proc_line lower split) state0 lines
                 | Raise _ => state0
                 end).
  assert (∃ new, adds "proc_mounts" state0 state1 new) as [from_proc Hproc].
  { subst state1. destruct proc_mounts as [lines|e].
    - apply foldl_scan_proc_line_adds.
    - eexists. apply adds_nil. }
  destruct Hproc as (Hmounts & Hmps & Htag & Htypes). simpl in Hmounts, Hmps.
  set (state2 := match df with
                 | Return result =>
                     if decide (Completed.returncode result = 0%Z)
                     then foldl (scan_df_line lower split) state1
                            (drop 1 (split_on newline (strip (Completed.stdout result))))
                     else state1
                 | Raise _ => state1
                 end).
  assert (∃ new, adds "df_command" state1 state2 new
                 ∧ NoDup (MountInfo.mount_point <$> new)
                 ∧ ∀ m, m ∈ new → MountInfo.mount_point m ∉ state1.2)
    as (from_df & Hdf & Hnd & Hfresh).
  { assert (∃ new, adds "df_command" state1 state1 new
                   ∧ NoDup (MountInfo.mount_point <$> new)
                   ∧ ∀ m, m ∈ new → MountInfo.mount_point m ∉ state1.2) as Hnone.
    { exists []. split; [apply adds_nil|]. split; [constructor|].
      intros m Hm. by apply elem_of_nil in Hm. }
    subst state2. destruct df as [result|e]; [|done].
    case_decide; [|done]. apply foldl_scan_df_line_adds. }
  destruct Hdf as (Hmounts2 & _ & Htag2 & Htypes2).
  exists from_proc, from_df. rewrite Hmounts2, Hmounts.
  split; [done|]. split; [done|]. split; [done|]. split; [done|].
  split; [done|]. split; [|by apply Forall_app].
  intros m Hm Hin. apply (Hfresh m Hm). rewrite Hmps. set_solver.
Qed.

Lemma foldl_scan_proc_line lines mounts seen :
  foldl (scan_proc_line lower split) (mounts, seen) lines
  = (mounts ++ omap (proc_mount lower split) lines,
     seen ∪ list_to_set (MountInfo.mount_point
                           <$> omap (proc_mount lower split) lines)).
Proof.
  revert mounts seen. induction lines as [|line lines IH]; intros mounts seen.
  - simpl. rewrite app_nil_r. f_equal. set_solver.
  - cbn [foldl]. rewrite omap_cons_option_list.
    unfold scan_proc_line at 2, proc_mount at 1 3.
    destruct (str_in "fuse" (lower line));
      [|rewrite IH; simpl; by rewrite ?app_nil_r].
    destruct (split line) as [|source [|mount_point [|fs_type parts]]];
      try (rewrite IH; simpl; by rewrite ?app_nil_r).
    rewrite IH. cbn [option_list]. rewrite <- (assoc_L (++)). f_equal.
    rewrite fmap_app. set_solver.
Qed.

Lemma foldl_scan_df_line lines mounts seen :
  foldl (scan_df_line lower split) (mounts, seen) lines
  = (mounts ++ fresh_mounts seen (omap (df_mount lower split) lines),
     seen ∪ list_to_set (MountInfo.mount_point
                           <$> fresh_mounts seen
                                 (omap (df_mount lower split) lines))).
Proof.
  revert mounts seen. induction lines as [|line lines IH]; intros mounts seen.
  - simpl. rewrite app_nil_r. f_equal. set_solver.
  - cbn [foldl]. rewrite omap_cons_option_list.
    unfold scan_df_line at 2, df_mount at 1 3.
    destruct (str_in "fuse" (lower line)); [|by rewrite IH].
    destruct (split line)
      as [|filesystem [|fs_type [|? [|? [|? [|? [|mount_point ?]]]]]]];
      try (by rewrite IH).
    simpl. case_bool_decide as Hseen; [by rewrite IH|].
    rewrite IH. rewrite <- (assoc_L (++)). f_equal.
    rewrite fmap_cons. set_solver.
Qed.

Lemma fresh_mounts_sublist seen shown : sublist (fresh_mounts seen shown) shown.
Proof.
  revert seen. induction shown as [|m shown IH]; intros seen; simpl; [done|].
  case_bool_decide; [by apply sublist_cons | by apply sublist_skip].
Qed.

Lemma fresh_mounts_unseen seen shown m :
  m ∈ fresh_mounts seen shown → MountInfo.mount_point m ∉ seen.
Proof.
  revert seen. induction shown as [|m' shown IH]; intros seen; simpl.
  - by intros ?%elem_of_nil.
  - case_bool_decide as Hseen; [apply IH|].
    intros [->|Hm]%elem_of_cons; [done|]. apply IH in Hm. set_solver.
Qed.

Lemma fresh_mounts_NoDup seen shown :
  NoDup (MountInfo.mount_point <$> fresh_mounts seen shown).
Proof.
  revert seen. induction shown as [|m shown IH]; intros seen; simpl;
    [constructor|].
  case_bool_decide as Hseen; [apply IH|].
  rewrite fmap_cons. constructor; [|apply IH].
  intros (m' & Heq & Hm')%list_elem_of_fmap.
  apply fresh_mounts_unseen in Hm'. set_solver.
Qed.

Lemma fresh_mounts_covers seen shown m :
  m ∈ shown →
  MountInfo.mount_point m ∈ seen
  ∨ MountInfo.mount_point m ∈ MountInfo.mount_point <$> fresh_mounts seen shown.
Proof.
  revert seen. induction shown as [|m' shown IH]; intros seen; simpl.
  - by intros ?%elem_of_nil.
  - intros [->|Hm]%elem_of_cons.
    + case_bool_decide as Hseen; [by left|]. right. rewrite fmap_cons. left.
    + case_bool_decide as Hseen; [by apply IH|].
      destruct (IH (seen ∪ {[MountInfo.mount_point m']}) Hm) as [Hin|Hin].
      * apply elem_of_union in Hin as [Hin|Hin]; [by left|].
        right. rewrite fmap_cons. apply elem_of_singleton in Hin as ->. left.
      * right. rewrite fmap_cons. by right.
Qed.

Lemma fresh_mounts_first seen shown m :
  m ∈ fresh_mounts seen shown →
  first_mount_at shown (MountInfo.mount_point m) = Some m.
Proof.
  revert seen. induction shown as [|m' shown IH]; intros seen; simpl.
  - by intros ?%elem_of_nil.
  - case_bool_decide as Hseen.
    + intros Hm. case_decide as Heq.
      * apply fresh_mounts_unseen in Hm. congruence.
      * by apply IH with seen.
    + intros [->|Hm]%elem_of_cons; [by rewrite decide_True|].
      case_decide as Heq.
      * apply fresh_mounts_unseen in Hm. set_solver.
      * by apply IH with (seen ∪ {[MountInfo.mount_point m']}).
Qed.

(** X20.  The detected mounts are, first, the mounts of [/proc/mounts]: one
    for each line that names a FUSE file system and has three fields, in
    line order (none when the file cannot be read).  They are followed by
    mounts shown by [df -T], in line order: each mount point that the lines
    after the header show is taken once, from the first line that shows it,
    unless [/proc/mounts] had it already; every mount point shown is thus
    in the result.  [df] adds nothing when it cannot be run or returns
    another code than 0.  Every mount is typed encfs, bindfs or generic. *)
Theorem detection_lists_proc_then_fresh_df_mounts proc_mounts df :
  let from_proc :=
    omap (proc_mount lower split)
         match proc_mounts with Return lines => lines | Raise _ => [] end in
  let shown := omap (df_mount lower split) (df_lines strip df) in
  ∃ from_df,
    detect_fuse_filesystems lower split strip proc_mounts df = from_proc ++ from_df
    ∧ sublist from_df shown
    ∧ NoDup (MountInfo.mount_point <$> from_df)
    ∧ (∀ m, m ∈ from_df →
            (MountInfo.mount_point m ∉ MountInfo.mount_point <$> from_proc)
            ∧ first_mount_at shown (MountInfo.mount_point m) = Some m)
    ∧ (∀ m, m ∈ shown →
            MountInfo.mount_point m
            ∈ MountInfo.mount_point <$> (from_proc ++ from_df))
    ∧ Forall known_fuse_type (from_proc ++ from_df).
Proof.
  intros from_proc shown.
  set (seen := list_to_set (C := gset string) (MountInfo.mount_point <$> from_proc)).
  assert (detect_fuse_filesystems lower split strip proc_mounts df
          = from_proc ++ fresh_mounts seen shown) as Hrun.
  { unfold detect_fuse_filesystems.
    assert (match proc_mounts with
            | Return lines => foldl (scan_proc_line lower split) ([], ∅) lines
            | Raise _ => ([], ∅)
            end = (from_proc, seen)) as ->.
    { subst seen from_proc. destruct proc_mounts as [lines|e].
      - rewrite foldl_scan_proc_line. simpl. f_equal. set_solver.
      - simpl. f_equal. }
    subst shown. unfold df_lines. destruct df as [result|e];
      [|simpl; by rewrite app_nil_r].
    case_decide; [|simpl; by rewrite app_nil_r].
    by rewrite foldl_scan_df_line. }
  exists (fresh_mounts seen shown). split; [done|].
  split; [apply fresh_mounts_sublist|]. split; [apply fresh_mounts_NoDup|].
  split; [|split].
  - intros m Hm. split; [|by apply fresh_mounts_first with seen].
    apply fresh_mounts_unseen in Hm. subst seen. set_solver.
  - intros m Hm. rewrite fmap_app, elem_of_app.
    destruct (fresh_mounts_covers seen shown m Hm) as [Hin|Hin]; [left|by right].
    subst seen. set_solver.
  - rewrite <- Hrun.
    destruct (detection_keeps_df_mounts_distinct_aux proc_mounts df)
      as (p & d & -> & _ & _ & _ & _ & _ & H). exact H.
Qed.

Lemma first_mount_at_Some fuse_mounts mount m :
  first_mount_at fuse_mounts mount = Some m →
  m ∈ fuse_mounts ∧ MountInfo.mount_point m = mount.
Proof.
  induction fuse_mounts as [|m' fuse_mounts IH]; simpl; [done|].
  case_decide as Hmp.
  - intros [= <-]. split; [left | done].
  - intros [Hin Heq]%IH. split; [by right | done].
Qed.

Lemma first_mount_at_None fuse_mounts mount :
  first_mount_at fuse_mounts mount = None ↔
  mount ∉ MountInfo.mount_point <$> fuse_mounts.
Proof.
  induction fuse_mounts as [|m' fuse_mounts IH]; simpl.
  - split; [intros _; apply not_elem_of_nil | done].
  - rewrite not_elem_of_cons. case_decide as Hmp.
    + split; [done | intros [Hne _]; congruence].
    + rewrite IH. split; [intros H; split; [congruence | done] | tauto].
Qed.

(** X21.  The target that [main] hands to the recovery always carries the
    requested mount point; its type is encfs, bindfs, generic or unknown, and
    it is unknown exactly when the detection found no mount at the requested
    mount point. *)
Theorem target_of_detection proc_mounts df mount :
  let detected := detect_all_fuse_filesystems lower split strip proc_mounts df in
  let target := target_mount_info detected mount in
  Target.mount_point target = mount
  ∧ Target.fuse_type target ∈ ["encfs"; "bindfs"; "generic"; "unknown"]
  ∧ (Target.fuse_type target = "unknown" ↔
     mount ∉ MountInfo.mount_point <$> detected).
Proof.
  intros detected target. subst target. unfold target_mount_info.
  assert (Forall known_fuse_type detected) as Htypes.
  { subst detected. unfold detect_all_fuse_filesystems.
    destruct (detection_keeps_df_mounts_distinct_aux proc_mounts df)
      as (p & d & -> & _ & _ & _ & _ & _ & H). exact H. }
  destruct (first_mount_at detected mount) as [m|] eqn:Hfirst; simpl.
  - apply first_mount_at_Some in Hfirst as [Hin Hmp].
    rewrite Forall_forall in Htypes. specialize (Htypes m Hin).
    unfold known_fuse_type in Htypes. split; [done|]. split; [set_solver|].
    split.
    + intros Hunknown. rewrite Hunknown in Htypes. set_solver.
    + intros Hnot. exfalso. apply Hnot. apply list_elem_of_fmap. eauto.
  - split; [done|]. split; [set_solver|].
    split; [intros _; by apply first_mount_at_None | done].
Qed.
End detection_facts.

(** * Properties of the metadata walk *)

Lemma py_for_record_metadata sys visited r :
  py_for visited (λ '(rel_path, entry), record_metadata sys rel_path entry) r
  = (Return tt, record_all sys visited r).
Proof.
  revert r. induction visited as [|[p entry] visited IH]; intros r; [done|].
  cbn [py_for]. unfold py_bind at 1, record_metadata at 1, py_try, py_modify.
  by rewrite IH.
Qed.

Lemma record_all_cons sys p entry visited r :
  record_all sys ((p, entry) :: visited) r
  = record_all sys visited
      (MetadataResults.set_file p (extract_file_metadata sys entry) r).
Proof. done. Qed.

Lemma record_all_errors sys visited r :
  MetadataResults.errors (record_all sys visited r) = MetadataResults.errors r.
Proof.
  revert r. induction visited as [|[p entry] visited IH]; intros r; [done|].
  by rewrite record_all_cons, IH.
Qed.

Lemma record_all_info sys visited r :
  MetadataResults.filesystem_info (record_all sys visited r)
  = MetadataResults.filesystem_info r.
Proof.
  revert r. induction visited as [|[p entry] visited IH]; intros r; [done|].
  by rewrite record_all_cons, IH.
Qed.

Lemma record_all_get sys visited r p m :
  PyDict.get (MetadataResults.files (record_all sys visited r)) p = Some m →
  PyDict.get (MetadataResults.files r) p = Some m
  ∨ ∃ entry, (p, entry) ∈ visited ∧ m = extract_file_metadata sys entry.
Proof.
  revert r. induction visited as [|[q entry] visited IH]; intros r Hget; [by left|].
  rewrite record_all_cons in Hget. apply IH in Hget as [Hget|(e & Hin & ->)].
  - simpl in Hget. destruct (decide (q = p)) as [->|Hne].
    + rewrite get_setitem_eq in Hget. injection Hget as <-.
      right. exists entry. split; [left | done].
    + rewrite get_setitem_ne in Hget by done. by left.
  - right. exists e. split; [by right | done].
Qed.

Lemma record_all_keys sys visited r p :
  p ∈ PyDict.keys (MetadataResults.files (record_all sys visited r)) ↔
  p ∈ PyDict.keys (MetadataResults.files r) ∨ p ∈ visited.*1.
Proof.
  revert r. induction visited as [|[q entry] visited IH]; intros r.
  - simpl. rewrite elem_of_nil. tauto.
  - rewrite record_all_cons, IH, fmap_cons, elem_of_cons. simpl.
    rewrite <- !get_is_Some. destruct (decide (q = p)) as [->|Hne].
    + rewrite get_setitem_eq. split; [eauto | intros _; left; eauto].
    + rewrite get_setitem_ne by done. split; [tauto|].
      intros [?|[?|?]]; [tauto | congruence | tauto].
Qed.

Lemma extract_all_metadata_run mw mount_point output_file :
  extract_all_metadata mw mount_point output_file
  = let scanned_results :=
      record_all (system mw) (metadata_walk mw mount_point)
        {| MetadataResults.filesystem_info :=
             get_filesystem_info (statvfs mw) mount_point;
           MetadataResults.files := [];
           MetadataResults.errors := [] |} in
    match output_file with
    | None => scanned_results
    | Some f =>
        if decide (f = "") then scanned_results
        else match write_file mw f with
             | Return _ => scanned_results
             | Raise e =>
                 MetadataResults.append_error
                   ("Error saving metadata to " +:+ f +:+ ": " +:+ e)
                   scanned_results
             end
    end.
Proof.
  unfold extract_all_metadata, metadata_walk, py_try.
  by rewrite py_for_record_metadata.
Qed.

(** X22.  No failure on a path ever reaches the [errors] of
    [extract_all_metadata]: the list is empty, or holds the failure to save
    the results when an output file was given and could not be written. *)
Theorem metadata_errors_only_from_saving mw mount_point output_file :
  MetadataResults.errors (extract_all_metadata mw mount_point output_file)
  = match output_file with
    | None => []
    | Some f =>
        if decide (f = "") then []
        else match write_file mw f with
             | Return _ => []
             | Raise e => ["Error saving metadata to " +:+ f +:+ ": " +:+ e]
             end
    end.
Proof.
  rewrite extract_all_metadata_run. cbv zeta.
  destruct output_file as [f|]; [|by rewrite record_all_errors].
  case_decide; [by rewrite record_all_errors|].
  destruct (write_file mw f); simpl; by rewrite record_all_errors.
Qed.

(** X23.  [extract_all_metadata] has an entry for every directory and file
    it visits below the mount point and for nothing else; each entry is the
    metadata of a visited entry of that path, and it is complete
    (timestamps, no error) or failed (error, no timestamps). *)
Theorem metadata_covers_the_walk mw mount_point output_file :
  let r := extract_all_metadata mw mount_point output_file in
  (∀ p, p ∈ PyDict.keys (MetadataResults.files r) ↔
        p ∈ (metadata_walk mw mount_point).*1)
  ∧ (∀ p m, PyDict.get (MetadataResults.files r) p = Some m →
       (∃ entry, (p, entry) ∈ metadata_walk mw mount_point
                 ∧ m = extract_file_metadata (system mw) entry)
       ∧ (is_Some (Metadata.timestamps m) ↔ Metadata.error m = None)).
Proof.
  intros r.
  assert (MetadataResults.files r
          = MetadataResults.files
              (record_all (system mw) (metadata_walk mw mount_point)
                 {| MetadataResults.filesystem_info :=
                      get_filesystem_info (statvfs mw) mount_point;
                    MetadataResults.files := [];
                    MetadataResults.errors := [] |})) as ->.
  { subst r. rewrite extract_all_metadata_run. cbv zeta.
    destruct output_file as [f|]; [|done]. case_decide; [done|].
    by destruct (write_file mw f). }
  split.
  - intros p. rewrite record_all_keys. simpl. rewrite elem_of_nil. tauto.
  - intros p m [Hget|(entry & Hin & ->)]%record_all_get; [done|].
    split; [eauto | apply extract_file_metadata_complete_or_failed].
Qed.

(** * Properties of the recovery module *)

Section recovery_facts.
Context (splitlines : string → list string)
        (search_inode : string → option string)
        (strip : string → string)
        (path_join : string → string → string)
        (basename : string → string).

Lemma extends_by_refl recovery_dir bound r :
  extends_by path_join recovery_dir bound r r.
Proof.
  split; [done|]. exists []. rewrite app_nil_r. repeat split; simpl; [lia|].
  constructor.
Qed.

Lemma extends_by_trans recovery_dir n n' r1 r2 r3 :
  extends_by path_join recovery_dir n r1 r2 →
  extends_by path_join recovery_dir n' r2 r3 →
  extends_by path_join recovery_dir (n + n') r1 r3.
Proof.
  intros (He & new & Hf & Hlen & Hall) (He' & new' & Hf' & Hlen' & Hall').
  split; [congruence|]. exists (new ++ new').
  rewrite Hf', Hf, <- (assoc_L (++)), length_app.
  repeat split; [lia | by apply Forall_app].
Qed.

Lemma recover_line_extends rw mount_point recovery_dir position line r :
  extends_by path_join recovery_dir 1 r
    (recover_line search_inode strip path_join rw mount_point recovery_dir
       position line r).2.
Proof.
  unfold recover_line.
  destruct (str_in "*" line || str_in "r/r" line); [|apply extends_by_refl].
  destruct (search_inode line) as [inode|]; [|apply extends_by_refl].
  unfold mbind, py_mbind, py_bind, py_lift, mret, py_mret, py_ret, py_modify.
  destruct (open_wb rw position _) as [[]|e]; [|apply extends_by_refl].
  destruct (run_icat rw position mount_point inode) as [icat|e];
    [|apply extends_by_refl].
  case_decide as Hcode.
  - split; [done|]. eexists [_]. split; [done|]. split; [simpl; lia|].
    constructor; [|constructor]. split; [|done]. simpl.
    split; [done | eauto].
  - destruct (getsize rw position _) as [file_size|e]; [|apply extends_by_refl].
    split; [done|]. eexists [_]. split; [done|]. split; [simpl; lia|].
    constructor; [|constructor]. split; [|done]. simpl.
    split; [intros [? [=]] | done].
Qed.

Lemma recover_lines_extends rw mount_point recovery_dir lines position r :
  extends_by path_join recovery_dir (length lines) r
    (recover_lines search_inode strip path_join rw mount_point recovery_dir
       position lines r).2.
Proof.
  revert position r. induction lines as [|line lines IH]; intros position r.
  - apply extends_by_refl.
  - cbn [recover_lines length]. unfold mbind, py_mbind, py_bind.
    pose proof (recover_line_extends rw mount_point recovery_dir position line r)
      as Hline.
    destruct (recover_line _ _ _ _ _ _ _ _ r) as [[[]|e] r1]; simpl in Hline.
    + change (S (length lines)) with (1 + length lines).
      eapply extends_by_trans; [exact Hline | apply IH].
    + simpl. destruct Hline as (He & new & Hf & Hlen & Hall).
      split; [done|]. exists new. repeat split; [done | lia | done].
Qed.

Lemma recover_deleted_files_run rw mount_point fuse_type output_dir :
  let recovery_dir :=
    path_join output_dir ("recovered_" +:+ basename mount_point) in
  match makedirs rw recovery_dir with
  | Raise e =>
      recover_deleted_files splitlines search_inode strip path_join basename
        rw mount_point fuse_type output_dir = Raise e
  | Return _ =>
      ∃ r,
        recover_deleted_files splitlines search_inode strip path_join basename
          rw mount_point fuse_type output_dir = Return r
        ∧ (length (RecoveryResults.errors r) ≤ 1)%nat
        ∧ Forall (settled_in path_join recovery_dir)
                 (RecoveryResults.recovered_files r)
        ∧ match run_fls rw mount_point with
          | Raise e =>
              r = {| RecoveryResults.recovered_files := [];
                     RecoveryResults.errors := ["Recovery failed: " +:+ e] |}
          | Return fls_result =>
              if decide (Completed.returncode fls_result ≠ 0%Z) then
                r = {| RecoveryResults.recovered_files := [];
                       RecoveryResults.errors :=
                         ["fls failed: " +:+ Completed.stderr fls_result] |}
              else
                (length (RecoveryResults.recovered_files r)
                 ≤ length (splitlines (Completed.stdout fls_result)))%nat
          end
  end.
Proof.
  intros recovery_dir. unfold recover_deleted_files. fold recovery_dir.
  destruct (makedirs rw recovery_dir) as [[]|e]; [|done].
  eexists. split; [done|].
  unfold py_try, mbind, py_mbind, py_bind, py_lift.
  destruct (run_fls rw mount_point) as [fls_result|e]; simpl.
  2:{ repeat split; [lia | constructor]. }
  case_decide as Hcode; simpl.
  { repeat split; [lia | constructor]. }
  pose proof (recover_lines_extends rw mount_point recovery_dir
                (splitlines (Completed.stdout fls_result)) 0
                {| RecoveryResults.recovered_files := [];
                   RecoveryResults.errors := [] |}) as Hloop.
  destruct (recover_lines _ _ _ _ _ _ _ _ _) as [[[]|e] r1];
    destruct Hloop as (He & new & Hf & Hlen & Hall); simpl in *.
  - rewrite He, Hf. simpl. repeat split; [lia | done | done].
  - rewrite He, Hf. simpl. repeat split; [lia | done | done].
Qed.

(** X24.  When the recovery directory cannot be created the recovery raises.
    Otherwise it returns results with at most one error: when [fls] cannot be
    run, or ends with a non-zero return code, nothing is recovered and the
    single error says so; when [fls] succeeds, at most one entry is recovered
    per line of its output. *)
Theorem recovery_reports_at_most_one_error rw mount_point fuse_type output_dir :
  match makedirs rw (path_join output_dir ("recovered_" +:+ basename mount_point))
  with
  | Raise e =>
      recover_deleted_files splitlines search_inode strip path_join basename
        rw mount_point fuse_type output_dir = Raise e
  | Return _ =>
      ∃ r,
        recover_deleted_files splitlines search_inode strip path_join basename
          rw mount_point fuse_type output_dir = Return r
        ∧ (length (RecoveryResults.errors r) ≤ 1)%nat
        ∧ match run_fls rw mount_point with
          | Raise e =>
              r = {| RecoveryResults.recovered_files := [];
                     RecoveryResults.errors := ["Recovery failed: " +:+ e] |}
          | Return fls_result =>
              if decide (Completed.returncode fls_result ≠ 0%Z) then
                r = {| RecoveryResults.recovered_files := [];
                       RecoveryResults.errors :=
                         ["fls failed: " +:+ Completed.stderr fls_result] |}
              else
                (length (RecoveryResults.recovered_files r)
                 ≤ length (splitlines (Completed.stdout fls_result)))%nat
          end
  end.
Proof.
  pose proof (recover_deleted_files_run rw mount_point fuse_type output_dir) as H.
  cbv zeta in H. destruct (makedirs rw _); [|done].
  destruct H as (r & Hrun & Herr & _ & Hfls). eauto.
Qed.

(** X25.  Every entry that the recovery returns says how its extraction
    ended, by an [error] (the extraction tool failed) or by a [size] (it
    succeeded), never by both and never by neither; and its output path is
    its file name joined to the recovery directory. *)
Theorem recovered_entries_are_settled rw mount_point fuse_type output_dir r :
  recover_deleted_files splitlines search_inode strip path_join basename
    rw mount_point fuse_type output_dir = Return r →
  ∀ info, info ∈ RecoveryResults.recovered_files r →
    (is_Some (RecoveryInfo.error info) ↔ RecoveryInfo.size info = None)
    ∧ RecoveryInfo.output_path info
      = path_join (path_join output_dir ("recovered_" +:+ basename mount_point))
                  (RecoveryInfo.filename info).
Proof.
  intros Hrun info Hin.
  pose proof (recover_deleted_files_run rw mount_point fuse_type output_dir) as H.
  cbv zeta in H. destruct (makedirs rw _); [|congruence].
  destruct H as (r' & Hrun' & _ & Hall & _).
  rewrite Hrun in Hrun'. injection Hrun' as <-.
  rewrite Forall_forall in Hall. exact (Hall info Hin).
Qed.
End recovery_facts.

(** * Examples with the library calls on ASCII text *)

Lemma detection_example :
  detect_all_fuse_filesystems ascii_lower ascii_split ascii_strip
    (Return example_proc_mounts) (Return example_df)
  = [ {| MountInfo.source := "encfs";
         MountInfo.mount_point := "/home/u/private";
         MountInfo.fs_type := "fuse.encfs";
         MountInfo.fuse_type := "encfs";
         MountInfo.detection_method := "proc_mounts" |};
      {| MountInfo.source := "bindfs";
         MountInfo.mount_point := "/srv/share";
         MountInfo.fs_type := "fuse.bindfs";
         MountInfo.fuse_type := "bindfs";
         MountInfo.detection_method := "proc_mounts" |};
      {| MountInfo.source := "host:/data";
         MountInfo.mount_point := "/mnt/remote";
         MountInfo.fs_type := "fuse.sshfs";
         MountInfo.fuse_type := "generic";
         MountInfo.detection_method := "df_command" |} ].
Proof. vm_compute. reflexivity. Qed.

Lemma recovered_entries_are_settled_witness :
  ∃ r,
    recover_deleted_files ascii_splitlines ascii_search_inode ascii_strip
      os_path_join ascii_basename example_recovery_world
      "/mnt/evidence" "generic" "out" = Return r
    ∧ length (RecoveryResults.recovered_files r) = 2
    ∧ ∀ info, info ∈ RecoveryResults.recovered_files r →
        (is_Some (RecoveryInfo.error info) ↔ RecoveryInfo.size info = None)
        ∧ RecoveryInfo.output_path info
          = os_path_join (os_path_join "out" ("recovered_" +:+ ascii_basename "/mnt/evidence"))
                         (RecoveryInfo.filename info).
Proof.
  eexists. split; [vm_compute; reflexivity|]. split; [reflexivity|].
  apply (recovered_entries_are_settled ascii_splitlines ascii_search_inode
           ascii_strip os_path_join ascii_basename example_recovery_world
           "/mnt/evidence" "generic" "out").
  vm_compute. reflexivity.
Defined.
